(** * validate-skill.py: the SKILL.md validation pass

    A shallow embedding of [validate_skill] from
    [.github/skills/scripts/validate-skill.py] together with the pieces of
    the Python runtime it leans on: [str] methods, the backtracking
    semantics of [re], [os.path] on POSIX, and the shape of what
    [yaml.safe_load] hands back.

    Conventions.
    - A Python [str] is a [string] whose characters are code points below
      256; [len] is [String.length].
    - Files are given by the text that [read()] returns for them.
    - [yaml.safe_load] is an external collaborator and enters as a
      parameter of the validator; so does the file system.
    - A call ends by returning its two lists or by raising; messages are
      kept as data, [render_error] and [render_warning] give their text.
    - [validate_skill] is the pass on a skill whose files can be read and
      whose values can be printed; [validate_skill_under] is the same
      pass where [open], [read], [os.listdir] and [str()] may raise.

    The definitions come first: the runtime, the patterns, the rules in
    the words of the specification, the validator, and sample worlds to
    run it on.  The properties follow: the matcher against the language
    of a pattern, what each step contributes, and the claims C1 to C10. *)

From Stdlib Require Import Ascii String NArith ZArith Lia.
From stdpp Require Import base option list gmap strings sorting pretty.

Local Open Scope stdpp_scope.

(** ** Characters and text *)

Definition LF : ascii := "010"%char.
Definition CR : ascii := "013"%char.
Definition nl : string := String LF "".

Definition code (c : ascii) : N := N_of_ascii c.

Definition in_range (lo hi : N) (c : ascii) : bool :=
  ((lo <=? code c) && (code c <=? hi))%N.

(** ** Python [str] methods used by the validator *)

Module Py.

(** [str.isspace] on one character, which is also what [\s] matches in a
    [str] pattern: TAB..CR, FS..US, SPACE, NEL and NBSP. *)
Definition isspace (c : ascii) : bool :=
  in_range 9 13 c || in_range 28 32 c
  || (code c =? 133)%N || (code c =? 160)%N.

(** Line boundaries of [str.splitlines]. *)
Definition is_linebreak (c : ascii) : bool :=
  in_range 10 13 c || in_range 28 30 c || (code c =? 133)%N.

Fixpoint lstrip (s : string) : string :=
  match s with
  | "" => ""
  | String c s' => if isspace c then lstrip s' else s
  end.

Fixpoint rstrip (s : string) : string :=
  match s with
  | "" => ""
  | String c s' =>
      match rstrip s' with
      | "" => if isspace c then "" else String c ""
      | r => String c r
      end
  end.

Definition strip (s : string) : string := lstrip (rstrip s).

Definition starts_with_lf (s : string) : bool :=
  match s with String c _ => bool_decide (c = LF) | "" => false end.

(** [s.splitlines()]: no line terminators kept, CR LF counts once, and
    a trailing terminator does not open a last empty line. *)
Fixpoint splitlines (s : string) : list string :=
  match s with
  | "" => []
  | String c s' =>
      if bool_decide (c = CR) && starts_with_lf s' then splitlines s'
      else if is_linebreak c then "" :: splitlines s'
      else match splitlines s' with
           | [] => [String c ""]
           | l :: ls => String c l :: ls
           end
  end.

(** [f.readlines()] on the text of a file opened in text mode: lines end
    after each LF and keep it. *)
Fixpoint readlines (s : string) : list string :=
  match s with
  | "" => []
  | String c s' =>
      if bool_decide (c = LF) then String c "" :: readlines s'
      else match readlines s' with
           | [] => [String c ""]
           | l :: ls => String c l :: ls
           end
  end.

Definition lower_char (c : ascii) : ascii :=
  if in_range 65 90 c || in_range 192 214 c || in_range 216 222 c
  then ascii_of_N (code c + 32) else c.

Fixpoint lower (s : string) : string :=
  match s with
  | "" => ""
  | String c s' => String (lower_char c) (lower s')
  end.

(** [needle in hay] *)
Fixpoint contains (needle hay : string) : bool :=
  String.prefix needle hay
  || match hay with "" => false | String _ hay' => contains needle hay' end.

Fixpoint endswith (s suffix : string) : bool :=
  bool_decide (s = suffix)
  || match s with "" => false | String _ s' => endswith s' suffix end.

(** ["".join(parts)] *)
Definition join_empty (parts : list string) : string :=
  foldr String.append "" parts.

(** [sep.join(parts)] *)
Definition join (sep : string) (parts : list string) : string :=
  String.concat sep parts.

(** [s.split(sep)] for a one-character separator. *)
Fixpoint split_on (sep : ascii) (s : string) : list string :=
  match s with
  | "" => [""]
  | String c s' =>
      if bool_decide (c = sep) then "" :: split_on sep s'
      else match split_on sep s' with
           | [] => [String c ""]
           | l :: ls => String c l :: ls
           end
  end.

(** [repr] of a [str]. *)
Definition hex_digit (n : N) : ascii :=
  if (n <? 10)%N then ascii_of_N (48 + n) else ascii_of_N (87 + n).

Definition printable (c : ascii) : bool :=
  in_range 32 126 c || (in_range 161 255 c && negb (code c =? 173)%N).

Definition repr_char (quote : ascii) (c : ascii) : string :=
  if bool_decide (c = quote) || bool_decide (c = "\"%char)
  then String "\" (String c "")
  else if bool_decide (c = "009"%char) then "\t"
  else if bool_decide (c = LF) then "\n"
  else if bool_decide (c = CR) then "\r"
  else if printable c then String c ""
  else String "\" (String "x"
         (String (hex_digit (code c / 16)) (String (hex_digit (code c mod 16)) ""))).

Fixpoint has_char (q : ascii) (s : string) : bool :=
  match s with
  | "" => false
  | String c s' => bool_decide (c = q) || has_char q s'
  end.

Definition dquote : ascii := "034"%char.
Definition squote : ascii := "'"%char.

Fixpoint repr_body (quote : ascii) (s : string) : string :=
  match s with
  | "" => ""
  | String c s' => repr_char quote c +:+ repr_body quote s'
  end.

Definition repr (s : string) : string :=
  let quote :=
    if has_char squote s && negb (has_char dquote s) then dquote else squote in
  String quote (repr_body quote s +:+ String quote "").

(** [str(xs)] for a list of [str]. *)
Definition str_of_list (xs : list string) : string :=
  "[" +:+ join ", " (repr <$> xs) +:+ "]".

(** [str(n)] for a length. *)
Definition str_of_nat (n : nat) : string := pretty n.

End Py.

(** ** The fragment of Python's [re] used by the validator

    Python's matcher is a backtracking one: alternatives are explored in
    a fixed priority order and the first complete success is the match.
    [run r st] lists every success of [r] from the state [st] in exactly
    that order, so the head of the list is what Python reports. *)

Module Re.

Inductive greed := Greedy | Lazy.

Inductive regex :=
| Eps
| Bol                                   (* ^  (no MULTILINE) *)
| Eol                                   (* $  (no MULTILINE) *)
| Class (p : ascii → bool)              (* one character of a set *)
| Lit (w : string)                      (* literal text *)
| Seq (r1 r2 : regex)
| Alt (r1 r2 : regex)                   (* r1|r2 *)
| Star (g : greed) (p : ascii → bool)   (* set* and set*? *)
| Opt (r : regex)                       (* (...)? , greedy *)
| Group (r : regex).                    (* capturing parentheses *)

Record mstate := MState {
  m_pos : nat;              (* index into the subject *)
  m_rest : string;          (* subject from [m_pos] on *)
  m_groups : list string    (* captures, in order of completion *)
}.

Fixpoint strip_prefix (w s : string) : option string :=
  match w, s with
  | "", _ => Some s
  | String a w', String b s' =>
      if bool_decide (a = b) then strip_prefix w' s' else None
  | String _ _, "" => None
  end.

Fixpoint take_str (n : nat) (s : string) : string :=
  match n, s with
  | S n', String c s' => String c (take_str n' s')
  | _, _ => ""
  end.

Fixpoint drop_str (n : nat) (s : string) : string :=
  match n, s with
  | S n', String _ s' => drop_str n' s'
  | _, _ => s
  end.

Fixpoint star_greedy (p : ascii → bool) (pos : nat) (s : string)
  : list (nat * string) :=
  match s with
  | "" => [(pos, "")]
  | String c s' =>
      (if p c then star_greedy p (S pos) s' else []) ++ [(pos, s)]
  end.

Fixpoint star_lazy (p : ascii → bool) (pos : nat) (s : string)
  : list (nat * string) :=
  (pos, s) ::
  match s with
  | "" => []
  | String c s' => if p c then star_lazy p (S pos) s' else []
  end.

Definition at_eol (s : string) : bool :=
  bool_decide (s = "") || bool_decide (s = nl).

Definition move (st : mstate) (to : nat * string) : mstate :=
  MState to.1 to.2 (m_groups st).

Definition capture (st st' : mstate) : mstate :=
  MState (m_pos st') (m_rest st')
         (m_groups st' ++ [take_str (m_pos st' - m_pos st) (m_rest st)]).

Fixpoint run (r : regex) (st : mstate) : list mstate :=
  match r with
  | Eps => [st]
  | Bol => if bool_decide (m_pos st = 0) then [st] else []
  | Eol => if at_eol (m_rest st) then [st] else []
  | Class p =>
      match m_rest st with
      | String c s' => if p c then [move st (S (m_pos st), s')] else []
      | "" => []
      end
  | Lit w =>
      match strip_prefix w (m_rest st) with
      | Some s' => [move st (m_pos st + String.length w, s')]
      | None => []
      end
  | Seq r1 r2 => run r1 st ≫= run r2
  | Alt r1 r2 => run r1 st ++ run r2 st
  | Star Greedy p => move st <$> star_greedy p (m_pos st) (m_rest st)
  | Star Lazy p => move st <$> star_lazy p (m_pos st) (m_rest st)
  | Opt r' => run r' st ++ [st]
  | Group r' => capture st <$> run r' st
  end.

Definition start (pos : nat) (s : string) : mstate := MState pos s [].

(** [re.match(r, s)] *)
Definition re_match (r : regex) (s : string) : option mstate :=
  head (run r (start 0 s)).

(** [m.end()] and [m.group(1)] *)
Definition m_end (m : mstate) : nat := m_pos m.
Definition group1 (m : mstate) : string := default "" (m_groups m !! 0).

(** The scan of [re.findall]: try the pattern at each position from left
    to right; after a match of [n] characters resume right behind it.
    [skip] counts the characters of the current match that are still to
    be passed over.  Matches of length zero get no special treatment (a
    pattern that has them is outside this fragment): neither pattern
    scanned for in this program can match the empty string. *)
Fixpoint findall_from (r : regex) (pos : nat) (s : string) (skip : nat)
  : list string :=
  match s with
  | "" => []
  | String c s' =>
      match skip with
      | S k => findall_from r (S pos) s' k
      | 0 =>
          match head (run r (start pos s)) with
          | Some m =>
              take_str (m_pos m - pos) s
              :: findall_from r (S pos) s' (m_pos m - pos - 1)
          | None => findall_from r (S pos) s' 0
          end
      end
  end.

(** [re.findall(r, s)] for a pattern without capturing groups. *)
Definition findall (r : regex) (s : string) : list string :=
  findall_from r 0 s 0.

Fixpoint sub_from (r : regex) (repl : string) (pos : nat) (s : string)
  (skip : nat) : string :=
  match s with
  | "" => ""
  | String c s' =>
      match skip with
      | S k => sub_from r repl (S pos) s' k
      | 0 =>
          match head (run r (start pos s)) with
          | Some m =>
              if bool_decide (m_pos m = pos)
              then String c (sub_from r repl (S pos) s' 0)
              else repl +:+ sub_from r repl (S pos) s' (m_pos m - pos - 1)
          | None => String c (sub_from r repl (S pos) s' 0)
          end
      end
  end.

(** [re.sub(r, repl, s)] for a literal replacement and a pattern that
    cannot match the empty string. *)
Definition sub (r : regex) (repl : string) (s : string) : string :=
  sub_from r repl 0 s 0.

(** Character sets. *)
Definition any (_ : ascii) : bool := true.                       (* . with DOTALL *)
Definition dot (c : ascii) : bool := negb (bool_decide (c = LF)). (* . *)
Definition lower_alnum (c : ascii) : bool :=                     (* [a-z0-9] *)
  in_range 97 122 c || in_range 48 57 c.
Definition lower_alnum_hyphen (c : ascii) : bool :=              (* [a-z0-9-] *)
  lower_alnum c || bool_decide (c = "-"%char).

Declare Scope regex_scope.
Delimit Scope regex_scope with re.
Bind Scope regex_scope with regex.
Infix "·" := Seq (at level 41, right associativity) : regex_scope.

End Re.

(** ** [os.path] on POSIX *)

Module OsPath.

(** [os.path.join(a, b)] *)
Definition join (a b : string) : string :=
  if String.prefix "/" b then b
  else if bool_decide (a = "") || Py.endswith a "/" then a +:+ b
  else a +:+ "/" +:+ b.

Definition initial_slashes (path : string) : nat :=
  if String.prefix "/" path then
    if String.prefix "//" path && negb (String.prefix "///" path) then 2 else 1
  else 0.

(** One turn of the component loop of [normpath]. *)
Definition norm_step (initial : nat) (new_comps : list string) (comp : string)
  : list string :=
  if bool_decide (comp = "") || bool_decide (comp = ".") then new_comps
  else if bool_decide (comp ≠ "..")
          || (bool_decide (initial = 0) && bool_decide (new_comps = []))
          || bool_decide (last new_comps = Some "..")
       then new_comps ++ [comp]
       else removelast new_comps.

Definition norm_comps (path : string) : list string :=
  foldl (norm_step (initial_slashes path)) [] (Py.split_on "/" path).

Fixpoint slashes (n : nat) : string :=
  match n with 0 => "" | S n' => String "/" (slashes n') end.

(** [os.path.normpath(path)] *)
Definition normpath (path : string) : string :=
  if bool_decide (path = "") then "."
  else
    let p := slashes (initial_slashes path) +:+ Py.join "/" (norm_comps path) in
    if bool_decide (p = "") then "." else p.

(** [os.path.basename(p)]: what follows the last slash. *)
Definition basename (p : string) : string :=
  default "" (last (Py.split_on "/" p)).

End OsPath.

(** ** Values, the loader, the file system *)

(** What [yaml.safe_load] can put into a document.  The validator only
    ever asks a value for its truth value, for [str(v)], and whether it is
    a [str]; [POther] stands for every remaining kind of object (floats,
    sequences, nested mappings, dates, bytes) through those two answers. *)
Inductive pyval :=
| PNone
| PBool (b : bool)
| PInt (n : Z)
| PStr (s : string)
| POther (truth : bool) (text : string).

(** [bool(v)] *)
Definition truthy (v : pyval) : bool :=
  match v with
  | PNone => false
  | PBool b => b
  | PInt n => negb (n =? 0)%Z
  | PStr s => negb (bool_decide (s = ""))
  | POther t _ => t
  end.

(** What [str(v)] returns, where it returns; [str_error] below tells
    where it raises instead. *)
Definition py_str (v : pyval) : string :=
  match v with
  | PNone => "None"
  | PBool true => "True"
  | PBool false => "False"
  | PInt n => pretty n
  | PStr s => s
  | POther _ t => t
  end.

(** The top-level object of a loaded document: a [dict], of which only the
    [str] keys can be hit by the validator's lookups, or anything else. *)
Inductive document :=
| Mapping (m : gmap string pyval)
| NotMapping (v : pyval).

(** The exceptions that leave [validate_skill]: the two that its own
    statements raise, those of the calls it makes, and any other class by
    its name. *)
Inductive exn :=
| AttributeError
| TypeError
| ValueError
| UnicodeDecodeError
| OSError
| OtherException (class_name : string).

(** How a call of [yaml.safe_load] ends: with a [yaml.YAMLError], which
    step 2 catches, with a document, or with an exception of another
    class, which nothing catches ([ValueError] on the date [2024-13-45],
    for one). *)
Inductive load_result :=
| YAMLError (msg : string)
| Loaded (doc : document)
| LoadRaised (e : exn).

(** The answers of the operating system to the calls the validator
    makes; [read_text] is the text of a file that can be opened and
    decoded, [read_error] below tells which cannot. *)
Record filesystem := FileSystem {
  isfile : string → bool;
  isdir : string → bool;
  listdir : string → list string;
  read_text : string → string
}.

(** ** Messages *)

Inductive error :=
| ESkillMdNotFound (skill_dir : string)
| ENoFrontmatter
| EInvalidYaml (e : string)
| EMissingName
| ENameTooLong (n : nat)
| ENamePattern (name : string)
| ENameHyphens (name : string)
| ENameMismatch (name dir_name : string)
| EDescMissing
| EDescTooLong (n : nat).

Inductive warning :=
| WNoLicense
| WBodyLong (n : nat)
| WNoToc (fname : string) (n : nat)
| WNested (fname : string) (links : list string).

Global Instance error_eq_dec : EqDecision error.
Proof. solve_decision. Defined.
Global Instance warning_eq_dec : EqDecision warning.
Proof. solve_decision. Defined.

(** The text appended to [errors] for each kind of error. *)
Definition render_error (e : error) : string :=
  match e with
  | ESkillMdNotFound d => "SKILL.md not found in " +:+ d
  | ENoFrontmatter => "SKILL.md missing YAML frontmatter (--- delimiters)"
  | EInvalidYaml e => "Invalid YAML frontmatter: " +:+ e
  | EMissingName => "Missing required 'name' field in frontmatter"
  | ENameTooLong n =>
      "'name' exceeds 64 characters (" +:+ Py.str_of_nat n +:+ " chars)"
  | ENamePattern name =>
      "'name' must be lowercase alphanumeric + hyphens, not start/end with hyphen: '"
      +:+ name +:+ "'"
  | ENameHyphens name =>
      "'name' must not contain consecutive hyphens: '" +:+ name +:+ "'"
  | ENameMismatch name dir_name =>
      "'name' (" +:+ name +:+ ") does not match directory name ("
      +:+ dir_name +:+ ")"
  | EDescMissing => "Missing or empty 'description' field in frontmatter"
  | EDescTooLong n =>
      "'description' exceeds 1024 characters (" +:+ Py.str_of_nat n +:+ " chars)"
  end.

(** The text appended to [warnings] for each kind of warning. *)
Definition render_warning (w : warning) : string :=
  match w with
  | WNoLicense => "No 'license' field in frontmatter (recommended)"
  | WBodyLong n =>
      "SKILL.md body is " +:+ Py.str_of_nat n +:+ " lines (recommended max: 500)"
  | WNoToc fname n =>
      "references/" +:+ fname +:+ " (" +:+ Py.str_of_nat n
      +:+ " lines) has no Table of Contents (recommended for files > 100 lines)"
  | WNested fname links =>
      "references/" +:+ fname
      +:+ " has nested reference links (should be one level deep): "
      +:+ Py.str_of_list links
  end.

(** How a call of [validate_skill] ends. *)
Inductive outcome :=
| Returned (errors : list error) (warnings : list warning)
| Raised (e : exn).

(** ** The patterns *)

Import Re.

(** [^---\s*\n(.*?)\n---\s*\n] with [re.DOTALL] *)
Definition fm_re : regex :=
  (Bol · Lit "---" · Star Greedy Py.isspace · Lit nl
   · Group (Star Lazy any)
   · Lit (nl +:+ "---") · Star Greedy Py.isspace · Lit nl)%re.

(** [^[a-z0-9]([a-z0-9-]*[a-z0-9])?$] *)
Definition name_re : regex :=
  (Bol · Class lower_alnum
   · Opt (Group (Star Greedy lower_alnum_hyphen · Class lower_alnum))
   · Eol)%re.

(** [\s+] *)
Definition ws_re : regex := (Class Py.isspace · Star Greedy Py.isspace)%re.

(** [\[.*?\]\((?:references/|\./).*?\.md\)] *)
Definition nested_re : regex :=
  (Lit "[" · Star Lazy dot · Lit "]("
   · Alt (Lit "references/") (Lit "./")
   · Star Lazy dot · Lit ".md)")%re.

(** ** The rules in the specification's words *)

Fixpoint all_chars (p : ascii → bool) (s : string) : bool :=
  match s with
  | "" => true
  | String c s' => p c && all_chars p s'
  end.

Fixpoint last_char (s : string) : option ascii :=
  match s with
  | "" => None
  | String c "" => Some c
  | String _ s' => last_char s'
  end.

(** The name format: non-empty, made of lowercase ASCII letters, digits
    and hyphens, with a letter or digit at both ends. *)
Definition name_shape (name : string) : bool :=
  match name, last_char name with
  | String c rest, Some d =>
      lower_alnum c && all_chars lower_alnum_hyphen rest && lower_alnum d
  | _, _ => false
  end.

(** Every run of whitespace replaced by one space.  [in_run] tells that
    the character before [s] was whitespace. *)
Fixpoint squeeze_from (in_run : bool) (s : string) : string :=
  match s with
  | "" => ""
  | String c s' =>
      if Py.isspace c
      then (if in_run then squeeze_from true s'
            else String " " (squeeze_from true s'))
      else String c (squeeze_from false s')
  end.

Definition squeeze (s : string) : string := squeeze_from false s.

(** The words a pattern matches: [denote r pos w rest] says that [r]
    matches exactly [w] when [w] starts at index [pos] of the subject and
    [rest] follows it. *)
Fixpoint denote (r : regex) (pos : nat) (w rest : string) : Prop :=
  match r with
  | Eps => w = ""
  | Bol => w = "" ∧ pos = 0
  | Eol => w = "" ∧ (rest = "" ∨ rest = nl)
  | Class p => ∃ c, w = String c "" ∧ p c = true
  | Lit l => w = l
  | Seq r1 r2 =>
      ∃ w1 w2, w = w1 +:+ w2
               ∧ denote r1 pos w1 (w2 +:+ rest)
               ∧ denote r2 (pos + String.length w1) w2 rest
  | Alt r1 r2 => denote r1 pos w rest ∨ denote r2 pos w rest
  | Star _ p => all_chars p w = true
  | Opt r' => w = "" ∨ denote r' pos w rest
  | Group r' => denote r' pos w rest
  end.

(** A text with a delimited frontmatter at its start: a first line [---],
    a header block, and a line [---] behind it; whitespace may trail on
    both lines. *)
Definition delimited_frontmatter (content : string) : Prop :=
  ∃ ws1 header ws2 rest,
    content = "---" +:+ ws1 +:+ nl +:+ header +:+ nl +:+ "---" +:+ ws2 +:+ nl +:+ rest
    ∧ all_chars Py.isspace ws1 = true
    ∧ all_chars Py.isspace ws2 = true.

(** What step 8 looks for in a reference file: on one line, an opening
    bracket, later [](] directly followed by [references/] or [./], and
    later [.md)]. *)
Definition nested_link (text : string) : Prop :=
  ∃ pre label prefix path post,
    text = pre +:+ "[" +:+ label +:+ "](" +:+ prefix +:+ path +:+ ".md)" +:+ post
    ∧ all_chars dot label = true
    ∧ (prefix = "references/" ∨ prefix = "./")
    ∧ all_chars dot path = true.

(** A markdown link [[label](target)] whose target contains [references/]
    or begins with [./], and ends in [.md]. *)
Definition link_char (c : ascii) : bool :=
  negb (Py.isspace c) && negb (Py.has_char c "[]()").

Definition link_to_reference (text : string) : Prop :=
  ∃ pre label target post,
    text = pre +:+ "[" +:+ label +:+ "](" +:+ target +:+ ")" +:+ post
    ∧ all_chars dot label = true
    ∧ all_chars link_char target = true
    ∧ (Py.contains "references/" target = true ∨ String.prefix "./" target = true)
    ∧ Py.endswith target ".md" = true.

(** Step 4 on a description that is absent ([None]) or a [str]: missing
    when absent, empty or blank; otherwise too long when, trimmed and
    with every whitespace run squeezed into one space, it has more than
    1024 characters. *)
Definition description_errors (desc : option string) : list error :=
  match desc with
  | None => [EDescMissing]
  | Some d =>
      if bool_decide (Py.strip d = "") then [EDescMissing]
      else
        let n := String.length (squeeze (Py.strip d)) in
        if 1024 <? n then [EDescTooLong n] else []
  end.

(** A description that is there and counts as false: the null of a bare
    key, [false], 0, an empty string. *)
Definition falsy (desc : option pyval) : bool :=
  match desc with
  | Some v => negb (truthy v)
  | None => false
  end.

(** Sorting messages by the step that issues them. *)
Definition is_name_error (e : error) : bool :=
  match e with
  | EMissingName | ENameTooLong _ | ENamePattern _ | ENameHyphens _
  | ENameMismatch _ _ => true
  | _ => false
  end.

Definition is_description_error (e : error) : bool :=
  match e with EDescMissing | EDescTooLong _ => true | _ => false end.

Definition is_body_warning (w : warning) : bool :=
  match w with WBodyLong _ => true | _ => false end.

Definition is_toc_warning (w : warning) : bool :=
  match w with WNoToc _ _ => true | _ => false end.

Definition is_nested_warning (w : warning) : bool :=
  match w with WNested _ _ => true | _ => false end.

(** The reference file a warning of step 7 or 8 is about. *)
Definition warning_file (w : warning) : string :=
  match w with
  | WNoToc fname _ | WNested fname _ => fname
  | _ => ""
  end.

Definition toc_warning_for (fname : string) (w : warning) : bool :=
  is_toc_warning w && bool_decide (warning_file w = fname).

Definition nested_warning_for (fname : string) (w : warning) : bool :=
  is_nested_warning w && bool_decide (warning_file w = fname).

(** ** The validation pass *)

Section Validator.

(** [yaml.safe_load] *)
Variable safe_load : string → load_result.
Variable fs : filesystem.

(** [os.path.basename(os.path.normpath(skill_dir))] *)
Definition dir_name_of (skill_dir : string) : string :=
  OsPath.basename (OsPath.normpath skill_dir).

(** The four checks of the [else] branch of step 3, on a [str] name. *)
Definition name_too_long (name : string) : list error :=
  if 64 <? String.length name then [ENameTooLong (String.length name)] else [].

Definition name_bad_pattern (name : string) : list error :=
  if re_match name_re name is None then [ENamePattern name] else [].

Definition name_double_hyphen (name : string) : list error :=
  if Py.contains "--" name then [ENameHyphens name] else [].

Definition name_mismatch (name skill_dir : string) : list error :=
  let dir_name := dir_name_of skill_dir in
  if bool_decide (name ≠ dir_name) then [ENameMismatch name dir_name] else [].

(** 3. Validate 'name'.  [len] and [re.match] raise [TypeError] on a
    truthy value that is not a [str]. *)
Definition check_name (frontmatter : gmap string pyval) (skill_dir : string)
  : exn + list error :=
  let name := default PNone (frontmatter !! "name") in
  if negb (truthy name) then inr [EMissingName]
  else match name with
       | PStr name =>
           inr (name_too_long name ++ name_bad_pattern name
                ++ name_double_hyphen name ++ name_mismatch name skill_dir)
       | _ => inl TypeError
       end.

Definition collapse (desc_str : string) : string := Re.sub ws_re " " desc_str.

(** 4. Validate 'description' *)
Definition check_description (frontmatter : gmap string pyval) : list error :=
  let desc := default (PStr "") (frontmatter !! "description") in
  if negb (truthy desc) || bool_decide (Py.strip (py_str desc) = "")
  then [EDescMissing]
  else
    let desc_str := Py.strip (py_str desc) in
    let desc_collapsed := collapse desc_str in
    if 1024 <? String.length desc_collapsed
    then [EDescTooLong (String.length desc_collapsed)] else [].

(** 5. Check optional 'license' *)
Definition check_license (frontmatter : gmap string pyval) : list warning :=
  if frontmatter !! "license" is None then [WNoLicense] else [].

(** 6. Body line count *)
Definition body_lines (content : string) (fm_match : mstate) : list string :=
  let body := drop_str (m_end fm_match) content in
  Py.splitlines (Py.strip body).

Definition check_body (content : string) (fm_match : mstate) : list warning :=
  let n := length (body_lines content fm_match) in
  if 500 <? n then [WBodyLong n] else [].

(** [sorted(names)] on a list of [str]: code point order. *)
Definition sorted (names : list string) : list string :=
  merge_sort String.le names.

(** 7. Check reference files for TOC *)
Definition has_toc (ref_lines : list string) : bool :=
  let header := Py.lower (Py.join_empty (take 30 ref_lines)) in
  Py.contains "table of contents" header || Py.contains "## contents" header.

Definition toc_warning (fname : string) (ref_lines : list string)
  : list warning :=
  if (100 <? length ref_lines) && negb (has_toc ref_lines)
  then [WNoToc fname (length ref_lines)] else [].

Definition check_toc (skill_dir : string) : list warning :=
  let refs_dir := OsPath.join skill_dir "references" in
  if isdir fs refs_dir then
    fname ← sorted (listdir fs refs_dir);
    let fpath := OsPath.join refs_dir fname in
    if negb (Py.endswith fname ".md") || negb (isfile fs fpath) then []
    else toc_warning fname (Py.readlines (read_text fs fpath))
  else [].

(** 8. Check for deeply nested references *)
Definition nested_warning (fname ref_content : string) : list warning :=
  let nested := findall nested_re ref_content in
  if bool_decide (nested ≠ []) then [WNested fname (take 3 nested)] else [].

Definition check_nested (skill_dir : string) : list warning :=
  let refs_dir := OsPath.join skill_dir "references" in
  if isdir fs refs_dir then
    fname ← sorted (listdir fs refs_dir);
    let fpath := OsPath.join refs_dir fname in
    if negb (Py.endswith fname ".md") || negb (isfile fs fpath) then []
    else nested_warning fname (read_text fs fpath)
  else [].

(** The loop that steps 7 and 8 have in common, with the work done on
    a file that is not skipped left open. *)
Definition each_reference (body : string → string → list warning)
    (skill_dir : string) : list warning :=
  let refs_dir := OsPath.join skill_dir "references" in
  if isdir fs refs_dir then
    fname ← sorted (listdir fs refs_dir);
    let fpath := OsPath.join refs_dir fname in
    if negb (Py.endswith fname ".md") || negb (isfile fs fpath) then []
    else body fname fpath
  else [].

(** Steps 3 to 8, once the frontmatter is a [dict].  An exception out of
    step 3 ends the call. *)
Definition check_all (frontmatter : gmap string pyval) (content : string)
    (fm_match : mstate) (skill_dir : string) : outcome :=
  match check_name frontmatter skill_dir with
  | inl e => Raised e
  | inr name_errors =>
      Returned
        (name_errors ++ check_description frontmatter)
        (check_license frontmatter ++ check_body content fm_match
         ++ check_toc skill_dir ++ check_nested skill_dir)
  end.

Definition validate_skill (skill_dir : string) : outcome :=
  (* 1. Check SKILL.md exists *)
  let skill_md := OsPath.join skill_dir "SKILL.md" in
  if negb (isfile fs skill_md) then Returned [ESkillMdNotFound skill_dir] []
  else
    let content := read_text fs skill_md in
    (* 2. Parse frontmatter *)
    match re_match fm_re content with
    | None => Returned [ENoFrontmatter] []
    | Some fm_match =>
        match safe_load (group1 fm_match) with
        | YAMLError e => Returned [EInvalidYaml e] []
        | LoadRaised e => Raised e
        | Loaded (NotMapping _) => Raised AttributeError  (* no [.get] *)
        | Loaded (Mapping frontmatter) =>
            check_all frontmatter content fm_match skill_dir
        end
    end.

(** The two lists as the program builds them: lists of [str]. *)
Definition validate_skill_text (skill_dir : string)
  : exn + list string * list string :=
  match validate_skill skill_dir with
  | Returned errors warnings =>
      inr (render_error <$> errors, render_warning <$> warnings)
  | Raised e => inl e
  end.

(** The pass gets beyond steps 1 and 2: [SKILL.md] is there with text
    [content], the frontmatter pattern matches it as [fm_match], and the
    loader returns the [dict] [frontmatter] for the header block. *)
Record parses (skill_dir content : string) (fm_match : mstate)
    (frontmatter : gmap string pyval) : Prop := Parses {
  parses_file : isfile fs (OsPath.join skill_dir "SKILL.md") = true;
  parses_text : content = read_text fs (OsPath.join skill_dir "SKILL.md");
  parses_match : re_match fm_re content = Some fm_match;
  parses_load : safe_load (group1 fm_match) = Loaded (Mapping frontmatter)
}.

(** [name] is a [str], the way the data model has it, or else a value
    that counts as missing (a null from a bare [name:] key, [false], 0):
    the values on which step 3 does not raise. *)
Definition name_is_str (frontmatter : gmap string pyval) : Prop :=
  match frontmatter !! "name" with
  | Some (PStr _) | None => True
  | Some v => truthy v = false
  end.

(** The entries of [references/] that the two loops do not skip. *)
Definition is_reference_file (skill_dir fname : string) : Prop :=
  isdir fs (OsPath.join skill_dir "references") = true
  ∧ fname ∈ listdir fs (OsPath.join skill_dir "references")
  ∧ Py.endswith fname ".md" = true
  ∧ isfile fs (OsPath.join (OsPath.join skill_dir "references") fname) = true.

Definition reference_text (skill_dir fname : string) : string :=
  read_text fs (OsPath.join (OsPath.join skill_dir "references") fname).

End Validator.

Arguments validate_skill safe_load fs skill_dir : assert.

(** ** Calls that fail

    [validate_skill] takes [read_text] for what a read returns,
    [listdir] for what a listing returns and [py_str] for what [str()]
    returns.  Each of these calls can raise instead, and the program
    catches none of it.  [faults] tells which call raises what. *)

Record faults := Faults {
  (* [open(path, "r", encoding="utf-8")] and [read()] or [readlines()]
     on the file: an [OSError] when it cannot be opened, a
     [UnicodeDecodeError] when its bytes are not UTF-8 *)
  read_error : string → option exn;
  (* [os.listdir(path)] *)
  listdir_error : string → option exn;
  (* [str(v)] *)
  str_error : pyval → option exn
}.

Definition no_faults : faults :=
  {| read_error _ := None; listdir_error _ := None; str_error _ := None |}.

(** [str()] in CPython: an [int] with more decimal digits than
    [sys.get_int_max_str_digits()], that is one whose absolute value
    reaches 10 to that power, raises [ValueError]; the limit 0 switches
    the check off. *)
Definition int_str_error (max_str_digits : nat) (v : pyval) : option exn :=
  match v with
  | PInt n =>
      if (0 <? max_str_digits) && (10 ^ Z.of_nat max_str_digits <=? Z.abs n)%Z
      then Some ValueError else None
  | _ => None
  end.

(** Calls that return or raise, one after the other. *)
Global Instance exn_ret : MRet (sum exn) := λ A, inr.
Global Instance exn_bind : MBind (sum exn) := λ A B f x,
  match x with
  | inl e => inl e
  | inr a => f a
  end.

(** A [for] loop over names whose body can raise: the warnings that the
    iterations append, in order, unless one of them raises. *)
Fixpoint for_each (body : string → exn + list warning) (names : list string)
  : exn + list warning :=
  match names with
  | [] => inr []
  | fname :: names' =>
      ws ← body fname;
      more ← for_each body names';
      inr (ws ++ more)
  end.

Definition outcome_of (r : exn + list error * list warning) : outcome :=
  match r with
  | inl e => Raised e
  | inr (errors, warnings) => Returned errors warnings
  end.

Section Faults.

Variable fl : faults.
Variable safe_load : string → load_result.
Variable fs : filesystem.

(** [with open(path, "r", encoding="utf-8") as f: f.read()] *)
Definition open_read (path : string) : exn + string :=
  match read_error fl path with
  | Some e => inl e
  | None => inr (read_text fs path)
  end.

(** [os.listdir(path)] *)
Definition os_listdir (path : string) : exn + list string :=
  match listdir_error fl path with
  | Some e => inl e
  | None => inr (listdir fs path)
  end.

(** [str(v)] *)
Definition str (v : pyval) : exn + string :=
  match str_error fl v with
  | Some e => inl e
  | None => inr (py_str v)
  end.

(** 4. Validate 'description'.  [not desc or not str(desc).strip()]
    does not call [str] on a falsy [desc]. *)
Definition check_description_under (frontmatter : gmap string pyval)
  : exn + list error :=
  let desc := default (PStr "") (frontmatter !! "description") in
  if negb (truthy desc) then inr [EDescMissing]
  else
    text ← str desc;
    if bool_decide (Py.strip text = "") then inr [EDescMissing]
    else
      text ← str desc;
      let desc_str := Py.strip text in
      let desc_collapsed := collapse desc_str in
      inr (if 1024 <? String.length desc_collapsed
           then [EDescTooLong (String.length desc_collapsed)] else []).

(** 7. Check reference files for TOC *)
Definition check_toc_under (skill_dir : string) : exn + list warning :=
  let refs_dir := OsPath.join skill_dir "references" in
  if isdir fs refs_dir then
    names ← os_listdir refs_dir;
    for_each
      (λ fname,
         let fpath := OsPath.join refs_dir fname in
         if negb (Py.endswith fname ".md") || negb (isfile fs fpath) then inr []
         else
           ref_text ← open_read fpath;
           inr (toc_warning fname (Py.readlines ref_text)))
      (sorted names)
  else inr [].

(** 8. Check for deeply nested references *)
Definition check_nested_under (skill_dir : string) : exn + list warning :=
  let refs_dir := OsPath.join skill_dir "references" in
  if isdir fs refs_dir then
    names ← os_listdir refs_dir;
    for_each
      (λ fname,
         let fpath := OsPath.join refs_dir fname in
         if negb (Py.endswith fname ".md") || negb (isfile fs fpath) then inr []
         else
           ref_content ← open_read fpath;
           inr (nested_warning fname ref_content))
      (sorted names)
  else inr [].

(** Steps 3 to 8, once the frontmatter is a [dict]: the first exception
    ends the call and the two lists are lost. *)
Definition check_all_under (frontmatter : gmap string pyval) (content : string)
    (fm_match : mstate) (skill_dir : string) : outcome :=
  outcome_of (
    name_errors ← check_name frontmatter skill_dir;
    desc_errors ← check_description_under frontmatter;
    tocs ← check_toc_under skill_dir;
    nesteds ← check_nested_under skill_dir;
    inr (name_errors ++ desc_errors,
         check_license frontmatter ++ check_body content fm_match
         ++ tocs ++ nesteds)).

Definition validate_skill_under (skill_dir : string) : outcome :=
  (* 1. Check SKILL.md exists *)
  let skill_md := OsPath.join skill_dir "SKILL.md" in
  if negb (isfile fs skill_md) then Returned [ESkillMdNotFound skill_dir] []
  else
    match open_read skill_md with
    | inl e => Raised e
    | inr content =>
        (* 2. Parse frontmatter *)
        match re_match fm_re content with
        | None => Returned [ENoFrontmatter] []
        | Some fm_match =>
            match safe_load (group1 fm_match) with
            | YAMLError e => Returned [EInvalidYaml e] []
            | LoadRaised e => Raised e
            | Loaded (NotMapping _) => Raised AttributeError  (* no [.get] *)
            | Loaded (Mapping frontmatter) =>
                check_all_under frontmatter content fm_match skill_dir
            end
        end
    end.

(** Nothing that the pass reads in [skill_dir] fails: [SKILL.md], the
    listing of [references], and the files of it that the loops open. *)
Definition readable (skill_dir : string) : Prop :=
  let refs_dir := OsPath.join skill_dir "references" in
  read_error fl (OsPath.join skill_dir "SKILL.md") = None
  ∧ (isdir fs refs_dir = true → listdir_error fl refs_dir = None)
  ∧ ∀ fname,
      is_reference_file fs skill_dir fname →
      read_error fl (OsPath.join refs_dir fname) = None.

(** The read that makes step 7 fail with [e]: the listing of
    [references], or the first file in sorted order, among those the
    loop opens, that cannot be read. *)
Definition references_fail (skill_dir : string) (e : exn) : Prop :=
  let refs_dir := OsPath.join skill_dir "references" in
  isdir fs refs_dir = true
  ∧ (listdir_error fl refs_dir = Some e
     ∨ (listdir_error fl refs_dir = None
        ∧ ∃ before fname after,
            sorted (listdir fs refs_dir) = before ++ fname :: after
            ∧ is_reference_file fs skill_dir fname
            ∧ read_error fl (OsPath.join refs_dir fname) = Some e
            ∧ ∀ earlier,
                earlier ∈ before →
                is_reference_file fs skill_dir earlier →
                read_error fl (OsPath.join refs_dir earlier) = None)).

(** The fatal conditions of steps 1 and 2, each with the error that
    reports it: no [SKILL.md]; a [SKILL.md] whose text has no delimited
    frontmatter at its start; a header block on which the loader signals
    a [yaml.YAMLError]. *)
Inductive fatal (skill_dir : string) : error → Prop :=
| fatal_not_found :
    isfile fs (OsPath.join skill_dir "SKILL.md") = false →
    fatal skill_dir (ESkillMdNotFound skill_dir)
| fatal_no_frontmatter :
    isfile fs (OsPath.join skill_dir "SKILL.md") = true →
    read_error fl (OsPath.join skill_dir "SKILL.md") = None →
    ¬ delimited_frontmatter (read_text fs (OsPath.join skill_dir "SKILL.md")) →
    fatal skill_dir ENoFrontmatter
| fatal_yaml_error (fm_match : mstate) (msg : string) :
    isfile fs (OsPath.join skill_dir "SKILL.md") = true →
    read_error fl (OsPath.join skill_dir "SKILL.md") = None →
    re_match fm_re (read_text fs (OsPath.join skill_dir "SKILL.md")) = Some fm_match →
    safe_load (group1 fm_match) = YAMLError msg →
    fatal skill_dir (EInvalidYaml msg).

(** The description of a [dict] can be printed: [str] returns on it, or
    it is not asked to. *)
Definition printable (frontmatter : gmap string pyval) : Prop :=
  ∀ v, frontmatter !! "description" = Some v →
       truthy v = true → str_error fl v = None.

End Faults.

Arguments validate_skill_under fl safe_load fs skill_dir : assert.

(** ** Sample worlds

    A file system given by its files and directory listings, and a
    loader given by the documents it returns for a handful of header
    blocks; they make the validator run on concrete directories. *)

Definition fs_of (files : list (string * string))
    (dirs : list (string * list string)) : filesystem :=
  let fm : gmap string string := list_to_map files in
  let dm : gmap string (list string) := list_to_map dirs in
  {| isfile p := bool_decide (is_Some (fm !! p));
     isdir p := bool_decide (is_Some (dm !! p));
     listdir p := default [] (dm !! p);
     read_text p := default "" (fm !! p) |}.

Definition loader_of (table : list (string * document)) : string → load_result :=
  λ header,
    match (list_to_map table : gmap string document) !! header with
    | Some doc => Loaded doc
    | None => YAMLError "header block outside the sample table"
    end.

(** [unlines] puts an LF behind every line. *)
Definition unlines (ls : list string) : string :=
  Py.join_empty ((λ l, l +:+ nl) <$> ls).

(** A skill file: the header lines between two [---] lines, then the body. *)
Definition skill_md (header body : list string) : string :=
  unlines (["---"] ++ header ++ ["---"] ++ body).

Definition header_text (header : list string) : string := Py.join nl header.

Definition dict (kvs : list (string * pyval)) : document :=
  Mapping (list_to_map kvs).

(** The match object of a text that does match the frontmatter pattern. *)
Definition the_match (content : string) : mstate :=
  default (start 0 content) (re_match fm_re content).

(** *** Headers and the documents they load to *)

Definition meta (name desc : pyval) : gmap string pyval :=
  list_to_map [("name", name); ("description", desc); ("license", PStr "MIT")].

(** The header lines [name: ...], [description: ...] with its
    continuation lines, and [license: MIT]. *)
Definition header_of (name desc : string) (more : list string) : list string :=
  ["name: " +:+ name; "description: " +:+ desc] ++ more ++ ["license: MIT"].

Fixpoint chars (n : nat) (c : ascii) : string :=
  match n with 0 => "" | S n' => String c (chars n' c) end.

Definition good_header : list string := header_of "my-skill" "A skill" [].
Definition good_meta : gmap string pyval := meta (PStr "my-skill") (PStr "A skill").

Definition empty_name_header : list string := header_of "''" "A skill" [].
Definition empty_name_meta : gmap string pyval := meta (PStr "") (PStr "A skill").

Definition null_name_header : list string :=
  ["name:"; "description: A skill"; "license: MIT"].
Definition null_name_meta : gmap string pyval := meta PNone (PStr "A skill").

Definition number_name_header : list string := header_of "123" "A skill" [].
Definition number_name_meta : gmap string pyval := meta (PInt 123) (PStr "A skill").

Definition named_header (name : string) : list string := header_of name "A skill" [].
Definition named_meta (name : string) : gmap string pyval :=
  meta (PStr name) (PStr "A skill").

(** Descriptions: blank inside quotes, a literal block of two lines,
    1025 letters, and two letters with 1100 spaces between them. *)
Definition blank_desc_header : list string := header_of "my-skill" "'   '" [].
Definition blank_desc_meta : gmap string pyval := meta (PStr "my-skill") (PStr "   ").

Definition block_desc_header : list string :=
  header_of "my-skill" "|" ["  first line"; "  second line"].
Definition block_desc_meta : gmap string pyval :=
  meta (PStr "my-skill") (PStr ("first line" +:+ nl +:+ "second line" +:+ nl)).

Definition long_desc_header : list string := header_of "my-skill" (chars 1025 "a") [].
Definition long_desc_meta : gmap string pyval :=
  meta (PStr "my-skill") (PStr (chars 1025 "a")).

Definition spaced_desc : string := "a" +:+ chars 1100 " " +:+ "b".
Definition spaced_desc_header : list string :=
  header_of "my-skill" ("'" +:+ spaced_desc +:+ "'") [].
Definition spaced_desc_meta : gmap string pyval :=
  meta (PStr "my-skill") (PStr spaced_desc).

Definition name_only_header : list string := ["name: my-skill"].
Definition name_only_meta : gmap string pyval :=
  list_to_map [("name", PStr "my-skill")].

(** What [yaml.safe_load] returns on the header blocks of the samples. *)
Definition sample_loader : string → load_result :=
  loader_of
    [(header_text good_header, Mapping good_meta);
     (header_text empty_name_header, Mapping empty_name_meta);
     (header_text null_name_header, Mapping null_name_meta);
     (header_text number_name_header, Mapping number_name_meta);
     (header_text (named_header "My-Skill"), Mapping (named_meta "My-Skill"));
     (header_text (named_header "my--skill"), Mapping (named_meta "my--skill"));
     (header_text (named_header "bar"), Mapping (named_meta "bar"));
     (header_text blank_desc_header, Mapping blank_desc_meta);
     (header_text block_desc_header, Mapping block_desc_meta);
     (header_text long_desc_header, Mapping long_desc_meta);
     (header_text spaced_desc_header, Mapping spaced_desc_meta);
     (header_text name_only_header, Mapping name_only_meta);
     ("", NotMapping PNone);
     ("just text", NotMapping (PStr "just text"))].

(** *** Directories *)

(** A skill directory that holds [SKILL.md] and nothing else. *)
Definition dir_fs (skill_dir : string) (header body : list string) : filesystem :=
  fs_of [(skill_dir +:+ "/SKILL.md", skill_md header body)] [].

Definition lines_of (n : nat) : list string := replicate n "text".

(** [skills/my-skill] with a body of [n] lines. *)
Definition body_fs (n : nat) : filesystem :=
  dir_fs "skills/my-skill" good_header (lines_of n).

(** [skills/foo] whose [SKILL.md] has the given header and a short body. *)
Definition header_fs (header : list string) : filesystem :=
  dir_fs "skills/foo" header ["# Foo"].

(** [skills/my-skill] with reference files [a.md] and [b.md] of the
    given texts, next to a directory [old.md] and a file [notes.txt]. *)
Definition refs_fs (a b : string) : filesystem :=
  fs_of [("skills/my-skill/SKILL.md", skill_md good_header ["# My skill"]);
         ("skills/my-skill/references/a.md", a);
         ("skills/my-skill/references/b.md", b);
         ("skills/my-skill/references/notes.txt", "[see](references/a.md)")]
        [("skills/my-skill/references", ["notes.txt"; "b.md"; "old.md"; "a.md"]);
         ("skills/my-skill/references/old.md", [])].

(** A reference text of [n] lines that starts with the line [first]. *)
Definition ref_text_of (first : string) (n : nat) : string :=
  unlines (first :: lines_of (n - 1)).

(** [skills/My-Skill], named as its directory. *)
Definition capitals_fs : filesystem :=
  dir_fs "skills/My-Skill" (named_header "My-Skill") ["# My skill"].

(** [a.md] and [b.md] of 101 lines each, without a table of contents and
    with a nested link in the first line. *)
Definition long_refs_fs : filesystem :=
  refs_fs (ref_text_of "[see](references/b.md)" 101)
          (ref_text_of "see [a](./a.md) and [c](./c.md)" 101).

(** The text of [SKILL.md] in a skill directory. *)
Definition skill_text (fs : filesystem) (skill_dir : string) : string :=
  read_text fs (OsPath.join skill_dir "SKILL.md").

(** The length of the longest prefix made of characters of a set. *)
Fixpoint span (p : ascii → bool) (s : string) : nat :=
  match s with
  | "" => 0
  | String c s' => if p c then S (span p s') else 0
  end.

(** ** The command line

    [main] prints its report line by line and ends the process.  A run
    is given by the arguments of the [print] calls, in order, and by the
    way the process ends: [sys.exit(code)], or an exception that nothing
    catches (the interpreter then ends with exit status 1). *)

Inductive status :=
| Exit (code : nat)
| Uncaught (e : exn).

Definition exit_status (s : status) : nat :=
  match s with
  | Exit code => code
  | Uncaught _ => 1
  end.

(** What the [print] calls leave on standard output. *)
Definition stdout_text (printed : list string) : string := unlines printed.

Section Main.

Variable safe_load : string → load_result.
Variable fs : filesystem.

(** One block of the report: nothing for an empty list, else the header
    and one line per message. *)
Definition report_block (header : string) (messages : list string)
  : list string :=
  if bool_decide (messages = []) then []
  else (nl +:+ " " +:+ header +:+ " (" +:+ Py.str_of_nat (length messages) +:+ "):")
       :: ((λ m, "  - " +:+ m) <$> messages).

Definition usage : list string :=
  ["Usage: python validate-skill.py <path-to-skill-directory>";
   "Example: python validate-skill.py .github/skills/salesforce-developer"].

(** [main()] with [sys.argv = argv]. *)
Definition main (argv : list string) : list string * status :=
  if length argv <? 2 then (usage, Exit 1)
  else
    let skill_dir := default "" (argv !! 1) in
    if negb (isdir fs skill_dir)
    then (["ERROR: '" +:+ skill_dir +:+ "' is not a directory"], Exit 1)
    else
      let head := ["Validating skill: " +:+ skill_dir; chars 60 "="] in
      match validate_skill_text safe_load fs skill_dir with
      | inl e => (head, Uncaught e)
      | inr (errors, warnings) =>
          (head
           ++ report_block "ERRORS" errors
           ++ report_block "WARNINGS" warnings
           ++ (if bool_decide (errors = []) && bool_decide (warnings = [])
               then [nl +:+ " All checks passed!"] else [])
           ++ [""],
           if bool_decide (errors = []) then Exit 0 else Exit 1)
      end.

End Main.

(** ** More rules in plain words *)

(** The number of line feeds in a text. *)
Fixpoint count_lf (s : string) : nat :=
  match s with
  | "" => 0
  | String c s' => (if bool_decide (c = LF) then 1 else 0) + count_lf s'
  end.

(** The final path segment that [dir_name_of] computes, read off the
    components that [normpath] keeps: the last of them, or [.] for a
    relative path without any, or nothing for the root. *)
Definition last_component (path : string) : string :=
  match last (OsPath.norm_comps path) with
  | Some c => c
  | None => if bool_decide (OsPath.initial_slashes path = 0) then "." else ""
  end.

(** Two file systems that answer alike on everything a validation of
    [skill_dir] asks: [SKILL.md], the [references] directory, its
    listing up to the order of the entries, and the entries of the
    listing that end in [.md]. *)
Definition same_footprint (fs1 fs2 : filesystem) (skill_dir : string) : Prop :=
  let skill_md := OsPath.join skill_dir "SKILL.md" in
  let refs_dir := OsPath.join skill_dir "references" in
  isfile fs1 skill_md = isfile fs2 skill_md
  ∧ read_text fs1 skill_md = read_text fs2 skill_md
  ∧ isdir fs1 refs_dir = isdir fs2 refs_dir
  ∧ listdir fs1 refs_dir ≡ₚ listdir fs2 refs_dir
  ∧ ∀ fname,
      fname ∈ listdir fs1 refs_dir →
      Py.endswith fname ".md" = true →
      isfile fs1 (OsPath.join refs_dir fname) = isfile fs2 (OsPath.join refs_dir fname)
      ∧ (isfile fs1 (OsPath.join refs_dir fname) = true →
         read_text fs1 (OsPath.join refs_dir fname)
         = read_text fs2 (OsPath.join refs_dir fname)).

(** *** More sample worlds *)

(** A description that is the number 0. *)
Definition zero_desc_header : list string := header_of "my-skill" "0" [].
Definition zero_desc_meta : gmap string pyval := meta (PStr "my-skill") (PInt 0).

(** A name of 66 characters with a capital and two hyphens in a row, and
    nothing else in the header. *)
Definition bad_name : string := "A--" +:+ chars 63 "a".
Definition bad_name_header : list string := ["name: " +:+ bad_name].
Definition bad_name_meta : gmap string pyval :=
  list_to_map [("name", PStr bad_name)].

(** What [yaml.safe_load] returns on these header blocks and on the
    earlier ones. *)
Definition wider_loader : string → load_result :=
  λ header,
    if bool_decide (header = header_text zero_desc_header)
    then Loaded (Mapping zero_desc_meta)
    else if bool_decide (header = header_text bad_name_header)
    then Loaded (Mapping bad_name_meta)
    else sample_loader header.

(** A pattern without capturing parentheses. *)
Fixpoint group_free (r : regex) : bool :=
  match r with
  | Group _ => false
  | Seq r1 r2 | Alt r1 r2 => group_free r1 && group_free r2
  | Opt r' => group_free r'
  | _ => true
  end.

(** The number of lines of a text: its line feeds, and one more for a
    last line that no line feed ends. *)
Definition line_count (text : string) : nat :=
  count_lf text
  + match last_char text with
    | Some c => if bool_decide (c = LF) then 0 else 1
    | None => 0
    end.

(** A skill file written out: the line [---], the header block, the line
    [---], the body. *)
Definition skill_file (header body : string) : string :=
  "---" +:+ nl +:+ header +:+ nl +:+ "---" +:+ nl +:+ body.

(** The first character of a text is there and is not whitespace. *)
Definition starts_with_text (s : string) : bool :=
  match s with
  | "" => false
  | String c _ => negb (Py.isspace c)
  end.

(** The pieces [xs] lie in the text [s] one behind the other, without
    overlap. *)
Fixpoint interleaved (xs : list string) (s : string) : Prop :=
  match xs with
  | [] => True
  | x :: xs' => ∃ pre rest, s = pre +:+ x +:+ rest ∧ interleaved xs' rest
  end.

(** A skill in the current directory. *)
Definition dot_fs : filesystem := dir_fs "." good_header ["# My skill"].

(** [refs_fs] seen through another listing order, with another text in
    [notes.txt] and one more file next to [SKILL.md]. *)
Definition shuffled_refs_fs (a b : string) : filesystem :=
  fs_of [("skills/my-skill/SKILL.md", skill_md good_header ["# My skill"]);
         ("skills/my-skill/README.md", "read me");
         ("skills/my-skill/references/a.md", a);
         ("skills/my-skill/references/b.md", b);
         ("skills/my-skill/references/notes.txt", "other notes")]
        [("skills/my-skill/references", ["a.md"; "old.md"; "notes.txt"; "b.md"]);
         ("skills/my-skill/references/old.md", [])].

(** [skills/my-skill] whose description is the number 0. *)
Definition zero_desc_fs : filesystem :=
  dir_fs "skills/my-skill" zero_desc_header ["# My skill"].

(** *** Worlds in which a call fails *)

(** CPython as it comes: an [int] of more than 4300 digits cannot be
    printed. *)
Definition cpython : faults :=
  {| read_error _ := None;
     listdir_error _ := None;
     str_error := int_str_error 4300 |}.

(** [a.md] of the references is not UTF-8. *)
Definition undecodable_a : faults :=
  {| read_error p :=
       if bool_decide (p = "skills/my-skill/references/a.md")
       then Some UnicodeDecodeError else None;
     listdir_error _ := None;
     str_error _ := None |}.

(** A description written in hexadecimal, [0xfff...f] with 4000 digits:
    an [int] of 4817 decimal digits. *)
Definition huge_desc : Z := (16 ^ 4000 - 1)%Z.
Definition huge_desc_header : list string :=
  header_of "my-skill" ("0x" +:+ chars 4000 "f") [].
Definition huge_desc_meta : gmap string pyval :=
  meta (PStr "my-skill") (PInt huge_desc).

(** A date with a month 13, on which the loader raises [ValueError]. *)
Definition dated_header : list string :=
  header_of "my-skill" "A skill" ["released: 2024-13-45"].

(** A name that is the number 123, and nothing else in the header. *)
Definition number_only_header : list string := ["name: 123"].
Definition number_only_meta : gmap string pyval :=
  list_to_map [("name", PInt 123)].

(** What [yaml.safe_load] does on these header blocks and on the
    earlier ones. *)
Definition raising_loader : string → load_result :=
  λ header,
    if bool_decide (header = header_text huge_desc_header)
    then Loaded (Mapping huge_desc_meta)
    else if bool_decide (header = header_text dated_header)
    then LoadRaised ValueError
    else if bool_decide (header = header_text number_only_header)
    then Loaded (Mapping number_only_meta)
    else wider_loader header.

(** * Properties *)

(** ** Text *)

Lemma string_app_cons (c : ascii) (s1 s2 : string) :
  String c s1 +:+ s2 = String c (s1 +:+ s2).
Proof. done. Qed.

Lemma string_app_nil_l (s : string) : "" +:+ s = s.
Proof. done. Qed.

Lemma string_app_nil_r (s : string) : s +:+ "" = s.
Proof. induction s as [|c s IH]; [done|]. by rewrite string_app_cons, IH. Qed.

Lemma string_app_assoc (s1 s2 s3 : string) :
  (s1 +:+ s2) +:+ s3 = s1 +:+ (s2 +:+ s3).
Proof.
  induction s1 as [|c s1 IH]; [done|]. by rewrite !string_app_cons, IH.
Qed.

Lemma string_app_length (s1 s2 : string) :
  String.length (s1 +:+ s2) = String.length s1 + String.length s2.
Proof.
  induction s1 as [|c s1 IH]; [done|]. rewrite string_app_cons. cbn.
  by rewrite IH.
Qed.

Lemma all_chars_app (p : ascii → bool) (s1 s2 : string) :
  all_chars p (s1 +:+ s2) = all_chars p s1 && all_chars p s2.
Proof.
  induction s1 as [|c s1 IH]; [done|].
  rewrite string_app_cons. cbn. rewrite IH. by destruct (p c).
Qed.

Lemma all_chars_any (s : string) : all_chars Re.any s = true.
Proof. induction s as [|c s IH]; [done|]. done. Qed.

(** ** The matcher against the language of a pattern *)

Section Matcher.
Import Re.

Lemma strip_prefix_Some (w s s' : string) :
  strip_prefix w s = Some s' ↔ s = w +:+ s'.
Proof.
  revert s. induction w as [|a w IH]; intros s; cbn.
  - rewrite string_app_nil_l. split; [by intros [= ->]|by intros ->].
  - destruct s as [|b s]; [by rewrite string_app_cons|].
    rewrite string_app_cons. case_bool_decide as Hab.
    + subst b. rewrite IH. split; [by intros ->|by intros [= ->]].
    + split; [done|]. intros [= ? ?]. done.
Qed.

Lemma star_greedy_elem (p : ascii → bool) (pos n : nat) (s s' : string) :
  (n, s') ∈ star_greedy p pos s ↔
  ∃ w, s = w +:+ s' ∧ n = pos + String.length w ∧ all_chars p w = true.
Proof.
  revert pos. induction s as [|c s IH]; intros pos; cbn.
  - rewrite list_elem_of_singleton. split.
    + intros [= -> ->]. exists "". split_and!; [done|cbn; lia|done].
    + intros ([|? w] & Hw & -> & _); [|by rewrite string_app_cons in Hw].
      rewrite string_app_nil_l in Hw. subst s'. f_equal. cbn. lia.
  - rewrite elem_of_app, list_elem_of_singleton. split.
    + intros [Hin|[= -> ->]].
      * destruct (p c) eqn:Hc; [|by apply elem_of_nil in Hin].
        apply IH in Hin as (w & -> & -> & Hw).
        exists (String c w). rewrite string_app_cons. cbn.
        rewrite Hc, Hw. split_and!; [done|cbn; lia|done].
      * exists "". split_and!; [done|cbn; lia|done].
    + intros ([|a w] & Hw & -> & Hall).
      * right. rewrite string_app_nil_l in Hw. subst s'. f_equal. cbn. lia.
      * left. rewrite string_app_cons in Hw. injection Hw as <- ->.
        cbn in Hall. apply andb_true_iff in Hall as [-> Hall].
        apply IH. exists w. split_and!; [done|cbn; lia|done].
Qed.

Lemma star_lazy_elem (p : ascii → bool) (pos n : nat) (s s' : string) :
  (n, s') ∈ star_lazy p pos s ↔
  ∃ w, s = w +:+ s' ∧ n = pos + String.length w ∧ all_chars p w = true.
Proof.
  revert pos. induction s as [|c s IH]; intros pos; cbn.
  - rewrite list_elem_of_singleton. split.
    + intros [= -> ->]. exists "". split_and!; [done|cbn; lia|done].
    + intros ([|? w] & Hw & -> & _); [|by rewrite string_app_cons in Hw].
      rewrite string_app_nil_l in Hw. subst s'. f_equal. cbn. lia.
  - rewrite elem_of_cons. split.
    + intros [[= -> ->]|Hin].
      * exists "". split_and!; [done|cbn; lia|done].
      * destruct (p c) eqn:Hc; [|by apply elem_of_nil in Hin].
        apply IH in Hin as (w & -> & -> & Hw).
        exists (String c w). rewrite string_app_cons. cbn.
        rewrite Hc, Hw. split_and!; [done|cbn; lia|done].
    + intros ([|a w] & Hw & -> & Hall).
      * left. rewrite string_app_nil_l in Hw. subst s'. f_equal. cbn. lia.
      * right. rewrite string_app_cons in Hw. injection Hw as <- ->.
        cbn in Hall. apply andb_true_iff in Hall as [-> Hall].
        apply IH. exists w. split_and!; [done|cbn; lia|done].
Qed.

Lemma at_eol_true (s : string) : at_eol s = true ↔ s = "" ∨ s = nl.
Proof.
  unfold at_eol. rewrite orb_true_iff, !bool_decide_eq_true. done.
Qed.

(** Every success listed by [run] consumes a word of the language. *)
Lemma run_sound (r : regex) (st st' : mstate) :
  st' ∈ run r st →
  ∃ w, m_rest st = w +:+ m_rest st'
       ∧ m_pos st' = m_pos st + String.length w
       ∧ denote r (m_pos st) w (m_rest st').
Proof.
  revert st st'. induction r as [| | |p|l|r1 IH1 r2 IH2|r1 IH1 r2 IH2|g p|r IH|r IH];
    intros st st'; cbn [run denote].
  - intros ->%list_elem_of_singleton. exists "". split_and!; [done|cbn; lia|done].
  - case_bool_decide as Hp; [|by intros ?%elem_of_nil].
    intros ->%list_elem_of_singleton. exists "". split_and!; [done|cbn; lia|done..].
  - destruct (at_eol (m_rest st)) eqn:He; [|by intros ?%elem_of_nil].
    intros ->%list_elem_of_singleton. apply at_eol_true in He.
    exists "". split_and!; [done|cbn; lia|done..].
  - destruct (m_rest st) as [|c s'] eqn:Hs; [by intros ?%elem_of_nil|].
    destruct (p c) eqn:Hc; [|by intros ?%elem_of_nil].
    intros ->%list_elem_of_singleton. exists (String c "").
    cbn. split_and!; [done|lia|]. by exists c.
  - destruct (strip_prefix l (m_rest st)) as [s'|] eqn:Hs;
      [|by intros ?%elem_of_nil].
    intros ->%list_elem_of_singleton. apply strip_prefix_Some in Hs.
    exists l. by cbn.
  - intros (mid & Hin2 & Hin1)%list_elem_of_bind.
    apply IH1 in Hin1 as (w1 & E1 & P1 & D1).
    apply IH2 in Hin2 as (w2 & E2 & P2 & D2).
    exists (w1 +:+ w2). rewrite string_app_assoc, string_app_length.
    split_and!; [by rewrite E1, E2|lia|].
    exists w1, w2. rewrite <- E2, <- P1. done.
  - intros [Hin|Hin]%elem_of_app.
    + apply IH1 in Hin as (w & ? & ? & ?). exists w. auto.
    + apply IH2 in Hin as (w & ? & ? & ?). exists w. auto.
  - destruct g; intros ([n s'] & -> & Hin)%list_elem_of_fmap; cbn.
    + by apply star_greedy_elem in Hin.
    + by apply star_lazy_elem in Hin.
  - intros [Hin|Hin]%elem_of_app.
    + apply IH in Hin as (w & ? & ? & ?). exists w. auto.
    + apply list_elem_of_singleton in Hin as ->.
      exists "". split_and!; [done|cbn; lia|by left].
  - intros (mid & -> & Hin)%list_elem_of_fmap. cbn.
    by apply IH in Hin.
Qed.

(** Every word of the language is consumed by some listed success. *)
Lemma run_complete (r : regex) (st : mstate) (w rest' : string) :
  m_rest st = w +:+ rest' →
  denote r (m_pos st) w rest' →
  ∃ g, MState (m_pos st + String.length w) rest' g ∈ run r st.
Proof.
  revert st w rest'.
  induction r as [| | |p|l|r1 IH1 r2 IH2|r1 IH1 r2 IH2|g p|r IH|r IH];
    intros [pos s gs] w rest'; cbn [run denote m_pos m_rest m_groups];
    intros Hs Hd.
  - subst w. rewrite string_app_nil_l in Hs. subst s. exists gs.
    cbn. rewrite Nat.add_0_r. apply list_elem_of_singleton. done.
  - destruct Hd as [-> ->]. rewrite string_app_nil_l in Hs. subst s.
    exists gs. cbn. apply list_elem_of_singleton. done.
  - destruct Hd as [-> He]. rewrite string_app_nil_l in Hs. subst s.
    apply at_eol_true in He. rewrite He. exists gs. cbn.
    rewrite Nat.add_0_r. apply list_elem_of_singleton. done.
  - destruct Hd as (c & -> & Hc). rewrite string_app_cons, string_app_nil_l in Hs.
    subst s. rewrite Hc. exists gs. cbn. unfold move. cbn.
    rewrite Nat.add_1_r. apply list_elem_of_singleton. done.
  - subst w. apply strip_prefix_Some in Hs. rewrite Hs. exists gs.
    apply list_elem_of_singleton. done.
  - destruct Hd as (w1 & w2 & -> & D1 & D2).
    rewrite string_app_assoc in Hs.
    destruct (IH1 (MState pos s gs) w1 (w2 +:+ rest') Hs D1) as (g1 & Hin1).
    destruct (IH2 (MState (pos + String.length w1) (w2 +:+ rest') g1) w2 rest'
                eq_refl D2) as (g2 & Hin2).
    exists g2. apply list_elem_of_bind. eexists. split; [|exact Hin1].
    cbn in Hin2. by rewrite string_app_length, Nat.add_assoc.
  - destruct Hd as [D|D].
    + destruct (IH1 (MState pos s gs) w rest' Hs D) as (g1 & Hin).
      exists g1. apply elem_of_app. by left.
    + destruct (IH2 (MState pos s gs) w rest' Hs D) as (g1 & Hin).
      exists g1. apply elem_of_app. by right.
  - exists gs.
    destruct g; apply list_elem_of_fmap;
      exists (pos + String.length w, rest'); (split; [done|]).
    + apply star_greedy_elem. by exists w.
    + apply star_lazy_elem. by exists w.
  - destruct Hd as [->|D].
    + rewrite string_app_nil_l in Hs. subst s. exists gs. cbn.
      rewrite Nat.add_0_r. apply elem_of_app. right.
      apply list_elem_of_singleton. done.
    + destruct (IH (MState pos s gs) w rest' Hs D) as (g1 & Hin).
      exists g1. apply elem_of_app. by left.
  - destruct (IH (MState pos s gs) w rest' Hs Hd) as (g1 & Hin).
    eexists. apply list_elem_of_fmap. eexists. split; [|exact Hin]. done.
Qed.

(** [re.match] succeeds exactly when a prefix of the subject is in the
    language of the pattern. *)
Lemma re_match_is_Some (r : regex) (s : string) :
  is_Some (re_match r s) ↔ ∃ w rest, s = w +:+ rest ∧ denote r 0 w rest.
Proof.
  unfold re_match. split.
  - intros [m Hm]. apply head_Some_elem_of in Hm.
    apply run_sound in Hm as (w & E & _ & D). cbn in *. eauto.
  - intros (w & rest & E & D).
    destruct (run_complete r (start 0 s) w rest E D) as (g & Hin).
    destruct (run r (start 0 s)); [by apply elem_of_nil in Hin|].
    by eexists.
Qed.

End Matcher.

(** ** The course of a validation *)

Section Course.
Variable safe_load : string → load_result.
Variable fs : filesystem.
Import Re.

Lemma validate_parsed (skill_dir content : string) (fm_match : mstate)
    (frontmatter : gmap string pyval) :
  parses safe_load fs skill_dir content fm_match frontmatter →
  validate_skill safe_load fs skill_dir
  = check_all fs frontmatter content fm_match skill_dir.
Proof.
  intros [Hfile -> Hmatch Hload]. unfold validate_skill.
  by rewrite Hfile, Hmatch, Hload.
Qed.

Lemma check_name_missing (frontmatter : gmap string pyval) (skill_dir : string) :
  truthy (default PNone (frontmatter !! "name")) = false →
  check_name frontmatter skill_dir = inr [EMissingName].
Proof. intros H. unfold check_name. by rewrite H. Qed.

Lemma check_name_str (frontmatter : gmap string pyval) (skill_dir name : string) :
  frontmatter !! "name" = Some (PStr name) → name ≠ "" →
  check_name frontmatter skill_dir
  = inr (name_too_long name ++ name_bad_pattern name
         ++ name_double_hyphen name ++ name_mismatch name skill_dir).
Proof.
  intros H Hne. unfold check_name. rewrite H. cbn.
  by rewrite bool_decide_eq_false_2.
Qed.

Lemma check_name_returns (frontmatter : gmap string pyval) (skill_dir : string) :
  name_is_str frontmatter →
  ∃ name_errors,
    check_name frontmatter skill_dir = inr name_errors
    ∧ Forall (λ e, is_name_error e = true) name_errors.
Proof.
  unfold name_is_str. intros H.
  destruct (frontmatter !! "name") as [v|] eqn:Hv.
  - destruct (truthy v) eqn:Ht.
    + destruct v; try congruence.
      assert (s ≠ "") as Hs.
      { intros ->. cbn in Ht. by rewrite bool_decide_eq_true_2 in Ht. }
      eexists. split; [by apply check_name_str|].
      unfold name_too_long, name_bad_pattern, name_double_hyphen, name_mismatch.
      repeat apply Forall_app_2; repeat case_match; by repeat constructor.
    + eexists. split; [apply check_name_missing; by rewrite Hv|].
      by repeat constructor.
  - eexists. split; [apply check_name_missing; by rewrite Hv|].
    by repeat constructor.
Qed.

(** Past steps 1 and 2, and with a name on which step 3 does not raise,
    every remaining step contributes, in the order of the steps. *)
Lemma validate_accumulates (skill_dir content : string) (fm_match : mstate)
    (frontmatter : gmap string pyval) :
  parses safe_load fs skill_dir content fm_match frontmatter →
  name_is_str frontmatter →
  ∃ name_errors,
    check_name frontmatter skill_dir = inr name_errors
    ∧ Forall (λ e, is_name_error e = true) name_errors
    ∧ validate_skill safe_load fs skill_dir
      = Returned
          (name_errors ++ check_description frontmatter)
          (check_license frontmatter ++ check_body content fm_match
           ++ check_toc fs skill_dir ++ check_nested fs skill_dir).
Proof.
  intros Hp Hn. destruct (check_name_returns frontmatter skill_dir Hn)
    as (name_errors & Hc & Hall).
  exists name_errors. split_and!; [done..|].
  rewrite (validate_parsed _ _ _ _ Hp). unfold check_all. by rewrite Hc.
Qed.

Lemma filter_none {A} (P : A → bool) (l : list A) :
  Forall (λ x, P x = false) l → filter (λ x, P x = true) l = [].
Proof.
  induction 1 as [|x l Hx _ IH]; [done|].
  rewrite filter_cons_False; [done|]. by rewrite Hx.
Qed.

Lemma filter_all {A} (P : A → bool) (l : list A) :
  Forall (λ x, P x = true) l → filter (λ x, P x = true) l = l.
Proof.
  induction 1 as [|x l Hx _ IH]; [done|].
  rewrite filter_cons_True; [|done]. by rewrite IH.
Qed.

Lemma check_description_kind (frontmatter : gmap string pyval) :
  Forall (λ e, is_description_error e = true) (check_description frontmatter).
Proof. unfold check_description. repeat case_match; by repeat constructor. Qed.

Lemma check_license_kind (frontmatter : gmap string pyval) :
  check_license frontmatter = [WNoLicense] ∨ check_license frontmatter = [].
Proof. unfold check_license. case_match; auto. Qed.

Lemma check_body_kind (content : string) (fm_match : mstate) :
  Forall (λ w, is_body_warning w = true) (check_body content fm_match).
Proof. unfold check_body. case_match; by repeat constructor. Qed.

Lemma toc_warning_kind (fname : string) (ref_lines : list string) :
  Forall (λ w, is_toc_warning w = true ∧ warning_file w = fname)
         (toc_warning fname ref_lines).
Proof. unfold toc_warning. case_match; by repeat constructor. Qed.

Lemma nested_warning_kind (fname text : string) :
  Forall (λ w, is_nested_warning w = true ∧ warning_file w = fname)
         (nested_warning fname text).
Proof. unfold nested_warning. case_match; by repeat constructor. Qed.

End Course.

(** ** The two loops over [references/] *)

Section Loops.
Variable fs : filesystem.

Lemma check_toc_loop (skill_dir : string) :
  check_toc fs skill_dir
  = each_reference fs
      (λ fname fpath, toc_warning fname (Py.readlines (read_text fs fpath)))
      skill_dir.
Proof. done. Qed.

Lemma check_nested_loop (skill_dir : string) :
  check_nested fs skill_dir
  = each_reference fs
      (λ fname fpath, nested_warning fname (read_text fs fpath)) skill_dir.
Proof. done. Qed.

Lemma sorted_elem (names : list string) (x : string) :
  x ∈ sorted names ↔ x ∈ names.
Proof. unfold sorted. by rewrite merge_sort_Permutation. Qed.

Lemma sorted_NoDup (names : list string) : NoDup names → NoDup (sorted names).
Proof. unfold sorted. by rewrite merge_sort_Permutation. Qed.

Lemma sorted_StronglySorted (names : list string) :
  StronglySorted String.le (sorted names).
Proof. apply StronglySorted_merge_sort; apply _. Qed.

Section Body.
Variable body : string → string → list warning.
Variable skill_dir : string.

(** Each turn of the loop leaves at most one warning, about the file
    of that turn. *)
Hypothesis body_one : ∀ fname fpath, length (body fname fpath) ≤ 1.
Hypothesis body_file :
  ∀ fname fpath, Forall (λ w, warning_file w = fname) (body fname fpath).

Let refs_dir := OsPath.join skill_dir "references".
Let turn (fname : string) : list warning :=
  if negb (Py.endswith fname ".md")
     || negb (isfile fs (OsPath.join refs_dir fname))
  then [] else body fname (OsPath.join refs_dir fname).

Lemma turn_file (fname : string) :
  Forall (λ w, warning_file w = fname) (turn fname).
Proof. unfold turn. case_match; [constructor|apply body_file]. Qed.

Lemma turn_reference (fname : string) :
  is_reference_file fs skill_dir fname →
  turn fname = body fname (OsPath.join refs_dir fname).
Proof.
  intros (_ & _ & Hmd & Hfile). unfold turn, refs_dir. by rewrite Hmd, Hfile.
Qed.

Lemma each_reference_elem (w : warning) :
  w ∈ each_reference fs body skill_dir →
  is_reference_file fs skill_dir (warning_file w).
Proof.
  unfold each_reference, is_reference_file.
  destruct (isdir fs (OsPath.join skill_dir "references")) eqn:Hdir;
    [|by intros ?%elem_of_nil].
  intros (fname & Hw & Hin)%list_elem_of_bind.
  apply (proj1 (sorted_elem _ _)) in Hin.
  destruct (Py.endswith fname ".md") eqn:Hmd; [|by apply elem_of_nil in Hw].
  destruct (isfile fs _) eqn:Hfile; [|by apply elem_of_nil in Hw].
  change (w ∈ body fname (OsPath.join (OsPath.join skill_dir "references") fname))
    in Hw.
  pose proof (body_file fname
    (OsPath.join (OsPath.join skill_dir "references") fname)) as Hall.
  rewrite Forall_forall in Hall. rewrite (Hall w Hw). by split_and!.
Qed.

Lemma bind_turn_absent (P : warning → bool) (x : string) (l : list string) :
  x ∉ l →
  filter (λ w, (P w && bool_decide (warning_file w = x)) = true) (l ≫= turn) = [].
Proof.
  intros Hx. apply (filter_none (λ w, P w && bool_decide (warning_file w = x))).
  apply Forall_bind, Forall_forall. intros y Hy.
  eapply Forall_impl; [apply turn_file|]. cbn. intros w ->.
  rewrite bool_decide_eq_false_2; [by rewrite andb_false_r|]. by intros ->.
Qed.

Lemma bind_turn_filter (P : warning → bool) (x : string) (l : list string) :
  NoDup l → x ∈ l →
  filter (λ w, (P w && bool_decide (warning_file w = x)) = true) (l ≫= turn)
  = filter (λ w, (P w && bool_decide (warning_file w = x)) = true) (turn x).
Proof.
  induction 1 as [|y l Hy Hnd IH]; [by intros ?%elem_of_nil|].
  rewrite bind_cons, filter_app. intros [->|Hin]%elem_of_cons.
  - rewrite bind_turn_absent by done. by rewrite app_nil_r.
  - rewrite IH by done.
    rewrite (filter_none (λ w, P w && bool_decide (warning_file w = x)) (turn y));
      [done|].
    eapply Forall_impl; [apply turn_file|]. cbn. intros w ->.
    rewrite bool_decide_eq_false_2; [by rewrite andb_false_r|].
    by intros ->.
Qed.

(** What the loop leaves about one reference file is what its turn
    leaves. *)
Lemma each_reference_filter (P : warning → bool) (fname : string) :
  NoDup (listdir fs refs_dir) →
  is_reference_file fs skill_dir fname →
  filter (λ w, (P w && bool_decide (warning_file w = fname)) = true)
         (each_reference fs body skill_dir)
  = filter (λ w, (P w && bool_decide (warning_file w = fname)) = true)
           (body fname (OsPath.join refs_dir fname)).
Proof.
  intros Hnd Href. pose proof Href as (Hdir & Hin & _).
  unfold each_reference. fold refs_dir. unfold refs_dir at 1. rewrite Hdir.
  change (mbind _ (sorted (listdir fs refs_dir)))
    with (sorted (listdir fs refs_dir) ≫= turn).
  rewrite bind_turn_filter; [by rewrite turn_reference| |].
  - by apply sorted_NoDup.
  - by apply sorted_elem.
Qed.

Lemma bind_turn_sorted (l : list string) :
  StronglySorted String.le l →
  StronglySorted String.le (warning_file <$> (l ≫= turn)).
Proof.
  induction 1 as [|x l Hs IH Hx]; [constructor|].
  rewrite bind_cons, fmap_app.
  assert (Forall (String.le x) (warning_file <$> (l ≫= turn))) as Hrest.
  { apply Forall_fmap, Forall_bind. eapply Forall_impl; [exact Hx|].
    cbn. intros y Hxy. eapply Forall_impl; [apply turn_file|].
    cbn. by intros w ->. }
  pose proof (turn_file x) as Hf.
  assert (length (turn x) ≤ 1) as Hlen.
  { unfold turn. case_match; [cbn; lia|apply body_one]. }
  destruct (turn x) as [|w [|w' ws]]; [done| |cbn in Hlen; lia].
  apply Forall_cons in Hf as [Hw _]. cbn. rewrite Hw. by constructor.
Qed.

(** The loop leaves its warnings in the order of the sorted listing. *)
Lemma each_reference_sorted :
  StronglySorted String.le (warning_file <$> each_reference fs body skill_dir).
Proof.
  unfold each_reference. fold refs_dir. case_match; [|constructor].
  change (mbind _ (sorted (listdir fs refs_dir)))
    with (sorted (listdir fs refs_dir) ≫= turn).
  apply bind_turn_sorted, sorted_StronglySorted.
Qed.

End Body.

Lemma check_toc_kind (skill_dir : string) :
  Forall (λ w, is_toc_warning w = true) (check_toc fs skill_dir).
Proof.
  unfold check_toc. cbv zeta. case_match; [|constructor].
  apply Forall_bind, Forall_forall. intros fname _. unfold compose.
  case_match; [constructor|].
  eapply Forall_impl; [apply toc_warning_kind|]. by intros w [? _].
Qed.

Lemma check_nested_kind (skill_dir : string) :
  Forall (λ w, is_nested_warning w = true) (check_nested fs skill_dir).
Proof.
  unfold check_nested. cbv zeta. case_match; [|constructor].
  apply Forall_bind, Forall_forall. intros fname _. unfold compose.
  case_match; [constructor|].
  eapply Forall_impl; [apply nested_warning_kind|]. by intros w [? _].
Qed.

End Loops.

(** ** The name pattern *)

Section NamePattern.
Import Re.

Lemma string_snoc_inv (s : string) :
  s ≠ "" → ∃ u d, s = u +:+ String d "".
Proof.
  induction s as [|c s IH]; [done|]. intros _.
  destruct s as [|c' s].
  - by exists "", c.
  - destruct IH as (u & d & E); [done|]. exists (String c u), d.
    by rewrite string_app_cons, <- E.
Qed.

Lemma last_char_snoc (u : string) (d : ascii) :
  last_char (u +:+ String d "") = Some d.
Proof.
  induction u as [|c u IH]; [done|]. rewrite string_app_cons.
  cbn [last_char]. rewrite IH.
  destruct (u +:+ String d "") eqn:E; [|done].
  by destruct u.
Qed.

Lemma last_char_cons_snoc (c : ascii) (u : string) (d : ascii) :
  last_char (String c (u +:+ String d "")) = Some d.
Proof. by rewrite <- string_app_cons, last_char_snoc. Qed.

Lemma last_char_app_nl (s : string) : last_char (s +:+ nl) = Some LF.
Proof. apply last_char_snoc. Qed.

Lemma lower_alnum_hyphen_of_alnum (c : ascii) :
  lower_alnum c = true → lower_alnum_hyphen c = true.
Proof. unfold lower_alnum_hyphen. by intros ->. Qed.

(** The words of [name_re]: a letter or digit, then nothing or a run of
    letters, digits and hyphens closed by a letter or digit; what is
    left of the subject is nothing or one final line feed. *)
Lemma name_re_denote (w rest : string) :
  denote name_re 0 w rest ↔
  (rest = "" ∨ rest = nl)
  ∧ ∃ c, lower_alnum c = true
         ∧ (w = String c ""
            ∨ ∃ u d, w = String c (u +:+ String d "")
                     ∧ all_chars lower_alnum_hyphen u = true
                     ∧ lower_alnum d = true).
Proof.
  unfold name_re. cbn [denote]. split.
  - intros (w1 & w2 & -> & [-> _] & c1 & w3 & -> & (c & -> & Hc)
            & wo & w4 & -> & Ho & -> & Hrest).
    split; [done|]. exists c. split; [done|].
    rewrite string_app_nil_l, string_app_nil_r, string_app_cons, string_app_nil_l.
    destruct Ho as [->|(u & d' & -> & Hu & d & -> & Hd)]; [by left|].
    right. by exists u, d.
  - intros (Hrest & c & Hc & Hw).
    exists "", w. split_and!; [done..|].
    destruct Hw as [->|(u & d & -> & Hu & Hd)].
    + exists (String c ""), "". split_and!; [done|by exists c|].
      exists "", "". split_and!; [done|by left|done..].
    + exists (String c ""), (u +:+ String d ""). split_and!; [done|by exists c|].
      exists (u +:+ String d ""), "".
      split_and!; [by rewrite string_app_nil_r| |done..].
      right. exists u, (String d ""). split_and!; [done..|]. by exists d.
Qed.

(** A name of the specified shape passes the pattern check. *)
Lemma name_shape_matches (name : string) :
  name_shape name = true → is_Some (re_match name_re name).
Proof.
  unfold name_shape. destruct name as [|c t]; [done|].
  destruct (last_char (String c t)) as [d|] eqn:Hlast; [|done].
  intros [[Hc Ht]%andb_true_iff Hd]%andb_true_iff.
  apply re_match_is_Some. exists (String c t), "".
  split; [by rewrite string_app_nil_r|].
  apply name_re_denote. split; [by left|]. exists c. split; [done|].
  destruct t as [|c' t']; [by left|]. right.
  destruct (string_snoc_inv (String c' t')) as (u & d' & E); [done|].
  rewrite E in *. rewrite last_char_cons_snoc in Hlast. injection Hlast as ->.
  rewrite all_chars_app in Ht. apply andb_true_iff in Ht as [Hu _].
  by exists u, d.
Qed.

(** A name that passes the pattern check has the specified shape, unless
    it ends in a line feed, which [$] lets through. *)
Lemma matches_name_shape (name : string) :
  last_char name ≠ Some LF →
  is_Some (re_match name_re name) → name_shape name = true.
Proof.
  intros Hlf (w & rest & -> & (Hrest & c & Hc & Hw)%name_re_denote)%re_match_is_Some.
  destruct Hrest as [->| ->]; [|by rewrite last_char_app_nl in Hlf].
  rewrite string_app_nil_r. unfold name_shape.
  destruct Hw as [->|(u & d & -> & Hu & Hd)].
  - cbn. by rewrite Hc.
  - rewrite last_char_cons_snoc, all_chars_app, Hc, Hu, Hd. cbn.
    by rewrite (lower_alnum_hyphen_of_alnum d Hd).
Qed.

Lemma name_pattern_shape (name : string) :
  last_char name ≠ Some LF →
  name_bad_pattern name = if name_shape name then [] else [ENamePattern name].
Proof.
  intros Hlf. unfold name_bad_pattern.
  destruct (name_shape name) eqn:Hs.
  - by destruct (name_shape_matches name Hs) as [m ->].
  - destruct (re_match name_re name) as [m|] eqn:Hm; [|done].
    rewrite matches_name_shape in Hs; [done..|]. by eexists.
Qed.

End NamePattern.

(** ** The frontmatter pattern *)

(** The frontmatter pattern matches exactly the texts that open with a
    line [---], and have a line [---] further down; trailing whitespace
    is allowed on both lines. *)
Lemma frontmatter_delimited (content : string) :
  is_Some (Re.re_match fm_re content) ↔ delimited_frontmatter content.
Proof.
  rewrite re_match_is_Some. unfold fm_re, delimited_frontmatter. cbn [denote]. split.
  - intros (w & rest & -> & w1 & w2 & -> & [-> _] & w3 & w4 & -> & ->
            & ws1 & w5 & -> & H1 & w6 & w7 & -> & -> & header & w8 & -> & _
            & w9 & w10 & -> & -> & ws2 & w11 & -> & H2 & ->).
    exists ws1, header, ws2, rest. split; [|done].
    rewrite string_app_nil_l, !string_app_assoc. done.
  - intros (ws1 & header & ws2 & rest & -> & H1 & H2).
    exists ("---" +:+ ws1 +:+ nl +:+ header +:+ nl +:+ "---" +:+ ws2 +:+ nl), rest.
    split; [by rewrite !string_app_assoc|].
    exists "", ("---" +:+ ws1 +:+ nl +:+ header +:+ nl +:+ "---" +:+ ws2 +:+ nl).
    split_and!; [done..|].
    exists "---", (ws1 +:+ nl +:+ header +:+ nl +:+ "---" +:+ ws2 +:+ nl).
    split_and!; [done..|].
    exists ws1, (nl +:+ header +:+ nl +:+ "---" +:+ ws2 +:+ nl).
    split_and!; [done..|].
    exists nl, (header +:+ nl +:+ "---" +:+ ws2 +:+ nl). split_and!; [done..|].
    exists header, (nl +:+ "---" +:+ ws2 +:+ nl).
    split_and!; [done|apply all_chars_any|].
    exists (nl +:+ "---"), (ws2 +:+ nl).
    split_and!; [by rewrite string_app_assoc|done|].
    exists ws2, nl. done.
Qed.

(** ** Scanning: [findall] *)

Section Scanning.
Import Re.

Lemma take_str_app (w rest : string) :
  take_str (String.length w) (w +:+ rest) = w.
Proof.
  induction w as [|c w IH]; [by destruct rest|].
  rewrite string_app_cons. cbn. by rewrite IH.
Qed.

(** Whatever the scan records was matched by the pattern where it stood. *)
Lemma findall_from_sound (r : regex) (pos : nat) (s : string) (skip : nat)
    (x : string) :
  x ∈ findall_from r pos s skip →
  ∃ pre rest, s = pre +:+ x +:+ rest
              ∧ denote r (pos + String.length pre) x rest.
Proof.
  revert pos skip. induction s as [|c s IH]; intros pos skip; cbn [findall_from].
  { by intros ?%elem_of_nil. }
  assert (∀ k, x ∈ findall_from r (S pos) s k →
    ∃ pre rest, String c s = pre +:+ x +:+ rest
                ∧ denote r (pos + String.length pre) x rest) as Hnext.
  { intros k (pre & rest & -> & D)%IH. exists (String c pre), rest.
    split; [done|]. cbn [String.length].
    by replace (pos + S (String.length pre)) with (S pos + String.length pre) by lia. }
  destruct skip as [|k]; [|apply Hnext].
  destruct (head (run r (start pos (String c s)))) as [m|] eqn:Hm; [|apply Hnext].
  intros [->|Hin]%elem_of_cons; [|by eapply Hnext].
  apply head_Some_elem_of, run_sound in Hm as (w & E & P & D).
  cbn [start m_pos m_rest] in *. exists "", (m_rest m).
  rewrite string_app_nil_l. cbn [String.length]. rewrite Nat.add_0_r.
  replace (m_pos m - pos) with (String.length w) by lia.
  rewrite E, take_str_app. done.
Qed.

(** A place where the pattern matches makes the scan record something:
    that match, or an earlier one that covers the place. *)
Lemma findall_from_complete (r : regex) (pos : nat) (pre w rest : string)
    (skip : nat) :
  w ≠ "" →
  denote r (pos + String.length pre) w rest →
  skip ≤ String.length pre →
  findall_from r pos (pre +:+ w +:+ rest) skip ≠ [].
Proof.
  intros Hw. revert pos skip. induction pre as [|c pre IH]; intros pos skip D Hskip.
  - cbn in Hskip. assert (skip = 0) as -> by lia.
    rewrite string_app_nil_l. cbn [String.length] in D. rewrite Nat.add_0_r in D.
    destruct w as [|c w]; [done|]. rewrite string_app_cons. cbn [findall_from].
    destruct (run_complete r (start pos (String c (w +:+ rest))) (String c w) rest)
      as (g & Hin); [done..|].
    destruct (run r (start pos (String c (w +:+ rest)))) as [|m ms];
      [by apply elem_of_nil in Hin|]. done.
  - rewrite string_app_cons. cbn [findall_from String.length] in *.
    assert (∀ k, k ≤ String.length pre →
      findall_from r (S pos) (pre +:+ w +:+ rest) k ≠ []) as Hnext.
    { intros k Hk. apply IH; [|done].
      by replace (S pos + String.length pre) with (pos + S (String.length pre)) by lia. }
    destruct skip as [|k]; [|apply Hnext; lia].
    destruct (head (run r (start pos _))) as [m|]; [done|]. apply Hnext. lia.
Qed.

(** For a pattern that cannot match the empty string, [findall] finds
    something exactly when the pattern matches somewhere. *)
Lemma findall_nonempty (r : regex) (s : string) :
  (∀ pos rest, ¬ denote r pos "" rest) →
  findall r s ≠ [] ↔
  ∃ pre w rest, s = pre +:+ w +:+ rest ∧ denote r (String.length pre) w rest.
Proof.
  intros Hne. unfold findall. split.
  - intros Hf. destruct (findall_from r 0 s 0) as [|x xs] eqn:E; [done|].
    destruct (findall_from_sound r 0 s 0 x) as (pre & rest & -> & D).
    { rewrite E. by left. }
    by exists pre, x, rest.
  - intros (pre & w & rest & -> & D). apply findall_from_complete; [|done|lia].
    intros ->. by eapply Hne.
Qed.

(** The words of [nested_re]. *)
Lemma nested_re_denote (pos : nat) (w rest : string) :
  denote nested_re pos w rest ↔
  ∃ label prefix path,
    w = "[" +:+ label +:+ "](" +:+ prefix +:+ path +:+ ".md)"
    ∧ all_chars dot label = true
    ∧ (prefix = "references/" ∨ prefix = "./")
    ∧ all_chars dot path = true.
Proof.
  unfold nested_re. cbn [denote]. split.
  - intros (w1 & w2 & -> & -> & label & w3 & -> & Hl & w4 & w5 & -> & ->
            & prefix & w6 & -> & Hp & path & w7 & -> & Hpath & ->).
    exists label, prefix, path. split_and!; [done..| |done].
    destruct Hp; auto.
  - intros (label & prefix & path & -> & Hl & Hp & Hpath).
    exists "[", (label +:+ "](" +:+ prefix +:+ path +:+ ".md)").
    split_and!; [done..|].
    exists label, ("](" +:+ prefix +:+ path +:+ ".md)"). split_and!; [done..|].
    exists "](", (prefix +:+ path +:+ ".md)"). split_and!; [done..|].
    exists prefix, (path +:+ ".md)"). split_and!; [done| |].
    { destruct Hp; auto. }
    exists path, ".md)". done.
Qed.

Lemma nested_re_not_empty (pos : nat) (rest : string) :
  ¬ denote nested_re pos "" rest.
Proof.
  intros (label & prefix & path & E & _)%nested_re_denote.
  by rewrite string_app_cons in E.
Qed.

(** Step 8 finds something in a text exactly when the text holds a
    nested link. *)
Lemma findall_nested_link (text : string) :
  findall nested_re text ≠ [] ↔ nested_link text.
Proof.
  rewrite findall_nonempty by apply nested_re_not_empty. unfold nested_link. split.
  - intros (pre & w & post & -> & (label & prefix & path & -> & ? & ? & ?)%nested_re_denote).
    exists pre, label, prefix, path, post.
    split_and!; [|done..]. by rewrite !string_app_assoc.
  - intros (pre & label & prefix & path & post & -> & ? & ? & ?).
    exists pre, ("[" +:+ label +:+ "](" +:+ prefix +:+ path +:+ ".md)"), post.
    split; [by rewrite !string_app_assoc|].
    apply nested_re_denote. by exists label, prefix, path.
Qed.

Lemma nested_warning_link (fname text : string) :
  nested_link text →
  nested_warning fname text = [WNested fname (take 3 (findall nested_re text))].
Proof.
  intros H%findall_nested_link. unfold nested_warning.
  by rewrite bool_decide_eq_true_2.
Qed.

Lemma nested_warning_no_link (fname text : string) :
  ¬ nested_link text → nested_warning fname text = [].
Proof.
  intros H. unfold nested_warning. rewrite bool_decide_eq_false_2; [done|].
  by rewrite findall_nested_link.
Qed.

End Scanning.

(** ** Substitution: [re.sub] of whitespace runs *)

Section Collapsing.
Import Re.

(** The greedy star first tries the longest run. *)
Lemma star_greedy_head (p : ascii → bool) (pos : nat) (s : string) :
  head (star_greedy p pos s) = Some (pos + span p s, drop_str (span p s) s).
Proof.
  revert pos. induction s as [|c s IH]; intros pos; cbn.
  - by rewrite Nat.add_0_r.
  - destruct (p c); cbn.
    + specialize (IH (S pos)).
      destruct (star_greedy p (S pos) s) as [|x xs]; [done|].
      cbn in *. rewrite IH. do 2 f_equal. lia.
    + by rewrite Nat.add_0_r.
Qed.

Lemma ws_re_head (pos : nat) (c : ascii) (s : string) :
  head (run ws_re (start pos (String c s)))
  = if Py.isspace c
    then Some (MState (S pos + span Py.isspace s) (drop_str (span Py.isspace s) s) [])
    else None.
Proof.
  unfold ws_re. cbn [run start m_rest m_pos]. destruct (Py.isspace c); [|done].
  cbn [mbind list_bind move fst snd m_groups m_pos m_rest run].
  rewrite app_nil_r.
  pose proof (star_greedy_head Py.isspace (S pos) s) as H.
  destruct (star_greedy Py.isspace (S pos) s) as [|[n s'] xs]; [done|].
  cbn in *. by injection H as -> ->.
Qed.

Lemma sub_ws_squeeze (s : string) :
  (∀ pos, sub_from ws_re " " pos s 0 = squeeze_from false s)
  ∧ (∀ pos, sub_from ws_re " " pos s (span Py.isspace s) = squeeze_from true s).
Proof.
  induction s as [|c s [IH0 IHk]]; [done|].
  assert (∀ pos, sub_from ws_re " " pos (String c s) 0
                 = squeeze_from false (String c s)) as H0.
  { intros pos. cbn [sub_from squeeze_from]. rewrite ws_re_head.
    destruct (Py.isspace c).
    - cbn [m_pos]. rewrite bool_decide_eq_false_2 by lia.
      replace (S pos + span Py.isspace s - pos - 1) with (span Py.isspace s) by lia.
      by rewrite IHk.
    - by rewrite IH0. }
  split; [done|]. intros pos. cbn [span].
  destruct (Py.isspace c) eqn:Hc.
  - cbn [sub_from squeeze_from]. by rewrite Hc, IHk.
  - rewrite H0. cbn [squeeze_from]. by rewrite Hc.
Qed.

(** [\s+] takes at least one character. *)
Lemma ws_re_not_empty (pos : nat) (rest : string) : ¬ denote ws_re pos "" rest.
Proof.
  unfold ws_re. cbn [denote]. intros (w1 & w2 & E & (c & -> & _) & _).
  by rewrite string_app_cons in E.
Qed.

(** Substituting one space for each match of [\s+] squeezes every run of
    whitespace into one space. *)
Lemma collapse_squeeze (s : string) : collapse s = squeeze s.
Proof. apply sub_ws_squeeze. Qed.

End Collapsing.

(** ** What the warnings say about one reference file *)

Section PerFile.
Variable fs : filesystem.

Lemma each_reference_nil (body : string → string → list warning)
    (skill_dir : string) :
  (∀ fname, is_reference_file fs skill_dir fname →
            body fname (OsPath.join (OsPath.join skill_dir "references") fname) = []) →
  each_reference fs body skill_dir = [].
Proof.
  intros Hbody. unfold each_reference. cbv zeta.
  destruct (isdir fs (OsPath.join skill_dir "references")) eqn:Hdir; [|done].
  apply elem_of_nil_inv. intros w (fname & Hw & Hin)%list_elem_of_bind.
  apply (proj1 (sorted_elem _ _)) in Hin.
  destruct (Py.endswith fname ".md") eqn:Hmd; [|by apply elem_of_nil in Hw].
  destruct (isfile fs (OsPath.join (OsPath.join skill_dir "references") fname))
    eqn:Hfile; [|by apply elem_of_nil in Hw].
  cbn [negb orb] in Hw. rewrite Hbody in Hw; [by apply elem_of_nil in Hw|].
  by split_and!.
Qed.

Lemma filter_other_kind (P Q : warning → bool) (fname : string)
    (ws : list warning) :
  (∀ w, Q w = true → P w = false) →
  Forall (λ w, Q w = true) ws →
  filter (λ w, (P w && bool_decide (warning_file w = fname)) = true) ws = [].
Proof.
  intros HPQ Hall.
  apply (filter_none (λ w, P w && bool_decide (warning_file w = fname))).
  eapply Forall_impl; [exact Hall|]. cbn. intros w Hw. by rewrite (HPQ w Hw).
Qed.

Lemma license_filter (P : warning → bool) (fname : string)
    (frontmatter : gmap string pyval) :
  P WNoLicense = false →
  filter (λ w, (P w && bool_decide (warning_file w = fname)) = true)
         (check_license frontmatter) = [].
Proof.
  intros HP. apply (filter_none (λ w, P w && bool_decide (warning_file w = fname))).
  destruct (check_license_kind frontmatter) as [-> | ->]; [|constructor].
  repeat constructor. by rewrite HP.
Qed.

(** Of all the warnings, those of step 7 about the reference file
    [fname] are what the turn of step 7 on that file leaves. *)
Lemma toc_warnings_of_file (skill_dir fname content : string)
    (fm_match : Re.mstate) (frontmatter : gmap string pyval) :
  NoDup (listdir fs (OsPath.join skill_dir "references")) →
  is_reference_file fs skill_dir fname →
  filter (λ w, toc_warning_for fname w = true)
         (check_license frontmatter ++ check_body content fm_match
          ++ check_toc fs skill_dir ++ check_nested fs skill_dir)
  = toc_warning fname (Py.readlines (reference_text fs skill_dir fname)).
Proof.
  intros Hnd Href. unfold toc_warning_for. rewrite !filter_app.
  rewrite license_filter by done.
  rewrite (filter_other_kind _ is_body_warning fname (check_body content fm_match));
    [|by intros []|apply check_body_kind].
  rewrite (filter_other_kind _ is_nested_warning fname (check_nested fs skill_dir));
    [|by intros []|apply check_nested_kind].
  rewrite app_nil_r. cbn [app]. rewrite check_toc_loop.
  rewrite each_reference_filter; [| |done..].
  - apply (filter_all (λ w, is_toc_warning w && bool_decide (warning_file w = fname))).
    eapply Forall_impl; [apply toc_warning_kind|]. cbn. intros w [-> ->].
    by rewrite bool_decide_eq_true_2.
  - intros f p. eapply Forall_impl; [apply toc_warning_kind|]. by intros w [_ ?].
Qed.

(** The same for step 8. *)
Lemma nested_warnings_of_file (skill_dir fname content : string)
    (fm_match : Re.mstate) (frontmatter : gmap string pyval) :
  NoDup (listdir fs (OsPath.join skill_dir "references")) →
  is_reference_file fs skill_dir fname →
  filter (λ w, nested_warning_for fname w = true)
         (check_license frontmatter ++ check_body content fm_match
          ++ check_toc fs skill_dir ++ check_nested fs skill_dir)
  = nested_warning fname (reference_text fs skill_dir fname).
Proof.
  intros Hnd Href. unfold nested_warning_for. rewrite !filter_app.
  rewrite license_filter by done.
  rewrite (filter_other_kind _ is_body_warning fname (check_body content fm_match));
    [|by intros []|apply check_body_kind].
  rewrite (filter_other_kind _ is_toc_warning fname (check_toc fs skill_dir));
    [|by intros []|apply check_toc_kind].
  cbn [app]. rewrite check_nested_loop.
  rewrite each_reference_filter; [| |done..].
  - apply (filter_all (λ w, is_nested_warning w && bool_decide (warning_file w = fname))).
    eapply Forall_impl; [apply nested_warning_kind|]. cbn. intros w [-> ->].
    by rewrite bool_decide_eq_true_2.
  - intros f p. eapply Forall_impl; [apply nested_warning_kind|]. by intros w [_ ?].
Qed.

(** A warning of step 7 or 8 is about a reference file: directories and
    entries that do not end in [.md] leave none. *)
Lemma reference_warning_file (skill_dir content : string)
    (fm_match : Re.mstate) (frontmatter : gmap string pyval) (w : warning) :
  w ∈ check_license frontmatter ++ check_body content fm_match
      ++ check_toc fs skill_dir ++ check_nested fs skill_dir →
  is_toc_warning w = true ∨ is_nested_warning w = true →
  is_reference_file fs skill_dir (warning_file w).
Proof.
  rewrite !elem_of_app. intros [Hw|[Hw|[Hw|Hw]]] Hkind.
  - destruct (check_license_kind frontmatter) as [E|E]; rewrite E in Hw.
    + apply list_elem_of_singleton in Hw as ->. by destruct Hkind.
    + by apply elem_of_nil in Hw.
  - pose proof (check_body_kind content fm_match) as Hall.
    rewrite Forall_forall in Hall. specialize (Hall w Hw).
    destruct w; try done. by destruct Hkind.
  - rewrite check_toc_loop in Hw. eapply each_reference_elem; [|exact Hw].
    intros f p. eapply Forall_impl; [apply toc_warning_kind|]. by intros ? [_ ?].
  - rewrite check_nested_loop in Hw. eapply each_reference_elem; [|exact Hw].
    intros f p. eapply Forall_impl; [apply nested_warning_kind|]. by intros ? [_ ?].
Qed.

End PerFile.

(** ** Calls that fail *)

Section Failing.
Variable fl : faults.
Variable fs : filesystem.

Lemma bind_inr {A B} (f : A → exn + B) (a : A) : (inr a ≫= f) = f a.
Proof. done. Qed.

Lemma bind_inl {A B} (f : A → exn + B) (e : exn) : (inl e ≫= f) = inl e.
Proof. done. Qed.

(** A loop none of whose turns raises leaves what its turns leave. *)
Lemma for_each_returns (body : string → exn + list warning)
    (f : string → list warning) (names : list string) :
  (∀ x, x ∈ names → body x = inr (f x)) →
  for_each body names = inr (names ≫= f).
Proof.
  induction names as [|x names IH]; intros Hb; [done|].
  cbn [for_each]. rewrite (Hb x) by left. rewrite bind_inr.
  rewrite IH by (intros y Hy; apply Hb; by right). by rewrite bind_inr.
Qed.

(** A loop raises what its first turn that raises does. *)
Lemma for_each_raises (body : string → exn + list warning)
    (names : list string) (e : exn) :
  for_each body names = inl e ↔
  ∃ before x after,
    names = before ++ x :: after
    ∧ body x = inl e
    ∧ ∀ y, y ∈ before → ∃ ws, body y = inr ws.
Proof.
  induction names as [|x names IH].
  { split; [done|]. by intros ([|??] & ? & ? & ? & _). }
  cbn [for_each]. destruct (body x) as [e'|ws] eqn:Hx.
  - rewrite bind_inl. split.
    + intros [= ->]. exists [], x, names. split_and!; [done..|].
      by intros y ?%elem_of_nil.
    + intros ([|y before] & x' & after & Heq & Hx' & Hbefore).
      * injection Heq as <- _. congruence.
      * injection Heq as <- _. destruct (Hbefore x) as [ws Hws]; [by left|].
        congruence.
  - rewrite bind_inr. destruct (for_each body names) as [e'|more] eqn:Hrest.
    + rewrite bind_inl. split.
      * intros [= ->]. destruct (proj1 IH eq_refl) as (before & x' & after & -> & ? & Hb).
        exists (x :: before), x', after. split_and!; [done..|].
        intros y [->|Hy]%elem_of_cons; [by eexists|by apply Hb].
      * intros ([|y before] & x' & after & Heq & Hx' & Hbefore).
        -- injection Heq as <- _. congruence.
        -- injection Heq as <- ->. apply IH. exists before, x', after.
           split_and!; [done..|]. intros z Hz. apply Hbefore. by right.
    + rewrite bind_inr. split; [done|].
      intros ([|y before] & x' & after & Heq & Hx' & Hbefore).
      * injection Heq as <- _. congruence.
      * injection Heq as <- ->.
        assert (@inr exn _ more = inl e) as Habs; [|done].
        apply IH. exists before, x', after. split_and!; [done..|].
        intros z Hz. apply Hbefore. by right.
Qed.

Section Loop.
Variable work : string → string → list warning.
Variable skill_dir : string.

Let refs_dir := OsPath.join skill_dir "references".

(** One turn of the loops of steps 7 and 8, and the loop. *)
Let turn_under (fname : string) : exn + list warning :=
  let fpath := OsPath.join refs_dir fname in
  if negb (Py.endswith fname ".md") || negb (isfile fs fpath) then inr []
  else text ← open_read fl fs fpath; inr (work fname text).

Let loop_under : exn + list warning :=
  if isdir fs refs_dir then
    names ← os_listdir fl fs refs_dir;
    for_each turn_under (sorted names)
  else inr [].

Let turn (fname : string) : list warning :=
  let fpath := OsPath.join refs_dir fname in
  if negb (Py.endswith fname ".md") || negb (isfile fs fpath) then []
  else work fname (read_text fs fpath).

Lemma turn_under_raises (fname : string) (e : exn) :
  turn_under fname = inl e ↔
  Py.endswith fname ".md" = true
  ∧ isfile fs (OsPath.join refs_dir fname) = true
  ∧ read_error fl (OsPath.join refs_dir fname) = Some e.
Proof.
  unfold turn_under, open_read. cbv zeta.
  destruct (Py.endswith fname ".md"); cbn [negb orb].
  2:{ split; [done|]. by intros (? & _). }
  destruct (isfile fs _); cbn [negb].
  2:{ split; [done|]. by intros (_ & ? & _). }
  destruct (read_error fl _) as [e'|].
  - rewrite bind_inl. split; [by intros [= ->]|]. by intros (_ & _ & [= ->]).
  - rewrite bind_inr. split; [done|]. by intros (_ & _ & ?).
Qed.

Lemma turn_under_returns (fname : string) (ws : list warning) :
  turn_under fname = inr ws → ws = turn fname.
Proof.
  unfold turn_under, turn, open_read. cbv zeta.
  destruct (negb _ || negb _); [by intros [= <-]|].
  destruct (read_error fl _); [done|]. rewrite bind_inr. by intros [= <-].
Qed.

Lemma loop_under_raises (e : exn) :
  loop_under = inl e ↔ references_fail fl fs skill_dir e.
Proof.
  unfold loop_under, references_fail, os_listdir. cbv zeta. fold refs_dir.
  destruct (isdir fs refs_dir) eqn:Hdir.
  2:{ split; [done|]. by intros [? _]. }
  destruct (listdir_error fl refs_dir) as [e'|] eqn:Hlist.
  { rewrite bind_inl. split.
    - intros [= ->]. split; [done|]. by left.
    - intros [_ [[= ->]|[? _]]]; done. }
  rewrite bind_inr, for_each_raises. split.
  - intros (before & x & after & Heq & Hx & Hb).
    apply turn_under_raises in Hx as (Hmd & Hfile & Hread).
    split; [done|]. right. split; [done|].
    exists before, x, after. split_and!; [done| |done|].
    + split_and!; [done| |done..]. apply sorted_elem. fold refs_dir.
      rewrite Heq. apply elem_of_app. right. by left.
    + intros y Hy (_ & _ & Hmd' & Hfile'). destruct (Hb y Hy) as [ws Hws].
      destruct (read_error fl (OsPath.join refs_dir y)) as [e'|] eqn:Hr; [|done].
      assert (turn_under y = inl e') as Habs; [|congruence].
      by apply turn_under_raises.
  - intros [_ [?|(_ & before & x & after & Heq & (_ & _ & Hmd & Hfile) & Hread & Hb)]];
      [done|].
    exists before, x, after. split_and!; [done|by apply turn_under_raises|].
    intros y Hy. destruct (turn_under y) as [e'|ws] eqn:Hty; [|by eexists].
    apply turn_under_raises in Hty as (Hmd' & Hfile' & Hread').
    rewrite Hb in Hread'; [done|done|]. split_and!; [done| |done..].
    apply sorted_elem. fold refs_dir. rewrite Heq. apply elem_of_app. by left.
Qed.

Lemma loop_under_returns (ws : list warning) :
  loop_under = inr ws →
  ws = each_reference fs (λ fname fpath, work fname (read_text fs fpath)) skill_dir.
Proof.
  unfold loop_under, each_reference, os_listdir. cbv zeta. fold refs_dir.
  destruct (isdir fs refs_dir); [|by intros [= <-]].
  destruct (listdir_error fl refs_dir); [done|]. rewrite bind_inr.
  intros Hloop. rewrite (for_each_returns turn_under turn) in Hloop.
  - by injection Hloop as <-.
  - intros x Hx. destruct (turn_under x) as [e|ws'] eqn:Hturn.
    + assert (for_each turn_under (sorted (listdir fs refs_dir)) = inl e) as Habs;
        [|congruence].
      apply list_elem_of_split in Hx as (before & after & Heq).
      revert Hloop. rewrite Heq. clear Heq. revert ws.
      induction before as [|y before IH]; intros ws; cbn [app for_each].
      * by rewrite Hturn.
      * destruct (turn_under y); [done|]. rewrite bind_inr.
        destruct (for_each turn_under (before ++ x :: after)) eqn:Hrest; [done|].
        by specialize (IH _ eq_refl).
    + by rewrite (turn_under_returns _ _ Hturn).
Qed.

End Loop.

Lemma check_toc_under_raises (skill_dir : string) (e : exn) :
  check_toc_under fl fs skill_dir = inl e ↔ references_fail fl fs skill_dir e.
Proof.
  apply (loop_under_raises (λ fname text, toc_warning fname (Py.readlines text))).
Qed.

Lemma check_nested_under_raises (skill_dir : string) (e : exn) :
  check_nested_under fl fs skill_dir = inl e ↔ references_fail fl fs skill_dir e.
Proof. apply (loop_under_raises nested_warning). Qed.

Lemma check_toc_under_returns (skill_dir : string) (ws : list warning) :
  check_toc_under fl fs skill_dir = inr ws → ws = check_toc fs skill_dir.
Proof.
  apply (loop_under_returns (λ fname text, toc_warning fname (Py.readlines text))).
Qed.

Lemma check_nested_under_returns (skill_dir : string) (ws : list warning) :
  check_nested_under fl fs skill_dir = inr ws → ws = check_nested fs skill_dir.
Proof. apply (loop_under_returns nested_warning). Qed.

(** The two loops open the same files: when the first returns, so does
    the second. *)
Lemma check_toc_then_nested (skill_dir : string) (tocs : list warning) :
  check_toc_under fl fs skill_dir = inr tocs →
  check_nested_under fl fs skill_dir = inr (check_nested fs skill_dir).
Proof.
  intros Htoc. destruct (check_nested_under fl fs skill_dir) as [e|ws] eqn:Hn.
  - apply check_nested_under_raises, check_toc_under_raises in Hn. congruence.
  - by rewrite (check_nested_under_returns _ _ Hn).
Qed.

Lemma readable_references (skill_dir : string) :
  readable fl fs skill_dir →
  check_toc_under fl fs skill_dir = inr (check_toc fs skill_dir).
Proof.
  intros (_ & Hlist & Hfiles).
  destruct (check_toc_under fl fs skill_dir) as [e|ws] eqn:Htoc.
  - apply check_toc_under_raises in Htoc as [Hdir [Hl|(_ & ? & x & ? & _ & Hx & Hr & _)]].
    + rewrite Hlist in Hl; done.
    + rewrite Hfiles in Hr; done.
  - by rewrite (check_toc_under_returns _ _ Htoc).
Qed.

(** Step 4 raises what [str] raises on a truthy description, and else
    leaves what it leaves when [str] returns. *)
Lemma check_description_under_raises (frontmatter : gmap string pyval) (e : exn) :
  check_description_under fl frontmatter = inl e ↔
  ∃ v, frontmatter !! "description" = Some v
       ∧ truthy v = true ∧ str_error fl v = Some e.
Proof.
  unfold check_description_under, str. cbv zeta.
  destruct (frontmatter !! "description") as [v|] eqn:Hd;
    cbn [default from_option id].
  2:{ cbn. split; [done|]. by intros (? & ? & _). }
  destruct (truthy v) eqn:Ht; cbn [negb].
  2:{ split; [done|]. intros (? & [= <-] & ? & _). congruence. }
  destruct (str_error fl v) as [e'|] eqn:Hs.
  - rewrite bind_inl. split; [intros [= ->]; by exists v|].
    intros (? & [= <-] & _ & ?). congruence.
  - rewrite bind_inr. split.
    + case_bool_decide; [done|]. by rewrite bind_inr.
    + intros (? & [= <-] & _ & ?). congruence.
Qed.

Lemma check_description_under_returns (frontmatter : gmap string pyval)
    (errors : list error) :
  check_description_under fl frontmatter = inr errors →
  errors = check_description frontmatter.
Proof.
  unfold check_description_under, check_description, str. cbv zeta.
  destruct (negb (truthy _)); [by intros [= <-]|]. cbn [orb].
  destruct (str_error fl _); [done|]. rewrite bind_inr.
  case_bool_decide; [by intros [= <-]|]. rewrite bind_inr. by intros [= <-].
Qed.

Lemma printable_description (frontmatter : gmap string pyval) :
  printable fl frontmatter →
  check_description_under fl frontmatter = inr (check_description frontmatter).
Proof.
  intros Hp. destruct (check_description_under fl frontmatter) as [e|errors] eqn:Hd.
  - apply check_description_under_raises in Hd as (v & Hv & Ht & Hs).
    rewrite (Hp v Hv Ht) in Hs. done.
  - by rewrite (check_description_under_returns _ _ Hd).
Qed.

End Failing.

(** ** The pass where calls can fail *)

Section FailingPass.
Variable fl : faults.
Variable safe_load : string → load_result.
Variable fs : filesystem.
Import Re.

Lemma validate_under_parsed (skill_dir content : string) (fm_match : mstate)
    (frontmatter : gmap string pyval) :
  parses safe_load fs skill_dir content fm_match frontmatter →
  read_error fl (OsPath.join skill_dir "SKILL.md") = None →
  validate_skill_under fl safe_load fs skill_dir
  = check_all_under fl fs frontmatter content fm_match skill_dir.
Proof.
  intros [Hfile -> Hmatch Hload] Hread. unfold validate_skill_under, open_read.
  by rewrite Hfile, Hread, Hmatch, Hload.
Qed.

(** Steps 3 to 8 return what they return when nothing fails, if they
    return. *)
Lemma check_all_under_returns (frontmatter : gmap string pyval)
    (content : string) (fm_match : mstate) (skill_dir : string)
    (errors : list error) (warnings : list warning) :
  check_all_under fl fs frontmatter content fm_match skill_dir
  = Returned errors warnings →
  check_all_under fl fs frontmatter content fm_match skill_dir
  = check_all fs frontmatter content fm_match skill_dir
  ∧ printable fl frontmatter
  ∧ ∃ name_errors, check_name frontmatter skill_dir = inr name_errors.
Proof.
  unfold check_all_under, check_all.
  destruct (check_name frontmatter skill_dir) as [e|name_errors]; [done|].
  rewrite bind_inr.
  destruct (check_description_under fl frontmatter) as [e|desc_errors] eqn:Hd; [done|].
  rewrite bind_inr.
  destruct (check_toc_under fl fs skill_dir) as [e|tocs] eqn:Ht; [done|].
  rewrite bind_inr, (check_toc_then_nested _ _ _ _ Ht), bind_inr.
  rewrite (check_toc_under_returns _ _ _ _ Ht).
  rewrite (check_description_under_returns _ _ _ Hd). intros _.
  split_and!; [done| |by eexists].
  intros v Hv Htruthy. destruct (str_error fl v) as [e|] eqn:Hs; [|done].
  assert (check_description_under fl frontmatter = inl e) as Habs; [|congruence].
  apply check_description_under_raises. by exists v.
Qed.

(** Where the description can be printed and the references can be
    read, steps 3 to 8 end as they do when nothing fails. *)
Lemma check_all_under_fault_free (frontmatter : gmap string pyval)
    (content : string) (fm_match : mstate) (skill_dir : string) :
  printable fl frontmatter →
  readable fl fs skill_dir →
  check_all_under fl fs frontmatter content fm_match skill_dir
  = check_all fs frontmatter content fm_match skill_dir.
Proof.
  intros Hp Hr. unfold check_all_under, check_all.
  destruct (check_name frontmatter skill_dir) as [e|name_errors]; [done|].
  rewrite bind_inr, (printable_description _ _ Hp), bind_inr.
  pose proof (readable_references _ _ _ Hr) as Ht.
  by rewrite Ht, bind_inr, (check_toc_then_nested _ _ _ _ Ht), bind_inr.
Qed.

(** Past steps 1 and 2, with a name on which step 3 does not raise, a
    description that can be printed and references that can be read,
    every remaining step contributes. *)
Lemma validate_under_accumulates (skill_dir content : string) (fm_match : mstate)
    (frontmatter : gmap string pyval) :
  parses safe_load fs skill_dir content fm_match frontmatter →
  readable fl fs skill_dir →
  name_is_str frontmatter →
  printable fl frontmatter →
  ∃ name_errors,
    check_name frontmatter skill_dir = inr name_errors
    ∧ Forall (λ e, is_name_error e = true) name_errors
    ∧ validate_skill_under fl safe_load fs skill_dir
      = Returned
          (name_errors ++ check_description frontmatter)
          (check_license frontmatter ++ check_body content fm_match
           ++ check_toc fs skill_dir ++ check_nested fs skill_dir).
Proof.
  intros Hp Hr Hn Hpr.
  destruct (validate_accumulates _ _ _ _ _ _ Hp Hn) as (ne & Hc & Hall & Hv).
  exists ne. split_and!; [done..|].
  rewrite (validate_under_parsed _ _ _ _ Hp) by apply Hr.
  rewrite check_all_under_fault_free by done.
  by rewrite <- (validate_parsed _ _ _ _ _ _ Hp).
Qed.

Lemma name_is_str_iff (frontmatter : gmap string pyval) (skill_dir : string) :
  name_is_str frontmatter ↔ ∃ name_errors, check_name frontmatter skill_dir = inr name_errors.
Proof.
  split.
  - intros Hn. destruct (check_name_returns frontmatter skill_dir Hn) as (ne & ? & _).
    by exists ne.
  - intros [ne Hc]. unfold check_name in Hc. unfold name_is_str.
    destruct (frontmatter !! "name") as [v|]; [|done].
    cbn [default from_option id] in Hc.
    destruct (truthy v) eqn:Ht; [|by destruct v]. by destruct v.
Qed.

Lemma check_name_raises (frontmatter : gmap string pyval) (skill_dir : string)
    (e : exn) :
  check_name frontmatter skill_dir = inl e ↔
  ∃ v, frontmatter !! "name" = Some v
       ∧ truthy v = true ∧ (∀ s, v ≠ PStr s) ∧ e = TypeError.
Proof.
  unfold check_name.
  destruct (frontmatter !! "name") as [v|]; cbn [default from_option id].
  2:{ cbn. split; [done|]. by intros (? & ? & _). }
  destruct (truthy v) eqn:Ht; cbn [negb].
  2:{ split; [done|]. intros (? & [= <-] & ? & _). congruence. }
  split.
  - intros Hc. exists v. destruct v; try done; injection Hc as <-; done.
  - intros (? & [= <-] & _ & Hs & ->). destruct v; try done. by destruct (Hs s).
Qed.

Lemma printable_iff (frontmatter : gmap string pyval) :
  printable fl frontmatter ↔
  ∃ desc_errors, check_description_under fl frontmatter = inr desc_errors.
Proof.
  split.
  - intros Hp. eexists. by apply printable_description.
  - intros [de Hd] v Hv Ht. destruct (str_error fl v) as [e|] eqn:Hs; [|done].
    assert (check_description_under fl frontmatter = inl e) as Habs; [|congruence].
    apply check_description_under_raises. by exists v.
Qed.

(** Steps 3 to 8 raise what the first of steps 3, 4 and 7 that raises
    does; step 8 cannot be the first. *)
Lemma check_all_under_raises (frontmatter : gmap string pyval)
    (content : string) (fm_match : mstate) (skill_dir : string) (e : exn) :
  check_all_under fl fs frontmatter content fm_match skill_dir = Raised e ↔
  check_name frontmatter skill_dir = inl e
  ∨ (name_is_str frontmatter
     ∧ (check_description_under fl frontmatter = inl e
        ∨ (printable fl frontmatter
           ∧ check_toc_under fl fs skill_dir = inl e))).
Proof.
  rewrite (name_is_str_iff frontmatter skill_dir), printable_iff.
  unfold check_all_under.
  destruct (check_name frontmatter skill_dir) as [e'|name_errors].
  { rewrite bind_inl. cbn. split; [intros [= ->]; by left|].
    intros [[= ->]|[[? ?] _]]; done. }
  rewrite bind_inr.
  destruct (check_description_under fl frontmatter) as [e'|desc_errors].
  { rewrite bind_inl. cbn. split.
    - intros [= ->]. right. split; [by eexists|by left].
    - intros [?|[_ [[= ->]|[[? ?] _]]]]; done. }
  rewrite bind_inr.
  destruct (check_toc_under fl fs skill_dir) as [e'|tocs] eqn:Ht.
  { rewrite bind_inl. cbn. split.
    - intros [= ->]. right. split; [by eexists|]. right. split; [by eexists|done].
    - intros [?|[_ [?|[_ [= ->]]]]]; done. }
  rewrite bind_inr, (check_toc_then_nested _ _ _ _ Ht), bind_inr. cbn.
  split; [done|]. intros [?|[_ [?|[_ ?]]]]; done.
Qed.

End FailingPass.

(** * The claims *)

Section FatalConditions.
Variable safe_load : string → load_result.
Variable fs : filesystem.
Import Re.

(** A header block that loads, but not to a mapping, makes the call raise. *)
Lemma non_mapping_raises (skill_dir : string) (fm_match : mstate) (v : pyval) :
  isfile fs (OsPath.join skill_dir "SKILL.md") = true →
  re_match fm_re (read_text fs (OsPath.join skill_dir "SKILL.md")) = Some fm_match →
  safe_load (group1 fm_match) = Loaded (NotMapping v) →
  validate_skill safe_load fs skill_dir = Raised AttributeError.
Proof. intros Hf Hm Hl. unfold validate_skill. by rewrite Hf, Hm, Hl. Qed.

End FatalConditions.

(** C2: the pass is cut short where none of the fatal conditions holds.
    A header whose name is the number 123 is found, delimited and loaded
    to a mapping; steps 4 and 5 have an error and a warning to report on
    it; and the call ends in step 3 with [TypeError], so that nothing is
    reported.  Nor does every parse failure end the call with one error:
    on a header block that the loader rejects with [ValueError], and on
    one that loads to a null, the call raises. *)
Theorem C2_exception_cuts_the_pass_short :
  let fs := header_fs number_only_header in
  let content := skill_text fs "skills/foo" in
  (parses raising_loader fs "skills/foo" content (the_match content)
     number_only_meta
   ∧ delimited_frontmatter content
   ∧ check_description number_only_meta = [EDescMissing]
   ∧ check_license number_only_meta = [WNoLicense]
   ∧ validate_skill raising_loader fs "skills/foo" = Raised TypeError)
  ∧ validate_skill raising_loader (header_fs dated_header) "skills/foo"
    = Raised ValueError
  ∧ validate_skill raising_loader (header_fs [""]) "skills/foo"
    = Raised AttributeError.
Proof.
  cbv zeta. split_and!.
  - constructor; vm_compute; reflexivity.
  - apply frontmatter_delimited. eexists. vm_compute. reflexivity.
  - vm_compute; reflexivity.
  - vm_compute; reflexivity.
  - vm_compute; reflexivity.
  - vm_compute; reflexivity.
  - vm_compute; reflexivity.
Qed.

(** C3: a header block that loads to something that is not a mapping is
    not reported at all: on an empty block (a null) and on a block that
    is a plain scalar the call raises [AttributeError]. *)
Theorem C3_non_mapping_header_raises :
  validate_skill sample_loader (header_fs [""]) "skills/foo"
  = Raised AttributeError
  ∧ validate_skill sample_loader (header_fs ["just text"]) "skills/foo"
    = Raised AttributeError.
Proof. split; vm_compute; reflexivity. Qed.

Section Steps.
Variable safe_load : string → load_result.
Variable fs : filesystem.
Import Re.

(** C9: a name that is there but falsy (the empty string, the null of a
  bare [name:] key) is reported by the one error for a missing name and
  by no other name error: none of the four name checks is made. *)
Theorem C9_falsy_name_is_missing (skill_dir content : string)
  (fm_match : mstate) (frontmatter : gmap string pyval) (v : pyval) :
parses safe_load fs skill_dir content fm_match frontmatter →
frontmatter !! "name" = Some v →
truthy v = false →
∃ errors warnings,
  validate_skill safe_load fs skill_dir = Returned errors warnings
  ∧ errors = EMissingName :: check_description frontmatter
  ∧ filter (λ e, is_name_error e = true) errors = [EMissingName].
Proof.
intros Hp Hv Ht. rewrite (validate_parsed _ _ _ _ _ _ Hp). unfold check_all.
rewrite check_name_missing by (by rewrite Hv). cbn [app]. do 2 eexists.
split_and!; [done..|].
rewrite filter_cons_True by done. f_equal.
apply (filter_none is_name_error).
eapply Forall_impl; [apply check_description_kind|]. by intros [].
Qed.

(** C8: once the metadata is parsed, the warnings hold exactly one body
  warning, with the number of lines of the trimmed body, when that
  number is above 500, and none otherwise. *)
Theorem C8_body_length (skill_dir content : string)
  (fm_match : mstate) (frontmatter : gmap string pyval) :
parses safe_load fs skill_dir content fm_match frontmatter →
name_is_str frontmatter →
∃ errors warnings,
  validate_skill safe_load fs skill_dir = Returned errors warnings
  ∧ filter (λ w, is_body_warning w = true) warnings
    = let body := drop_str (m_end fm_match) content in
      let n := length (Py.splitlines (Py.strip body)) in
      if 500 <? n then [WBodyLong n] else [].
Proof.
intros Hp Hn.
destruct (validate_accumulates _ _ _ _ _ _ Hp Hn) as (ne & _ & _ & ->).
do 2 eexists. split; [done|]. rewrite !filter_app.
rewrite (filter_none is_body_warning (check_license frontmatter)).
2:{ destruct (check_license_kind frontmatter) as [-> | ->]; by repeat constructor. }
rewrite (filter_none is_body_warning (check_toc fs skill_dir)).
2:{ eapply Forall_impl; [apply check_toc_kind|]. by intros []. }
rewrite (filter_none is_body_warning (check_nested fs skill_dir)).
2:{ eapply Forall_impl; [apply check_nested_kind|]. by intros []. }
rewrite app_nil_r. cbn [app].
rewrite (filter_all is_body_warning) by apply check_body_kind. done.
Qed.

(** C10: the warnings about reference files come as two blocks behind
  the license and body warnings, first those about a missing table of
  contents, then those about nested links, and inside each block the
  files follow each other in sorted order. *)
Theorem C10_reference_warning_order (skill_dir content : string)
  (fm_match : mstate) (frontmatter : gmap string pyval) :
parses safe_load fs skill_dir content fm_match frontmatter →
name_is_str frontmatter →
∃ errors tocs nesteds,
  validate_skill safe_load fs skill_dir
  = Returned errors
      (check_license frontmatter ++ check_body content fm_match
       ++ tocs ++ nesteds)
  ∧ Forall (λ w, is_toc_warning w = true) tocs
  ∧ Forall (λ w, is_nested_warning w = true) nesteds
  ∧ StronglySorted String.le (warning_file <$> tocs)
  ∧ StronglySorted String.le (warning_file <$> nesteds).
Proof.
intros Hp Hn.
destruct (validate_accumulates _ _ _ _ _ _ Hp Hn) as (ne & _ & _ & ->).
eexists _, (check_toc fs skill_dir), (check_nested fs skill_dir).
split_and!; [done|apply check_toc_kind|apply check_nested_kind| |].
- rewrite check_toc_loop. apply each_reference_sorted.
  + intros fname fpath. unfold toc_warning. case_match; cbn; lia.
  + intros fname fpath. eapply Forall_impl; [apply toc_warning_kind|].
    by intros w [_ ?].
- rewrite check_nested_loop. apply each_reference_sorted.
  + intros fname fpath. unfold nested_warning. case_match; cbn; lia.
  + intros fname fpath. eapply Forall_impl; [apply nested_warning_kind|].
    by intros w [_ ?].
Qed.

(** C7: for a file of [references/] whose name ends in [.md], the
    warnings hold one table-of-contents warning with the name of the file
    and its number of lines when the file has more than 100 lines and its
    first 30 lines, joined and lower-cased, hold neither
    [table of contents] nor [## contents]; otherwise they hold none about
    it, so none for a file of exactly 100 lines.  No such warning is
    about a directory or an entry that does not end in [.md]. *)
Theorem C7_toc_warning (skill_dir content : string)
    (fm_match : mstate) (frontmatter : gmap string pyval) :
  parses safe_load fs skill_dir content fm_match frontmatter →
  name_is_str frontmatter →
  NoDup (listdir fs (OsPath.join skill_dir "references")) →
  ∃ errors warnings,
    validate_skill safe_load fs skill_dir = Returned errors warnings
    ∧ (∀ fname,
         is_reference_file fs skill_dir fname →
         let ref_lines := Py.readlines (reference_text fs skill_dir fname) in
         let header := Py.lower (Py.join_empty (take 30 ref_lines)) in
         filter (λ w, toc_warning_for fname w = true) warnings
         = if (100 <? length ref_lines)
              && negb (Py.contains "table of contents" header)
              && negb (Py.contains "## contents" header)
           then [WNoToc fname (length ref_lines)] else [])
    ∧ (∀ w, w ∈ warnings → is_toc_warning w = true →
            is_reference_file fs skill_dir (warning_file w)).
Proof.
  intros Hp Hn Hnd.
  destruct (validate_accumulates _ _ _ _ _ _ Hp Hn) as (ne & _ & _ & ->).
  do 2 eexists. split_and!; [done| |].
  - intros fname Href. cbv zeta. rewrite toc_warnings_of_file by done.
    unfold toc_warning, has_toc. by rewrite negb_orb, andb_assoc.
  - intros w Hw Hk. eapply reference_warning_file; [exact Hw|by left].
Qed.

(** C6, amended: for a file of [references/] whose name ends in [.md],
    the warnings hold one nested-link warning about it exactly when its
    text holds, on one line, an opening bracket, later [](] directly
    followed by [references/] or [./], and later [.md)].  The warning
    lists the first three matches, each of them such a piece of the text.
    No such warning is about a directory or an entry that does not end in
    [.md]. *)
Theorem C6_nested_link_warning (skill_dir content : string)
    (fm_match : mstate) (frontmatter : gmap string pyval) :
  parses safe_load fs skill_dir content fm_match frontmatter →
  name_is_str frontmatter →
  NoDup (listdir fs (OsPath.join skill_dir "references")) →
  ∃ errors warnings,
    validate_skill safe_load fs skill_dir = Returned errors warnings
    ∧ (∀ fname,
         is_reference_file fs skill_dir fname →
         let text := reference_text fs skill_dir fname in
         let nested := findall nested_re text in
         (nested_link text →
            nested ≠ []
            ∧ filter (λ w, nested_warning_for fname w = true) warnings
              = [WNested fname (take 3 nested)])
         ∧ (¬ nested_link text →
            filter (λ w, nested_warning_for fname w = true) warnings = [])
         ∧ (∀ x, x ∈ nested → ∃ pos rest, denote nested_re pos x rest))
    ∧ (∀ w, w ∈ warnings → is_nested_warning w = true →
            is_reference_file fs skill_dir (warning_file w)).
Proof.
  intros Hp Hn Hnd.
  destruct (validate_accumulates _ _ _ _ _ _ Hp Hn) as (ne & _ & _ & ->).
  do 2 eexists. split_and!; [done| |].
  - intros fname Href. cbv zeta. rewrite nested_warnings_of_file by done.
    split_and!.
    + intros Hl. split; [by apply findall_nested_link|by apply nested_warning_link].
    + apply nested_warning_no_link.
    + intros x (pre & rest & _ & D)%findall_from_sound. eauto.
  - intros w Hw Hk. eapply reference_warning_file; [exact Hw|by right].
Qed.

(** C4, amended: on a name that is a non-empty [str] (and does not end
    in a line feed) the four name checks are made one by one and each
    that fails leaves exactly one error: too long, not of the specified
    shape, two hyphens in a row, not the name of the directory. *)
Theorem C4_name_checks (skill_dir content : string)
    (fm_match : mstate) (frontmatter : gmap string pyval) (name : string) :
  parses safe_load fs skill_dir content fm_match frontmatter →
  frontmatter !! "name" = Some (PStr name) →
  name ≠ "" →
  last_char name ≠ Some LF →
  ∃ errors warnings,
    validate_skill safe_load fs skill_dir = Returned errors warnings
    ∧ filter (λ e, is_name_error e = true) errors
      = (if 64 <? String.length name
         then [ENameTooLong (String.length name)] else [])
        ++ (if name_shape name then [] else [ENamePattern name])
        ++ (if Py.contains "--" name then [ENameHyphens name] else [])
        ++ (if bool_decide (name = dir_name_of skill_dir) then []
            else [ENameMismatch name (dir_name_of skill_dir)]).
Proof.
  intros Hp Hname Hne Hlf. rewrite (validate_parsed _ _ _ _ _ _ Hp).
  unfold check_all. rewrite (check_name_str _ _ _ Hname Hne).
  do 2 eexists. split; [done|]. rewrite filter_app.
  rewrite (filter_none is_name_error (check_description frontmatter)).
  2:{ eapply Forall_impl; [apply check_description_kind|]. by intros []. }
  rewrite app_nil_r, (filter_all is_name_error).
  2:{ unfold name_too_long, name_bad_pattern, name_double_hyphen, name_mismatch.
      repeat apply Forall_app_2; repeat case_match; by repeat constructor. }
  rewrite name_pattern_shape by done.
  unfold name_too_long, name_double_hyphen, name_mismatch. cbv zeta.
  do 3 f_equal. by repeat case_bool_decide.
Qed.

(** C1, amended: a skill whose name is the name of its directory, of the
    specified shape, of at most 64 characters and without two hyphens in a
    row, whose description is not blank and has at most 1024 characters
    once trimmed and squeezed, and which has a license key, draws no
    error, and no warning but those of steps 6 to 8.  It draws no warning
    at all when its body has at most 500 lines and no reference file
    lacks a table of contents it should have or holds a nested link, and
    so when its body has at most 500 lines and there is no [references]
    directory. *)
Theorem C1_well_formed_skill (skill_dir content : string)
    (fm_match : mstate) (frontmatter : gmap string pyval) (name desc : string) :
  parses safe_load fs skill_dir content fm_match frontmatter →
  frontmatter !! "name" = Some (PStr name) →
  name = dir_name_of skill_dir →
  name_shape name = true →
  String.length name ≤ 64 →
  Py.contains "--" name = false →
  frontmatter !! "description" = Some (PStr desc) →
  Py.strip desc ≠ "" →
  String.length (squeeze (Py.strip desc)) ≤ 1024 →
  is_Some (frontmatter !! "license") →
  validate_skill safe_load fs skill_dir
  = Returned []
      (check_body content fm_match
       ++ check_toc fs skill_dir ++ check_nested fs skill_dir)
  ∧ (length (body_lines content fm_match) ≤ 500 →
     (∀ fname,
        is_reference_file fs skill_dir fname →
        let ref_lines := Py.readlines (reference_text fs skill_dir fname) in
        (length ref_lines ≤ 100 ∨ has_toc ref_lines = true)
        ∧ ¬ nested_link (reference_text fs skill_dir fname)) →
     validate_skill safe_load fs skill_dir = Returned [] [])
  ∧ (length (body_lines content fm_match) ≤ 500 →
     isdir fs (OsPath.join skill_dir "references") = false →
     validate_skill safe_load fs skill_dir = Returned [] []).
Proof.
  intros Hp Hname Hdir Hshape Hlen Hhyph Hdesc Hblank Hdlen [lic Hlic].
  assert (name ≠ "") as Hne by (by intros ->).
  assert (validate_skill safe_load fs skill_dir
          = Returned []
              (check_body content fm_match
               ++ check_toc fs skill_dir ++ check_nested fs skill_dir)) as Hv.
  { rewrite (validate_parsed _ _ _ _ _ _ Hp). unfold check_all.
    rewrite (check_name_str _ _ _ Hname Hne).
    destruct (name_shape_matches name Hshape) as [m Hm].
    unfold name_too_long, name_bad_pattern, name_double_hyphen, name_mismatch.
    rewrite Hm, Hhyph. cbv zeta. rewrite <- Hdir.
    rewrite (bool_decide_eq_false_2 (name ≠ name)) by (intros H; by apply H).
    replace (64 <? String.length name) with false
      by (symmetry; apply Nat.ltb_ge; lia).
    unfold check_description. rewrite Hdesc.
    cbn [default from_option id truthy py_str].
    assert (desc ≠ "") as Hdne by (by intros ->).
    rewrite (bool_decide_eq_false_2 (desc = "")) by done.
    rewrite (bool_decide_eq_false_2 (Py.strip desc = "")) by done.
    cbn [negb orb]. rewrite collapse_squeeze.
    replace (1024 <? String.length (squeeze (Py.strip desc))) with false
      by (symmetry; apply Nat.ltb_ge; lia).
    unfold check_license. by rewrite Hlic. }
  assert (length (body_lines content fm_match) ≤ 500 →
          check_body content fm_match = []) as Hbody.
  { intros Hle. unfold check_body. fold (body_lines content fm_match).
    replace (500 <? length (body_lines content fm_match)) with false
      by (symmetry; apply Nat.ltb_ge; lia).
    done. }
  split_and!; [done| |].
  - intros Hle Hrefs. rewrite Hv, (Hbody Hle).
    rewrite check_toc_loop, check_nested_loop, !each_reference_nil; [done| |].
    + intros fname Href. apply nested_warning_no_link, (Hrefs fname Href).
    + intros fname Href. destruct (Hrefs fname Href) as [Htoc _].
      unfold toc_warning. fold (reference_text fs skill_dir fname).
      destruct Htoc as [Hle'| ->]; [|by rewrite andb_false_r].
      replace (100 <? _) with false by (symmetry; apply Nat.ltb_ge; lia). done.
  - intros Hle Hnodir. rewrite Hv, (Hbody Hle).
    unfold check_toc, check_nested. cbv zeta. by rewrite Hnodir.
Qed.

End Steps.

Section StepsUnderFaults.
Variable fl : faults.
Variable safe_load : string → load_result.
Variable fs : filesystem.
Import Re.

(** C5, amended: step 4 leaves exactly one error, the one for a missing
    or empty description, when the description is absent, when it is
    falsy (a null, [false], 0, an empty string), and when its text is
    blank; otherwise it leaves one exactly when the text, trimmed and
    with each whitespace run (line breaks included) squeezed to one
    space, has more than 1024 characters, and that error reports this
    length.  The text is what [str()] returns on the value; the call is
    one in which it does return, and in which the files can be read. *)
Theorem C5_description_check (skill_dir content : string)
    (fm_match : mstate) (frontmatter : gmap string pyval) (desc : option pyval) :
  parses safe_load fs skill_dir content fm_match frontmatter →
  readable fl fs skill_dir →
  name_is_str frontmatter →
  frontmatter !! "description" = desc →
  (∀ v, desc = Some v → truthy v = true → str_error fl v = None) →
  ∃ errors warnings,
    validate_skill_under fl safe_load fs skill_dir = Returned errors warnings
    ∧ filter (λ e, is_description_error e = true) errors
      = if falsy desc then [EDescMissing]
        else description_errors (py_str <$> desc).
Proof.
  intros Hp Hr Hn Hd Hstr.
  destruct (validate_under_accumulates fl _ _ _ _ _ _ Hp Hr Hn) as (ne & _ & Hall & ->).
  { intros v Hv. apply Hstr. by rewrite <- Hd. }
  do 2 eexists. split; [done|]. rewrite filter_app.
  rewrite (filter_none is_description_error ne).
  2:{ eapply Forall_impl; [exact Hall|]. by intros []. }
  rewrite (filter_all is_description_error) by apply check_description_kind.
  unfold check_description, description_errors, falsy. rewrite Hd. cbn [app].
  destruct desc as [v|]; cbn [fmap option_fmap option_map default from_option id];
    [|done].
  rewrite collapse_squeeze. by destruct (truthy v).
Qed.

End StepsUnderFaults.

(** ** The claims on sample directories *)

Ltac evaluates := vm_compute; reflexivity.
Ltac sample_parses := constructor; evaluates.
Ltac decided := apply (bool_decide_unpack _); vm_compute; exact I.

(** *** Steps 1 and 2 *)

Example missing_skill_md :
  validate_skill_text sample_loader (body_fs 3) "skills/other"
  = inr (["SKILL.md not found in skills/other"], []).
Proof. evaluates. Qed.

Example no_frontmatter :
  validate_skill sample_loader
    (fs_of [("skills/foo/SKILL.md", unlines ["# Foo"; "---"; "name: foo"; "---"])] [])
    "skills/foo"
  = Returned [ENoFrontmatter] [].
Proof. evaluates. Qed.

(** The header block of a file that opens with [---], an empty line and
    [---] is the empty text. *)
Example empty_header_block :
  group1 <$> re_match fm_re (skill_md [""] ["# Foo"]) = Some "".
Proof. evaluates. Qed.

(** *** Step 3 *)

Lemma C9_falsy_name_is_missing_witness :
  ∃ errors warnings,
    validate_skill sample_loader (header_fs empty_name_header) "skills/foo"
    = Returned errors warnings
    ∧ errors = EMissingName :: check_description empty_name_meta
    ∧ filter (λ e, is_name_error e = true) errors = [EMissingName].
Proof.
  apply (C9_falsy_name_is_missing sample_loader (header_fs empty_name_header)
           "skills/foo" (skill_text (header_fs empty_name_header) "skills/foo")
           (the_match (skill_text (header_fs empty_name_header) "skills/foo"))
           empty_name_meta (PStr ""));
    [sample_parses|evaluates|evaluates].
Defined.

Example null_name_is_missing :
  validate_skill sample_loader (header_fs null_name_header) "skills/foo"
  = Returned [EMissingName] [].
Proof. evaluates. Qed.

Example empty_name_is_missing :
  validate_skill_text sample_loader (header_fs empty_name_header) "skills/foo"
  = inr (["Missing required 'name' field in frontmatter"], []).
Proof. evaluates. Qed.

(** C4 as stated fails on the empty name: the name is there, it is not
    of the specified shape and it is not the name of the directory, and
    yet neither of the two errors is left. *)
Lemma C4_counterexample :
  let fs := header_fs empty_name_header in
  let content := skill_text fs "skills/foo" in
  parses sample_loader fs "skills/foo" content (the_match content) empty_name_meta
  ∧ empty_name_meta !! "name" = Some (PStr "")
  ∧ name_shape "" = false
  ∧ re_match name_re "" = None
  ∧ "" ≠ dir_name_of "skills/foo"
  ∧ validate_skill sample_loader fs "skills/foo" = Returned [EMissingName] [].
Proof. split_and!; [sample_parses|evaluates|evaluates|evaluates|by vm_compute|evaluates]. Qed.

Lemma C4_name_checks_witness :
  ∃ errors warnings,
    validate_skill sample_loader capitals_fs "skills/My-Skill"
    = Returned errors warnings
    ∧ filter (λ e, is_name_error e = true) errors = [ENamePattern "My-Skill"].
Proof.
  apply (C4_name_checks sample_loader capitals_fs "skills/My-Skill"
           (skill_text capitals_fs "skills/My-Skill")
           (the_match (skill_text capitals_fs "skills/My-Skill"))
           (named_meta "My-Skill") "My-Skill");
    [sample_parses|evaluates|done|done].
Defined.

Example capitals_in_name :
  validate_skill sample_loader capitals_fs "skills/My-Skill"
  = Returned [ENamePattern "My-Skill"] [].
Proof. evaluates. Qed.

Example double_hyphen_in_name :
  validate_skill sample_loader
    (dir_fs "skills/my--skill" (named_header "my--skill") ["# My skill"])
    "skills/my--skill"
  = Returned [ENameHyphens "my--skill"] [].
Proof. evaluates. Qed.

Example name_is_not_the_directory :
  validate_skill_text sample_loader (header_fs (named_header "bar")) "skills/foo/"
  = inr (["'name' (bar) does not match directory name (foo)"], []).
Proof. evaluates. Qed.

(** Checks that fail together are all reported. *)
Example capitals_and_wrong_directory :
  validate_skill sample_loader (header_fs (named_header "My-Skill")) "skills/foo"
  = Returned [ENamePattern "My-Skill"; ENameMismatch "My-Skill" "foo"] [].
Proof. evaluates. Qed.

(** [$] also matches before a final line feed. *)
Example final_line_feed_passes_the_pattern :
  is_Some (re_match name_re ("my-skill" +:+ nl)) ∧ name_shape ("my-skill" +:+ nl) = false.
Proof. split; [by eexists|evaluates]. Qed.

(** A name that is a number makes [len] raise. *)
Example number_as_name :
  validate_skill sample_loader (header_fs number_name_header) "skills/foo"
  = Raised TypeError.
Proof. evaluates. Qed.

(** *** Step 4 *)

Lemma C5_description_check_witness :
  ∃ errors warnings,
    validate_skill_under cpython sample_loader
      (dir_fs "skills/my-skill" long_desc_header ["# My skill"]) "skills/my-skill"
    = Returned errors warnings
    ∧ filter (λ e, is_description_error e = true) errors = [EDescTooLong 1025].
Proof.
  pose (fs := dir_fs "skills/my-skill" long_desc_header ["# My skill"]).
  apply (C5_description_check cpython sample_loader fs
           "skills/my-skill" (skill_text fs "skills/my-skill")
           (the_match (skill_text fs "skills/my-skill"))
           long_desc_meta (Some (PStr (chars 1025 "a"))));
    [sample_parses| |evaluates|evaluates|by intros v [= <-]].
  split_and!; [done|done|]. by intros fname _.
Defined.

(** C5 as stated fails on the description 0: the key is there, its text
    [0] is not blank, the rule of the claim leaves no error for it, and
    the error for a missing description is left. *)
Lemma C5_counterexample :
  let fs := zero_desc_fs in
  let content := skill_text fs "skills/my-skill" in
  parses wider_loader fs "skills/my-skill" content (the_match content) zero_desc_meta
  ∧ zero_desc_meta !! "description" = Some (PInt 0)
  ∧ Py.strip (py_str (PInt 0)) = "0"
  ∧ description_errors (Some (py_str (PInt 0))) = []
  ∧ validate_skill_under cpython wider_loader fs "skills/my-skill"
    = Returned [EDescMissing] [].
Proof. split_and!; [sample_parses|evaluates..]. Qed.

Example blank_description :
  validate_skill_text sample_loader
    (dir_fs "skills/my-skill" blank_desc_header ["# My skill"]) "skills/my-skill"
  = inr (["Missing or empty 'description' field in frontmatter"], []).
Proof. evaluates. Qed.

Example no_description_no_license :
  validate_skill sample_loader
    (dir_fs "skills/my-skill" name_only_header ["# My skill"]) "skills/my-skill"
  = Returned [EDescMissing] [WNoLicense].
Proof. evaluates. Qed.

Example description_of_1025_letters :
  validate_skill_text sample_loader
    (dir_fs "skills/my-skill" long_desc_header ["# My skill"]) "skills/my-skill"
  = inr (["'description' exceeds 1024 characters (1025 chars)"], []).
Proof. evaluates. Qed.

(** 1102 characters, but 3 once the run of spaces is squeezed. *)
Example description_with_a_long_run_of_spaces :
  String.length spaced_desc = 1102
  ∧ validate_skill sample_loader
      (dir_fs "skills/my-skill" spaced_desc_header ["# My skill"]) "skills/my-skill"
    = Returned [] [].
Proof. split; evaluates. Qed.

Example description_over_two_lines :
  collapse (Py.strip ("first line" +:+ nl +:+ "second line" +:+ nl))
  = "first line second line"
  ∧ validate_skill sample_loader
      (dir_fs "skills/my-skill" block_desc_header ["# My skill"]) "skills/my-skill"
    = Returned [] [].
Proof. split; evaluates. Qed.

(** *** Step 6 *)

Lemma C8_body_length_witness :
  ∃ errors warnings,
    validate_skill sample_loader (body_fs 501) "skills/my-skill"
    = Returned errors warnings
    ∧ filter (λ w, is_body_warning w = true) warnings = [WBodyLong 501].
Proof.
  apply (C8_body_length sample_loader (body_fs 501) "skills/my-skill"
           (skill_text (body_fs 501) "skills/my-skill")
           (the_match (skill_text (body_fs 501) "skills/my-skill")) good_meta);
    [sample_parses|evaluates].
Defined.

Example body_of_501_lines :
  validate_skill_text sample_loader (body_fs 501) "skills/my-skill"
  = inr ([], ["SKILL.md body is 501 lines (recommended max: 500)"]).
Proof. evaluates. Qed.

Example body_of_500_lines :
  validate_skill sample_loader (body_fs 500) "skills/my-skill" = Returned [] [].
Proof. evaluates. Qed.

(** *** Steps 7 and 8 *)

Lemma long_refs_parses :
  parses sample_loader long_refs_fs "skills/my-skill"
    (skill_text long_refs_fs "skills/my-skill")
    (the_match (skill_text long_refs_fs "skills/my-skill")) good_meta.
Proof. sample_parses. Qed.

Lemma long_refs_a : is_reference_file long_refs_fs "skills/my-skill" "a.md".
Proof. split_and!; [evaluates|decided|evaluates|evaluates]. Qed.

Lemma C7_toc_warning_witness :
  ∃ errors warnings,
    validate_skill sample_loader long_refs_fs "skills/my-skill"
    = Returned errors warnings
    ∧ filter (λ w, toc_warning_for "a.md" w = true) warnings = [WNoToc "a.md" 101].
Proof.
  destruct (C7_toc_warning sample_loader long_refs_fs "skills/my-skill"
              (skill_text long_refs_fs "skills/my-skill")
              (the_match (skill_text long_refs_fs "skills/my-skill")) good_meta)
    as (errors & warnings & Hv & Hfile & _);
    [apply long_refs_parses|evaluates|decided|].
  exists errors, warnings. split; [exact Hv|].
  exact (Hfile "a.md" long_refs_a).
Defined.

Lemma C6_nested_link_warning_witness :
  ∃ errors warnings,
    validate_skill sample_loader long_refs_fs "skills/my-skill"
    = Returned errors warnings
    ∧ ∀ w, w ∈ warnings → is_nested_warning w = true →
           is_reference_file long_refs_fs "skills/my-skill" (warning_file w).
Proof.
  destruct (C6_nested_link_warning sample_loader long_refs_fs "skills/my-skill"
              (skill_text long_refs_fs "skills/my-skill")
              (the_match (skill_text long_refs_fs "skills/my-skill")) good_meta)
    as (errors & warnings & Hv & _ & Hfiles);
    [apply long_refs_parses|evaluates|decided|].
  exists errors, warnings. split; [exact Hv|exact Hfiles].
Defined.

Lemma C10_reference_warning_order_witness :
  ∃ errors tocs nesteds,
    validate_skill sample_loader long_refs_fs "skills/my-skill"
    = Returned errors
        (check_license good_meta
         ++ check_body (skill_text long_refs_fs "skills/my-skill")
              (the_match (skill_text long_refs_fs "skills/my-skill"))
         ++ tocs ++ nesteds)
    ∧ Forall (λ w, is_toc_warning w = true) tocs
    ∧ Forall (λ w, is_nested_warning w = true) nesteds
    ∧ StronglySorted String.le (warning_file <$> tocs)
    ∧ StronglySorted String.le (warning_file <$> nesteds).
Proof.
  apply (C10_reference_warning_order sample_loader long_refs_fs "skills/my-skill"
           (skill_text long_refs_fs "skills/my-skill")
           (the_match (skill_text long_refs_fs "skills/my-skill")) good_meta);
    [apply long_refs_parses|evaluates].
Defined.

(** The listing is [notes.txt; b.md; old.md; a.md]; the warnings come
    sorted by file inside each step, step 7 before step 8. *)
Example long_references :
  validate_skill sample_loader long_refs_fs "skills/my-skill"
  = Returned []
      [WNoToc "a.md" 101; WNoToc "b.md" 101;
       WNested "a.md" ["[see](references/b.md)"];
       WNested "b.md" ["[a](./a.md)"; "[c](./c.md)"]].
Proof. evaluates. Qed.

Example reference_of_101_lines :
  validate_skill_text sample_loader (refs_fs (ref_text_of "# A" 101) "")
    "skills/my-skill"
  = inr ([], ["references/a.md (101 lines) has no Table of Contents (recommended for files > 100 lines)"]).
Proof. evaluates. Qed.

Example reference_of_100_lines :
  validate_skill sample_loader (refs_fs (ref_text_of "# A" 100) "") "skills/my-skill"
  = Returned [] [].
Proof. evaluates. Qed.

Example reference_with_contents :
  validate_skill sample_loader
    (refs_fs (ref_text_of "## Contents" 101) (ref_text_of "Table of Contents" 200))
    "skills/my-skill"
  = Returned [] [].
Proof. evaluates. Qed.

Example link_into_references :
  validate_skill_text sample_loader (refs_fs "[see](references/other.md)" "")
    "skills/my-skill"
  = inr ([], ["references/a.md has nested reference links (should be one level deep): ['[see](references/other.md)']"]).
Proof. evaluates. Qed.

Example link_to_another_site :
  validate_skill sample_loader (refs_fs "[see](https://example.com/other.md)" "")
    "skills/my-skill"
  = Returned [] [].
Proof. evaluates. Qed.

(** At most three links are listed. *)
Example four_links :
  validate_skill sample_loader
    (refs_fs "[a](./a.md) [b](./b.md) [c](./c.md) [d](./d.md)" "") "skills/my-skill"
  = Returned [] [WNested "a.md" ["[a](./a.md)"; "[b](./b.md)"; "[c](./c.md)"]].
Proof. evaluates. Qed.

(** C6 as stated fails on a target that holds [references/] without
    starting with it: the link is one of those the claim describes and no
    warning is left. *)
Lemma C6_counterexample :
  let fs := refs_fs "[see](docs/references/other.md)" "" in
  let content := skill_text fs "skills/my-skill" in
  parses sample_loader fs "skills/my-skill" content (the_match content) good_meta
  ∧ is_reference_file fs "skills/my-skill" "a.md"
  ∧ link_to_reference (reference_text fs "skills/my-skill" "a.md")
  ∧ validate_skill sample_loader fs "skills/my-skill" = Returned [] [].
Proof.
  split_and!; [sample_parses|split_and!; [evaluates|decided|evaluates|evaluates]| |evaluates].
  exists "", "see", "docs/references/other.md", "".
  split_and!; [evaluates|evaluates|evaluates|left; evaluates|evaluates].
Qed.

(** *** The whole pass *)

Lemma C1_well_formed_skill_witness :
  validate_skill sample_loader (body_fs 3) "skills/my-skill" = Returned [] [].
Proof.
  destruct (C1_well_formed_skill sample_loader (body_fs 3) "skills/my-skill"
              (skill_text (body_fs 3) "skills/my-skill")
              (the_match (skill_text (body_fs 3) "skills/my-skill"))
              good_meta "my-skill" "A skill")
    as (_ & _ & Hclean);
    [sample_parses|evaluates|evaluates|evaluates|vm_compute; lia|evaluates
    |evaluates|by vm_compute|vm_compute; lia|by eexists|].
  apply Hclean; [vm_compute; lia|evaluates].
Defined.

(** C1 as stated fails on a skill with a reference file that holds a
    nested link: every condition of the claim is met and a warning is
    left. *)
Lemma C1_counterexample :
  let fs := refs_fs "[see](references/other.md)" "" in
  let content := skill_text fs "skills/my-skill" in
  parses sample_loader fs "skills/my-skill" content (the_match content) good_meta
  ∧ good_meta !! "name" = Some (PStr "my-skill")
  ∧ "my-skill" = dir_name_of "skills/my-skill"
  ∧ name_shape "my-skill" = true
  ∧ String.length "my-skill" ≤ 64
  ∧ Py.contains "--" "my-skill" = false
  ∧ good_meta !! "description" = Some (PStr "A skill")
  ∧ Py.strip "A skill" ≠ ""
  ∧ String.length (squeeze (Py.strip "A skill")) ≤ 1024
  ∧ is_Some (good_meta !! "license")
  ∧ validate_skill sample_loader fs "skills/my-skill"
    = Returned [] [WNested "a.md" ["[see](references/other.md)"]]
  ∧ validate_skill sample_loader fs "skills/my-skill" ≠ Returned [] [].
Proof.
  split_and!;
    [sample_parses|evaluates|evaluates|evaluates|vm_compute; lia|evaluates
    |evaluates|by vm_compute|vm_compute; lia|by eexists|evaluates|by vm_compute].
Qed.

(** * Further properties of the program *)

(** ** The command line *)

Section MainProperties.
Variable safe_load : string → load_result.
Variable fs : filesystem.

Lemma main_checked (script skill_dir : string) (rest : list string) :
  isdir fs skill_dir = true →
  main safe_load fs (script :: skill_dir :: rest)
  = let head := ["Validating skill: " +:+ skill_dir; chars 60 "="] in
    match validate_skill safe_load fs skill_dir with
    | Raised e => (head, Uncaught e)
    | Returned errors warnings =>
        (head
         ++ report_block "ERRORS" (render_error <$> errors)
         ++ report_block "WARNINGS" (render_warning <$> warnings)
         ++ (if bool_decide (errors = []) && bool_decide (warnings = [])
             then [nl +:+ " All checks passed!"] else [])
         ++ [""],
         if bool_decide (errors = []) then Exit 0 else Exit 1)
    end.
Proof.
  intros Hdir. unfold main, validate_skill_text. cbn [length Nat.ltb Nat.leb].
  cbn [lookup list_lookup default from_option id]. rewrite Hdir. cbn [negb].
  destruct (validate_skill safe_load fs skill_dir) as [errors warnings|e]; [|done].
  cbv zeta. destruct errors, warnings; done.
Qed.

Lemma main_unchecked (argv : list string) :
  (∀ script skill_dir rest,
     argv = script :: skill_dir :: rest → isdir fs skill_dir = false) →
  ∃ printed, main safe_load fs argv = (printed, Exit 1)
             ∧ (printed = usage ∨ ∃ d, printed = ["ERROR: '" +:+ d +:+ "' is not a directory"]).
Proof.
  intros Hdir. unfold main.
  destruct argv as [|script [|skill_dir rest]]; [by eexists; split; [|left]..|].
  cbn [length Nat.ltb Nat.leb lookup list_lookup default from_option id].
  rewrite (Hdir script skill_dir rest eq_refl). cbn [negb].
  eexists. split; [done|]. right. by eexists.
Qed.

(** X1: the process ends with status 0 exactly when a directory was
    named and its validation returned without errors; warnings, however
    many, do not change that.  In every other case the status is 1. *)
Theorem main_succeeds_iff (argv : list string) :
  (exit_status (main safe_load fs argv).2 = 0 ↔
   ∃ script skill_dir rest warnings,
     argv = script :: skill_dir :: rest
     ∧ isdir fs skill_dir = true
     ∧ validate_skill safe_load fs skill_dir = Returned [] warnings)
  ∧ (exit_status (main safe_load fs argv).2 = 0
     ∨ exit_status (main safe_load fs argv).2 = 1).
Proof.
  destruct argv as [|script [|skill_dir rest]].
  1,2: split; [|by right]; split; [done|]; by intros (? & ? & ? & ? & ? & _).
  destruct (isdir fs skill_dir) eqn:Hdir.
  - rewrite main_checked by done. cbv zeta.
    destruct (validate_skill safe_load fs skill_dir) as [errors warnings|e] eqn:Hv.
    + destruct errors as [|e es]; cbn [snd exit_status].
      * split; [|by left]. split; [|done]. intros _.
        by exists script, skill_dir, rest, warnings.
      * rewrite bool_decide_eq_false_2 by done. cbn. split; [|by right].
        split; [done|]. intros (? & ? & ? & ? & [= <- <- <-] & _ & Hv').
        congruence.
    + cbn. split; [|by right]. split; [done|].
      intros (? & ? & ? & ? & [= <- <- <-] & _ & Hv'). congruence.
  - destruct (main_unchecked (script :: skill_dir :: rest)) as (p & -> & _).
    { by intros ? ? ? [= <- <- <-]. }
    cbn. split; [|by right]. split; [done|].
    intros (? & ? & ? & ? & [= <- <- <-] & ? & _). congruence.
Qed.


End MainProperties.

(** ** When a validation raises *)

Section Raising.
Variable fl : faults.
Variable safe_load : string → load_result.
Variable fs : filesystem.
Import Re.

(** X3: a validation raises [e] in these situations and in no other,
    all of them behind step 1: the read of [SKILL.md] raises [e]; the
    loader raises [e], which is then not a [yaml.YAMLError]; the header
    block loads to something that is not a mapping and [e] is
    [AttributeError]; the name is truthy and not a [str] and [e] is
    [TypeError]; step 3 passes and [str()] raises [e] on a truthy
    description; steps 3 and 4 pass and listing [references] or reading
    one of its files raises [e].  In particular it never raises on a
    missing file, a missing frontmatter or a [yaml.YAMLError]. *)
Theorem validate_raises_iff (skill_dir : string) (e : exn) :
  validate_skill_under fl safe_load fs skill_dir = Raised e ↔
  isfile fs (OsPath.join skill_dir "SKILL.md") = true
  ∧ (read_error fl (OsPath.join skill_dir "SKILL.md") = Some e
     ∨ (read_error fl (OsPath.join skill_dir "SKILL.md") = None
        ∧ ∃ fm_match,
            re_match fm_re (read_text fs (OsPath.join skill_dir "SKILL.md"))
            = Some fm_match
            ∧ (safe_load (group1 fm_match) = LoadRaised e
               ∨ (∃ v, safe_load (group1 fm_match) = Loaded (NotMapping v)
                       ∧ e = AttributeError)
               ∨ (∃ frontmatter,
                    safe_load (group1 fm_match) = Loaded (Mapping frontmatter)
                    ∧ ((∃ v, frontmatter !! "name" = Some v
                             ∧ truthy v = true
                             ∧ (∀ s, v ≠ PStr s)
                             ∧ e = TypeError)
                       ∨ (name_is_str frontmatter
                          ∧ ((∃ v, frontmatter !! "description" = Some v
                                   ∧ truthy v = true
                                   ∧ str_error fl v = Some e)
                             ∨ (printable fl frontmatter
                                ∧ references_fail fl fs skill_dir e)))))))).
Proof.
  unfold validate_skill_under, open_read.
  destruct (isfile fs (OsPath.join skill_dir "SKILL.md")) eqn:Hfile; cbn [negb].
  2:{ split; [done|]. by intros [? _]. }
  destruct (read_error fl _) as [e'|] eqn:Hread.
  { split.
    - intros [= ->]. split; [done|]. by left.
    - intros [_ [[= ->]|[? _]]]; done. }
  destruct (re_match fm_re _) as [fm_match|] eqn:Hmatch.
  2:{ split; [done|]. by intros [_ [?|(_ & ? & ? & _)]]. }
  destruct (safe_load (group1 fm_match)) as [msg|[frontmatter|v]|e'] eqn:Hload.
  - split; [done|]. intros [_ [?|(_ & m & [= <-] & Hcase)]]; [done|].
    rewrite Hload in Hcase.
    by destruct Hcase as [?|[(? & ? & _)|(? & ? & _)]].
  - rewrite check_all_under_raises, check_name_raises,
      check_description_under_raises, check_toc_under_raises.
    split.
    + intros Hcase. split; [done|]. right. split; [done|].
      exists fm_match. split; [done|]. right. right. by exists frontmatter.
    + intros [_ [?|(_ & m & [= <-] & Hcase)]]; [done|]. rewrite Hload in Hcase.
      destruct Hcase as [?|[(? & ? & _)|(fm & [= <-] & Hcase)]]; done.
  - split.
    + intros [= <-]. split; [done|]. right. split; [done|].
      exists fm_match. split; [done|]. right. left. by exists v.
    + intros [_ [?|(_ & m & [= <-] & Hcase)]]; [done|]. rewrite Hload in Hcase.
      by destruct Hcase as [?|[(? & ? & ->)|(? & ? & _)]].
  - split.
    + intros [= ->]. split; [done|]. right. split; [done|].
      exists fm_match. split; [done|]. by left.
    + intros [_ [?|(_ & m & [= <-] & Hcase)]]; [done|]. rewrite Hload in Hcase.
      by destruct Hcase as [[= ->]|[(? & ? & _)|(? & ? & _)]].
Qed.

(** X18: a call that fails somewhere never returns something else: what
    a validation returns is what it returns when every file can be read
    and every value can be printed. *)
Theorem faults_only_raise (skill_dir : string)
    (errors : list error) (warnings : list warning) :
  validate_skill_under fl safe_load fs skill_dir = Returned errors warnings →
  validate_skill safe_load fs skill_dir = Returned errors warnings.
Proof.
  unfold validate_skill_under, validate_skill, open_read.
  destruct (isfile fs _); cbn [negb]; [|done].
  destruct (read_error fl _); [done|].
  destruct (re_match fm_re _) as [fm_match|]; [|done].
  destruct (safe_load _) as [msg|[frontmatter|v]|e]; [done| |done..].
  intros Hr. destruct (check_all_under_returns _ _ _ _ _ _ _ _ Hr) as [<- _].
  done.
Qed.


(** X20: each fatal condition ends the call with exactly its error and
    no warning, and a call that returns anything else has gone through
    every step: its errors are those of steps 3 and 4, its warnings
    those of steps 5 to 8. *)
Theorem fatal_conditions_return_early (skill_dir : string) :
  (∀ e, fatal fl safe_load fs skill_dir e →
        validate_skill_under fl safe_load fs skill_dir = Returned [e] [])
  ∧ (∀ errors warnings,
       validate_skill_under fl safe_load fs skill_dir = Returned errors warnings →
       (∃ e, fatal fl safe_load fs skill_dir e ∧ errors = [e] ∧ warnings = [])
       ∨ (∃ content fm_match frontmatter name_errors,
            parses safe_load fs skill_dir content fm_match frontmatter
            ∧ check_name frontmatter skill_dir = inr name_errors
            ∧ errors = name_errors ++ check_description frontmatter
            ∧ warnings = check_license frontmatter ++ check_body content fm_match
                         ++ check_toc fs skill_dir ++ check_nested fs skill_dir)).
Proof.
  split.
  - intros e He. unfold validate_skill_under, open_read.
    destruct He as [Hfile|Hfile Hread Hno|fm_match msg Hfile Hread Hmatch Hload].
    + by rewrite Hfile.
    + rewrite Hfile, Hread. cbn [negb].
      destruct (re_match fm_re _) as [m|] eqn:Hm; [|done].
      destruct Hno. apply frontmatter_delimited. by exists m.
    + by rewrite Hfile, Hread, Hmatch, Hload.
  - intros errors warnings. unfold validate_skill_under, open_read.
    destruct (isfile fs _) eqn:Hfile; cbn [negb].
    2:{ intros [= <- <-]. left. eexists. split_and!; [|done..]. by constructor. }
    destruct (read_error fl _) eqn:Hread; [done|].
    destruct (re_match fm_re _) as [fm_match|] eqn:Hm.
    2:{ intros [= <- <-]. left. eexists. split_and!; [|done..].
        constructor; [done..|]. intros [m Hm']%frontmatter_delimited. congruence. }
    destruct (safe_load _) as [msg|[frontmatter|v]|e] eqn:Hl; [| |done..].
    { intros [= <- <-]. left. eexists. split_and!; [|done..].
      by econstructor. }
    intros Hr. right.
    destruct (check_all_under_returns _ _ _ _ _ _ _ _ Hr) as (Heq & _ & ne & Hc).
    rewrite Heq in Hr. unfold check_all in Hr. rewrite Hc in Hr.
    injection Hr as <- <-.
    exists (read_text fs (OsPath.join skill_dir "SKILL.md")), fm_match,
      frontmatter, ne.
    split_and!; [by constructor|done..].
Qed.

End Raising.

(** ** Step 5 and the place of each warning *)

Section License.
Variable safe_load : string → load_result.
Variable fs : filesystem.
Import Re.

(** X4: the license warning is there exactly when the key is absent,
    whatever the value of a key that is present, a null included; when it
    is there it is the first warning and occurs once. *)
Theorem license_warning_iff (skill_dir content : string)
    (fm_match : mstate) (frontmatter : gmap string pyval) :
  parses safe_load fs skill_dir content fm_match frontmatter →
  name_is_str frontmatter →
  ∃ errors warnings,
    validate_skill safe_load fs skill_dir = Returned errors warnings
    ∧ match frontmatter !! "license" with
      | None => ∃ others, warnings = WNoLicense :: others ∧ WNoLicense ∉ others
      | Some _ => WNoLicense ∉ warnings
      end.
Proof.
  intros Hp Hn.
  destruct (validate_accumulates _ _ _ _ _ _ Hp Hn) as (ne & _ & _ & ->).
  do 2 eexists. split; [done|].
  assert (WNoLicense ∉ check_body content fm_match
                       ++ check_toc fs skill_dir ++ check_nested fs skill_dir) as Hno.
  { rewrite !elem_of_app. intros [H|[H|H]].
    - pose proof (check_body_kind content fm_match) as Hall.
      rewrite Forall_forall in Hall. by specialize (Hall _ H).
    - pose proof (check_toc_kind fs skill_dir) as Hall.
      rewrite Forall_forall in Hall. by specialize (Hall _ H).
    - pose proof (check_nested_kind fs skill_dir) as Hall.
      rewrite Forall_forall in Hall. by specialize (Hall _ H). }
  unfold check_license. destruct (frontmatter !! "license"); [done|].
  eexists. split; [done|]. done.
Qed.

End License.

(** ** What a validation looks at *)

Section Footprint.
Variable safe_load : string → load_result.
Import Re.

Lemma sorted_permutation (l1 l2 : list string) :
  l1 ≡ₚ l2 → sorted l1 = sorted l2.
Proof.
  intros Hp. apply (StronglySorted_unique String.le).
  - apply sorted_StronglySorted.
  - apply sorted_StronglySorted.
  - unfold sorted. by rewrite !merge_sort_Permutation.
Qed.

Lemma each_reference_footprint (fs1 fs2 : filesystem) (skill_dir : string)
    (body1 body2 : string → string → list warning) :
  same_footprint fs1 fs2 skill_dir →
  (∀ fname,
     is_reference_file fs1 skill_dir fname →
     body1 fname (OsPath.join (OsPath.join skill_dir "references") fname)
     = body2 fname (OsPath.join (OsPath.join skill_dir "references") fname)) →
  each_reference fs1 body1 skill_dir = each_reference fs2 body2 skill_dir.
Proof.
  intros (_ & _ & Hdir & Hlist & Hfiles) Hbody. unfold each_reference. cbv zeta.
  rewrite <- Hdir, <- (sorted_permutation _ _ Hlist).
  destruct (isdir fs1 (OsPath.join skill_dir "references")) eqn:Hd; [|done].
  apply Forall_bind_ext, Forall_forall. intros fname Hin.
  apply (proj1 (sorted_elem _ _)) in Hin.
  destruct (Py.endswith fname ".md") eqn:Hmd; [|done].
  destruct (Hfiles fname Hin Hmd) as [Hf _]. rewrite <- Hf.
  destruct (isfile fs1 _) eqn:Hfile; [|done]. cbn [negb orb].
  apply Hbody. by split_and!.
Qed.

(** X5: the outcome of a validation depends on nothing but [SKILL.md],
    the set of entries of [references/], and the text of the entries that
    end in [.md] and are files.  Other files, the text of other entries
    and the order in which the directory is listed do not matter. *)
Theorem validate_footprint (fs1 fs2 : filesystem) (skill_dir : string) :
  same_footprint fs1 fs2 skill_dir →
  validate_skill safe_load fs1 skill_dir = validate_skill safe_load fs2 skill_dir.
Proof.
  intros Hsame. pose proof Hsame as (Hfile & Htext & _ & _ & Hfiles).
  cbv zeta in Hfile, Htext, Hfiles.
  unfold validate_skill. rewrite <- Hfile, <- Htext.
  destruct (isfile fs1 _); [|done]. cbn [negb].
  destruct (re_match fm_re _) as [fm_match|]; [|done].
  destruct (safe_load _) as [|[frontmatter|]|]; [done| |done..].
  unfold check_all. destruct (check_name frontmatter skill_dir); [done|].
  rewrite !check_toc_loop, !check_nested_loop.
  rewrite (each_reference_footprint fs1 fs2 skill_dir _
             (λ fname fpath, toc_warning fname (Py.readlines (read_text fs2 fpath)))
             Hsame).
  2:{ intros fname (_ & Hin & Hmd & Hf). cbv beta.
      destruct (Hfiles fname Hin Hmd) as [_ Ht]. by rewrite Ht. }
  rewrite (each_reference_footprint fs1 fs2 skill_dir _
             (λ fname fpath, nested_warning fname (read_text fs2 fpath)) Hsame).
  2:{ intros fname (_ & Hin & Hmd & Hf). cbv beta.
      destruct (Hfiles fname Hin Hmd) as [_ Ht]. by rewrite Ht. }
  done.
Qed.

End Footprint.

(** ** Names *)

Section Names.
Variable safe_load : string → load_result.
Variable fs : filesystem.
Import Re.

(** A name has the specified shape exactly when it is one letter or
    digit, or begins and ends with one and has letters, digits and
    hyphens in between. *)
Lemma name_shape_word (w : string) :
  name_shape w = true ↔
  ∃ c, lower_alnum c = true
       ∧ (w = String c ""
          ∨ ∃ u d, w = String c (u +:+ String d "")
                   ∧ all_chars lower_alnum_hyphen u = true
                   ∧ lower_alnum d = true).
Proof.
  split.
  - unfold name_shape. destruct w as [|c t]; [done|].
    destruct (last_char (String c t)) as [d|] eqn:Hlast; [|done].
    intros [[Hc Ht]%andb_true_iff Hd]%andb_true_iff.
    exists c. split; [done|]. destruct t as [|c' t']; [by left|]. right.
    destruct (string_snoc_inv (String c' t')) as (u & d' & E); [done|].
    rewrite E in *. rewrite last_char_cons_snoc in Hlast. injection Hlast as ->.
    rewrite all_chars_app in Ht. apply andb_true_iff in Ht as [Hu _].
    by exists u, d.
  - intros (c & Hc & [-> | (u & d & -> & Hu & Hd)]); unfold name_shape.
    + cbn. by rewrite Hc.
    + rewrite last_char_cons_snoc, all_chars_app, Hc, Hu, Hd. cbn.
      by rewrite (lower_alnum_hyphen_of_alnum d Hd).
Qed.

(** X6: the pattern check of step 3 lets through the names of the
    specified shape and, since [$] also matches before a final line feed,
    those names with one line feed behind them; it lets through nothing
    else. *)
Theorem name_pattern_passes_iff (name : string) :
  name_bad_pattern name = [] ↔
  name_shape name = true ∨ ∃ n, name = n +:+ nl ∧ name_shape n = true.
Proof.
  assert (name_bad_pattern name = [] ↔ is_Some (re_match name_re name)) as ->.
  { unfold name_bad_pattern. destruct (re_match name_re name) as [m|];
      (split; intros H); [by eexists|done|done|by destruct H]. }
  rewrite re_match_is_Some. split.
  - intros (w & rest & -> & (Hrest & Hw)%name_re_denote).
    apply name_shape_word in Hw. destruct Hrest as [-> | ->].
    + left. by rewrite string_app_nil_r.
    + right. by exists w.
  - intros [Hs | (n & -> & Hs)]; apply name_shape_word in Hs.
    + exists name, "". split; [by rewrite string_app_nil_r|].
      apply name_re_denote. split; [by left|done].
    + exists n, nl. split; [done|]. apply name_re_denote. split; [by right|done].
Qed.

(** X7: a skill cannot be free of name errors unless the name of its
    directory passes the pattern check itself: in a directory such as
    [.] every name that is a non-empty [str] draws a pattern error or a
    mismatch error. *)
Theorem directory_name_must_pass (skill_dir content : string)
    (fm_match : mstate) (frontmatter : gmap string pyval) (name : string) :
  parses safe_load fs skill_dir content fm_match frontmatter →
  frontmatter !! "name" = Some (PStr name) →
  name ≠ "" →
  re_match name_re (dir_name_of skill_dir) = None →
  ∃ errors warnings,
    validate_skill safe_load fs skill_dir = Returned errors warnings
    ∧ (ENamePattern name ∈ errors
       ∨ ENameMismatch name (dir_name_of skill_dir) ∈ errors).
Proof.
  intros Hp Hname Hne Hdir. rewrite (validate_parsed _ _ _ _ _ _ Hp).
  unfold check_all. rewrite (check_name_str _ _ _ Hname Hne).
  do 2 eexists. split; [done|].
  unfold name_bad_pattern, name_mismatch. cbv zeta.
  destruct (decide (name = dir_name_of skill_dir)) as [E|E].
  - left. rewrite E, Hdir. rewrite <- E.
    rewrite !elem_of_app. left. right. left. by left.
  - right. rewrite (bool_decide_eq_true_2 (name ≠ dir_name_of skill_dir)) by done.
    rewrite !elem_of_app. left. right. right. right. by left.
Qed.

End Names.

(** ** Descriptions *)

Section Descriptions.
Variable safe_load : string → load_result.
Variable fs : filesystem.
Import Re.

Lemma lstrip_length (s : string) : String.length (Py.lstrip s) ≤ String.length s.
Proof.
  induction s as [|c s IH]; [done|]. cbn. destruct (Py.isspace c); cbn; lia.
Qed.

Lemma rstrip_length (s : string) : String.length (Py.rstrip s) ≤ String.length s.
Proof.
  induction s as [|c s IH]; [done|]. cbn.
  destruct (Py.rstrip s); [destruct (Py.isspace c)|]; cbn in *; lia.
Qed.

Lemma strip_length (s : string) : String.length (Py.strip s) ≤ String.length s.
Proof.
  unfold Py.strip. pose proof (lstrip_length (Py.rstrip s)).
  pose proof (rstrip_length s). lia.
Qed.

Lemma squeeze_from_length (in_run : bool) (s : string) :
  String.length (squeeze_from in_run s) ≤ String.length s.
Proof.
  revert in_run. induction s as [|c s IH]; intros in_run; [done|]. cbn.
  destruct (Py.isspace c); [destruct in_run|]; cbn;
    [specialize (IH true)|specialize (IH true)|specialize (IH false)]; lia.
Qed.

(** Collapsing never makes a text longer. *)
Lemma collapse_strip_length (s : string) :
  String.length (collapse (Py.strip s)) ≤ String.length s.
Proof.
  rewrite collapse_squeeze. unfold squeeze.
  pose proof (squeeze_from_length false (Py.strip s)).
  pose proof (strip_length s). lia.
Qed.

(** X8: a description whose text has at most 1024 characters as it
    stands never draws the length error: trimming and collapsing only
    shorten it. *)
Theorem short_description_never_too_long (skill_dir content : string)
    (fm_match : mstate) (frontmatter : gmap string pyval) (v : pyval) :
  parses safe_load fs skill_dir content fm_match frontmatter →
  name_is_str frontmatter →
  frontmatter !! "description" = Some v →
  String.length (py_str v) ≤ 1024 →
  ∃ errors warnings,
    validate_skill safe_load fs skill_dir = Returned errors warnings
    ∧ ∀ n, EDescTooLong n ∉ errors.
Proof.
  intros Hp Hn Hd Hlen.
  destruct (validate_accumulates _ _ _ _ _ _ Hp Hn) as (ne & _ & Hall & ->).
  do 2 eexists. split; [done|]. intros n [Hin|Hin]%elem_of_app.
  - rewrite Forall_forall in Hall. by specialize (Hall _ Hin).
  - unfold check_description in Hin. rewrite Hd in Hin.
    cbn [default from_option id] in Hin. cbv zeta in Hin.
    pose proof (collapse_strip_length (py_str v)) as Hc.
    destruct (negb (truthy v) || _).
    + apply list_elem_of_singleton in Hin. done.
    + replace (1024 <? _) with false in Hin by (symmetry; apply Nat.ltb_ge; lia).
      by apply elem_of_nil in Hin.
Qed.

(** X9: a description that is there but falsy without being a [str]
    (0, [false], the null of a bare key) is reported as missing, although
    its text is not blank. *)
Theorem falsy_description_is_missing (skill_dir content : string)
    (fm_match : mstate) (frontmatter : gmap string pyval) (v : pyval) :
  parses safe_load fs skill_dir content fm_match frontmatter →
  name_is_str frontmatter →
  frontmatter !! "description" = Some v →
  truthy v = false →
  ∃ errors warnings,
    validate_skill safe_load fs skill_dir = Returned errors warnings
    ∧ filter (λ e, is_description_error e = true) errors = [EDescMissing].
Proof.
  intros Hp Hn Hd Ht.
  destruct (validate_accumulates _ _ _ _ _ _ Hp Hn) as (ne & _ & Hall & ->).
  do 2 eexists. split; [done|]. rewrite filter_app.
  rewrite (filter_none is_description_error ne).
  2:{ eapply Forall_impl; [exact Hall|]. by intros []. }
  rewrite (filter_all is_description_error) by apply check_description_kind.
  unfold check_description. rewrite Hd. cbn [default from_option id].
  by rewrite Ht.
Qed.

(** X10: a validation returns at most five errors: at most four about
    the name and at most one about the description. *)
Theorem at_most_five_errors (skill_dir : string)
    (errors : list error) (warnings : list warning) :
  validate_skill safe_load fs skill_dir = Returned errors warnings →
  length errors ≤ 5
  ∧ length (filter (λ e, is_name_error e = true) errors) ≤ 4
  ∧ length (filter (λ e, is_description_error e = true) errors) ≤ 1.
Proof.
  assert (∀ e, is_name_error e = false → is_description_error e = false →
            length [e] ≤ 5
            ∧ length (filter (λ e, is_name_error e = true) [e]) ≤ 4
            ∧ length (filter (λ e, is_description_error e = true) [e]) ≤ 1) as Hone.
  { intros e H1 H2. rewrite !filter_cons_False, !filter_nil by congruence.
    cbn. lia. }
  unfold validate_skill.
  destruct (negb (isfile fs _)); [intros [= <- <-]; by apply Hone|].
  destruct (re_match fm_re _) as [fm_match|]; [|intros [= <- <-]; by apply Hone].
  destruct (safe_load _) as [|[frontmatter|]|];
    [intros [= <- <-]; by apply Hone| |done..].
  unfold check_all. destruct (check_name frontmatter skill_dir) as [|ne] eqn:Hc; [done|].
  intros [= <- <-].
  assert (length ne ≤ 4 ∧ Forall (λ e, is_name_error e = true) ne) as [Hlen Hall].
  { unfold check_name in Hc. destruct (negb (truthy _)).
    - injection Hc as <-. split; [cbn; lia|by repeat constructor].
    - destruct (default PNone (frontmatter !! "name")); try done.
      injection Hc as <-.
      unfold name_too_long, name_bad_pattern, name_double_hyphen, name_mismatch.
      split.
      + rewrite !length_app. repeat case_match; cbn; lia.
      + repeat apply Forall_app_2; repeat case_match; by repeat constructor. }
  assert (length (check_description frontmatter) ≤ 1) as Hd.
  { unfold check_description. repeat case_match; cbn; lia. }
  rewrite !filter_app, !length_app.
  rewrite (filter_all is_name_error ne Hall).
  rewrite (filter_none is_name_error (check_description frontmatter)).
  2:{ eapply Forall_impl; [apply check_description_kind|]. by intros []. }
  rewrite (filter_none is_description_error ne).
  2:{ eapply Forall_impl; [exact Hall|]. by intros []. }
  rewrite (filter_all is_description_error) by apply check_description_kind.
  cbn. lia.
Qed.

End Descriptions.

(** ** The frontmatter and the body *)

Section Frontmatter.
Import Re.

Lemma drop_str_app (w rest : string) :
  drop_str (String.length w) (w +:+ rest) = rest.
Proof.
  induction w as [|c w IH]; [by destruct rest|]. by rewrite string_app_cons.
Qed.

(** A pattern without capturing parentheses leaves the captures alone. *)
Lemma run_group_free (r : regex) (st st' : mstate) :
  group_free r = true → st' ∈ run r st → m_groups st' = m_groups st.
Proof.
  revert st st'.
  induction r as [| | |p|l|r1 IH1 r2 IH2|r1 IH1 r2 IH2|g p|r IH|r IH];
    intros st st'; cbn [run group_free]; intros Hg.
  - by intros ->%list_elem_of_singleton.
  - case_bool_decide; [|by intros ?%elem_of_nil].
    by intros ->%list_elem_of_singleton.
  - destruct (at_eol _); [|by intros ?%elem_of_nil].
    by intros ->%list_elem_of_singleton.
  - destruct (m_rest st) as [|c s']; [by intros ?%elem_of_nil|].
    destruct (p c); [|by intros ?%elem_of_nil].
    by intros ->%list_elem_of_singleton.
  - destruct (strip_prefix l (m_rest st)); [|by intros ?%elem_of_nil].
    by intros ->%list_elem_of_singleton.
  - apply andb_true_iff in Hg as [Hg1 Hg2].
    intros (mid & Hin2 & Hin1)%list_elem_of_bind.
    rewrite (IH2 _ _ Hg2 Hin2). by apply IH1.
  - apply andb_true_iff in Hg as [Hg1 Hg2].
    intros [Hin|Hin]%elem_of_app; [by apply IH1|by apply IH2].
  - destruct g; by intros (x & -> & _)%list_elem_of_fmap.
  - intros [Hin|Hin]%elem_of_app; [by apply IH|].
    by apply list_elem_of_singleton in Hin as ->.
  - done.
Qed.

(** One step of a match by a pattern without capturing parentheses. *)
Lemma run_step (r : regex) (st st' : mstate) :
  group_free r = true → st' ∈ run r st →
  ∃ w, m_rest st = w +:+ m_rest st'
       ∧ m_pos st' = m_pos st + String.length w
       ∧ m_groups st' = m_groups st
       ∧ denote r (m_pos st) w (m_rest st').
Proof.
  intros Hg Hin. destruct (run_sound r st st' Hin) as (w & ? & ? & ?).
  exists w. split_and!; [done..| |done]. by eapply run_group_free.
Qed.

(** X11: when step 2 finds the frontmatter, the text is made of a first
    line [---], the header block that goes to the loader, a line [---],
    and the body that step 6 looks at, in this order and with nothing
    else but whitespace behind the dashes. *)
Theorem frontmatter_partition (content : string) (m : mstate) :
  re_match fm_re content = Some m →
  ∃ ws1 ws2,
    content = "---" +:+ ws1 +:+ nl +:+ group1 m +:+ nl +:+ "---" +:+ ws2 +:+ nl
              +:+ drop_str (m_end m) content
    ∧ all_chars Py.isspace ws1 = true
    ∧ all_chars Py.isspace ws2 = true.
Proof.
  intros Hm%head_Some_elem_of. unfold fm_re in Hm. cbn [run] in Hm.
  apply list_elem_of_bind in Hm as (st1 & Hm & H1).
  apply list_elem_of_bind in Hm as (st2 & Hm & H2).
  apply list_elem_of_bind in Hm as (st3 & Hm & H3).
  apply list_elem_of_bind in Hm as (st4 & Hm & H4).
  apply list_elem_of_bind in Hm as (st5 & Hm & H5).
  apply list_elem_of_bind in Hm as (st6 & Hm & H6).
  apply list_elem_of_bind in Hm as (st7 & H8 & H7).
  apply (run_step Bol) in H1 as (w1 & E1 & P1 & G1 & [-> _]); [|done].
  apply (run_step (Lit "---")) in H2 as (w2 & E2 & P2 & G2 & D2); [|done].
  apply (run_step (Star Greedy Py.isspace)) in H3 as (ws1 & E3 & P3 & G3 & D3); [|done].
  apply (run_step (Lit nl)) in H4 as (w4 & E4 & P4 & G4 & D4); [|done].
  apply list_elem_of_fmap in H5 as (x & -> & Hx).
  apply (run_step (Star Lazy any)) in Hx as (header & E5 & P5 & G5 & _); [|done].
  apply (run_step (Lit (nl +:+ "---"))) in H6 as (w6 & E6 & P6 & G6 & D6); [|done].
  apply (run_step (Star Greedy Py.isspace)) in H7 as (ws2 & E7 & P7 & G7 & D7); [|done].
  apply (run_step (Lit nl)) in H8 as (w8 & E8 & P8 & G8 & D8); [|done].
  cbn [denote] in D2, D3, D4, D6, D7, D8. subst w2 w4 w6 w8.
  cbn [start capture m_pos m_rest m_groups] in *.
  exists ws1, ws2. split; [|done].
  assert (group1 m = header) as ->.
  { unfold group1. rewrite G8, G7, G6, G5, G4, G3, G2, G1. cbn.
    replace (m_pos x - m_pos st4) with (String.length header) by lia.
    by rewrite E5, take_str_app. }
  assert (drop_str (m_end m) content = m_rest m) as ->.
  { unfold m_end.
    assert (content = ("---" +:+ ws1 +:+ nl +:+ header +:+ (nl +:+ "---") +:+ ws2 +:+ nl)
                      +:+ m_rest m) as Hc.
    { rewrite E1, string_app_nil_l, E2, E3, E4, E5, E6, E7, E8.
      by rewrite !string_app_assoc. }
    rewrite Hc at 1.
    replace (m_pos m) with
      (String.length ("---" +:+ ws1 +:+ nl +:+ header +:+ (nl +:+ "---") +:+ ws2 +:+ nl)).
    - apply drop_str_app.
    - rewrite !string_app_length. rewrite string_app_length in P6.
      change (String.length nl) with 1 in *. cbn [String.length] in *. lia. }
  rewrite E1, string_app_nil_l, E2, E3, E4, E5, E6, E7, E8.
  by rewrite !string_app_assoc.
Qed.

End Frontmatter.

(** ** Lines of a reference file *)

Section Lines.

Lemma readlines_nil (s : string) : Py.readlines s = [] → s = "".
Proof.
  destruct s as [|c s]; [done|]. cbn. case_bool_decide; [done|].
  by destruct (Py.readlines s).
Qed.

Lemma last_char_cons (c : ascii) (s : string) :
  s ≠ "" → last_char (String c s) = last_char s.
Proof. by destruct s. Qed.

Lemma readlines_length (s : string) : length (Py.readlines s) = line_count s.
Proof.
  unfold line_count. induction s as [|c s IH]; [done|].
  cbn [Py.readlines count_lf]. destruct s as [|c' s'].
  - cbn. by case_bool_decide.
  - rewrite last_char_cons by done. case_bool_decide.
    + cbn [length]. rewrite IH. lia.
    + destruct (Py.readlines (String c' s')) as [|l ls] eqn:E.
      * by apply readlines_nil in E.
      * cbn [length] in *. rewrite IH. lia.
Qed.

(** Behind a line feed the lines of a text start afresh. *)
Lemma readlines_app (head tail : string) :
  last_char head = Some LF →
  Py.readlines (head +:+ tail) = Py.readlines head ++ Py.readlines tail.
Proof.
  induction head as [|c h IH]; [done|]. intros Hlast.
  rewrite string_app_cons. cbn [Py.readlines]. destruct h as [|c' h'].
  - cbn in Hlast. injection Hlast as ->. by rewrite bool_decide_eq_true_2.
  - rewrite last_char_cons in Hlast by done. rewrite IH by done.
    case_bool_decide; [done|].
    destruct (Py.readlines (String c' h')) as [|l ls] eqn:E; [|done].
    by apply readlines_nil in E.
Qed.

(** X12: the number of lines that step 7 compares with 100 and reports
    is the number of line feeds of the file, plus one when the file does
    not end in a line feed. *)
Theorem toc_warning_line_count (fname text : string) :
  toc_warning fname (Py.readlines text)
  = if (100 <? line_count text) && negb (has_toc (Py.readlines text))
    then [WNoToc fname (line_count text)] else [].
Proof. unfold toc_warning. by rewrite readlines_length. Qed.

(** X13: whether a table of contents is found depends on the first 30
    lines alone: what follows them does not count, a marker there
    included. *)
Theorem toc_marker_within_30_lines (head tail : string) :
  last_char head = Some LF →
  30 ≤ line_count head →
  has_toc (Py.readlines (head +:+ tail)) = has_toc (Py.readlines head).
Proof.
  intros Hlast Hlen. unfold has_toc. rewrite readlines_app by done.
  rewrite take_app_le; [done|]. by rewrite readlines_length.
Qed.

End Lines.

(** ** A slash behind the directory *)

Section TrailingSlash.
Variable safe_load : string → load_result.
Variable fs : filesystem.
Import Re.

Lemma endswith_cons (c : ascii) (s suffix : string) :
  Py.endswith (String c s) suffix
  = bool_decide (String c s = suffix) || Py.endswith s suffix.
Proof. done. Qed.

Lemma endswith_app_slash (p : string) : Py.endswith (p +:+ "/") "/" = true.
Proof.
  induction p as [|c p IH]; [done|].
  rewrite string_app_cons, endswith_cons, IH. apply orb_true_r.
Qed.

Lemma join_trailing_slash (p b : string) :
  p ≠ "" → Py.endswith p "/" = false →
  OsPath.join (p +:+ "/") b = OsPath.join p b.
Proof.
  intros Hne Hend. unfold OsPath.join. destruct (String.prefix "/" b); [done|].
  rewrite endswith_app_slash, orb_true_r, Hend.
  rewrite (bool_decide_eq_false_2 (p = "")) by done. cbn [orb].
  by rewrite string_app_assoc.
Qed.

Lemma split_on_not_nil (sep : ascii) (s : string) : Py.split_on sep s ≠ [].
Proof.
  destruct s as [|c s]; [done|]. cbn. case_bool_decide; [done|].
  by destruct (Py.split_on sep s).
Qed.

Lemma split_on_app_sep (sep : ascii) (p : string) :
  Py.split_on sep (p +:+ String sep "") = Py.split_on sep p ++ [""].
Proof.
  induction p as [|c p IH].
  - rewrite string_app_nil_l. cbn [Py.split_on]. by rewrite bool_decide_eq_true_2.
  - rewrite string_app_cons. cbn [Py.split_on]. rewrite IH.
    case_bool_decide; [done|].
    pose proof (split_on_not_nil sep p).
    by destruct (Py.split_on sep p).
Qed.

Lemma prefix_cons (a b : ascii) (w s : string) :
  String.prefix (String a w) (String b s) = bool_decide (a = b) && String.prefix w s.
Proof.
  cbn. destruct (ascii_dec a b) as [->|Hne].
  - by rewrite bool_decide_eq_true_2.
  - by rewrite bool_decide_eq_false_2.
Qed.

Lemma prefix_nil (s : string) : String.prefix "" s = true.
Proof. by destruct s. Qed.

Lemma initial_slashes_trailing_slash (p : string) :
  p ≠ "" → Py.endswith p "/" = false →
  OsPath.initial_slashes (p +:+ "/") = OsPath.initial_slashes p.
Proof.
  intros Hne Hend. unfold OsPath.initial_slashes.
  destruct p as [|a p]; [done|]. clear Hne.
  rewrite string_app_cons, !prefix_cons, !prefix_nil.
  destruct (decide ("/"%char = a)) as [<-|Ha].
  2:{ by rewrite !(bool_decide_eq_false_2 (_ = a)). }
  rewrite !(bool_decide_eq_true_2 ("/"%char = "/"%char)) by done. cbn [andb].
  destruct p as [|b p]; [done|].
  rewrite string_app_cons, !prefix_cons, !prefix_nil.
  rewrite endswith_cons in Hend. apply orb_false_iff in Hend as [_ Hend].
  destruct (decide ("/"%char = b)) as [<-|Hb].
  2:{ by rewrite !(bool_decide_eq_false_2 (_ = b)). }
  rewrite !(bool_decide_eq_true_2 ("/"%char = "/"%char)) by done. cbn [andb].
  destruct p as [|c p]; [done|].
  by rewrite string_app_cons, !prefix_cons, !prefix_nil.
Qed.

(** One slash behind a path that has none is lost in [normpath]. *)
Lemma normpath_trailing_slash (p : string) :
  p ≠ "" → Py.endswith p "/" = false →
  OsPath.normpath (p +:+ "/") = OsPath.normpath p.
Proof.
  intros Hne Hend. unfold OsPath.normpath, OsPath.norm_comps.
  rewrite initial_slashes_trailing_slash by done.
  rewrite (split_on_app_sep "/" p), foldl_app. cbn [foldl].
  rewrite (bool_decide_eq_false_2 (p = "")) by done.
  rewrite (bool_decide_eq_false_2 (p +:+ "/" = ""))
    by (destruct p; [done|by rewrite string_app_cons]).
  done.
Qed.

(** X14: a slash behind the directory argument changes nothing: the
    same files are read, the directory has the same name, and the
    outcome is the same. *)
Theorem validate_trailing_slash (skill_dir : string) :
  skill_dir ≠ "" →
  Py.endswith skill_dir "/" = false →
  isfile fs (OsPath.join skill_dir "SKILL.md") = true →
  dir_name_of (skill_dir +:+ "/") = dir_name_of skill_dir
  ∧ validate_skill safe_load fs (skill_dir +:+ "/")
    = validate_skill safe_load fs skill_dir.
Proof.
  intros Hne Hend Hfile.
  assert (dir_name_of (skill_dir +:+ "/") = dir_name_of skill_dir) as Hdir.
  { unfold dir_name_of. by rewrite normpath_trailing_slash. }
  split; [done|].
  unfold validate_skill. rewrite !join_trailing_slash by done. rewrite Hfile.
  cbn [negb]. destruct (re_match fm_re _) as [fm_match|]; [|done].
  destruct (safe_load _) as [|[frontmatter|]|]; [done| |done..].
  unfold check_all, check_name, name_mismatch, check_toc, check_nested.
  cbv zeta. by rewrite Hdir, !join_trailing_slash.
Qed.

End TrailingSlash.

(** ** Reading back a skill file *)

Section RoundTrip.
Import Re.

Lemma rstrip_blank (w : string) :
  all_chars Py.isspace w = true → Py.rstrip w = "".
Proof.
  induction w as [|c w IH]; [done|]. cbn.
  intros [Hc Hw]%andb_true_iff. by rewrite (IH Hw), Hc.
Qed.

Lemma rstrip_app (s x : string) :
  Py.rstrip (s +:+ x)
  = if bool_decide (Py.rstrip x = "") then Py.rstrip s else s +:+ Py.rstrip x.
Proof.
  induction s as [|c s IH].
  - rewrite !string_app_nil_l. by case_bool_decide.
  - rewrite string_app_cons. cbn [Py.rstrip]. rewrite IH.
    case_bool_decide as Hx; [done|]. rewrite string_app_cons.
    destruct (s +:+ Py.rstrip x) eqn:E; [|done].
    destruct s; [|by rewrite string_app_cons in E].
    rewrite string_app_nil_l in E. done.
Qed.

Lemma lstrip_app_blank (w y : string) :
  all_chars Py.isspace w = true → Py.lstrip (w +:+ y) = Py.lstrip y.
Proof.
  induction w as [|c w IH]; [done|]. cbn [all_chars].
  intros [Hc Hw]%andb_true_iff. rewrite string_app_cons. cbn [Py.lstrip].
  by rewrite Hc, IH.
Qed.

(** Whitespace in front of a text is lost in [strip]. *)
Lemma strip_app_blank (w x : string) :
  all_chars Py.isspace w = true → Py.strip (w +:+ x) = Py.strip x.
Proof.
  intros Hw. unfold Py.strip. rewrite rstrip_app. case_bool_decide as Hx.
  - by rewrite Hx, rstrip_blank.
  - by apply lstrip_app_blank.
Qed.

Lemma strip_prefix_app (w s : string) : strip_prefix w (w +:+ s) = Some s.
Proof. by apply strip_prefix_Some. Qed.

(** Where the header block holds no line that begins with three dashes,
    no delimiter line is found before the end of the block. *)
Lemma no_delimiter_inside (header rest : string) (k : nat) :
  Py.contains (nl +:+ "---") header = false →
  k < String.length header →
  strip_prefix (nl +:+ "---") (drop_str k (header +:+ nl +:+ rest)) = None.
Proof.
  revert k. induction header as [|a h IH]; intros k Hc Hk; [cbn in Hk; lia|].
  cbn [Py.contains] in Hc. apply orb_false_iff in Hc as [Hpre Hc].
  destruct k as [|k].
  2:{ rewrite string_app_cons. cbn [drop_str]. apply IH; [done|cbn in Hk; lia]. }
  cbn [drop_str]. clear IH Hc Hk.
  change (nl +:+ "---") with (String LF "---") in *.
  rewrite string_app_cons. cbn [strip_prefix].
  rewrite prefix_cons in Hpre. case_bool_decide as Ha; [|done]. cbn [andb] in Hpre.
  destruct h as [|b h]; [done|].
  rewrite string_app_cons. cbn [strip_prefix].
  rewrite prefix_cons in Hpre. case_bool_decide as Hb; [|done]. cbn [andb] in Hpre.
  destruct h as [|c h]; [done|].
  rewrite string_app_cons. cbn [strip_prefix].
  rewrite prefix_cons in Hpre. case_bool_decide as Hc; [|done]. cbn [andb] in Hpre.
  destruct h as [|d h]; [done|].
  rewrite string_app_cons. cbn [strip_prefix].
  rewrite prefix_cons, prefix_nil in Hpre. case_bool_decide as Hd; [|done]. done.
Qed.

(** The lazy star hands over its shortest candidates first: those on
    which what follows fails are passed by. *)
Lemma star_lazy_skip (st : mstate) (f : mstate → list mstate)
    (w rest : string) (pos : nat) :
  (∀ k, k < String.length w →
        f (capture st (move st (pos + k, drop_str k (w +:+ rest)))) = []) →
  (capture st <$> (move st <$> star_lazy any pos (w +:+ rest))) ≫= f
  = (capture st <$> (move st <$> star_lazy any (pos + String.length w) rest)) ≫= f.
Proof.
  revert pos. induction w as [|c w IH]; intros pos Hskip.
  - rewrite string_app_nil_l. cbn [String.length]. by rewrite Nat.add_0_r.
  - rewrite string_app_cons. cbn [star_lazy any]. rewrite !fmap_cons, bind_cons.
    pose proof (Hskip 0) as H0. rewrite Nat.add_0_r in H0.
    cbn [drop_str] in H0. rewrite string_app_cons in H0.
    rewrite H0 by (cbn; lia). cbn [app]. rewrite IH.
    + cbn [String.length]. by replace (pos + S (String.length w))
        with (S pos + String.length w) by lia.
    + intros k Hk. specialize (Hskip (S k)).
      replace (pos + S k) with (S pos + k) in Hskip by lia.
      rewrite string_app_cons in Hskip. cbn [drop_str] in Hskip.
      apply Hskip. cbn. lia.
Qed.

Lemma star_lazy_first (p : ascii → bool) (pos : nat) (s : string) :
  ∃ others, star_lazy p pos s = (pos, s) :: others.
Proof. destruct s; by eexists. Qed.

Lemma re_match_rest (r : regex) (s : string) (m : mstate) :
  re_match r s = Some m → drop_str (m_end m) s = m_rest m.
Proof.
  intros (w & E & P & _)%head_Some_elem_of%run_sound.
  cbn [start m_rest m_pos] in *. unfold m_end. rewrite P, E. cbn.
  apply drop_str_app.
Qed.

Lemma bind_one {A B} (f : A → list B) (x : A) : [x] ≫= f = f x.
Proof. rewrite bind_cons. apply app_nil_r. Qed.

Lemma bind_empty {A B} (f : A → list B) : [] ≫= f = [].
Proof. done. Qed.

Lemma run_seq (r1 r2 : regex) (st : mstate) :
  run (Seq r1 r2) st = run r1 st ≫= run r2.
Proof. done. Qed.

Lemma run_lit_app (w rest : string) (pos : nat) (gs : list string) :
  run (Lit w) (MState pos (w +:+ rest) gs)
  = [MState (pos + String.length w) rest gs].
Proof. cbn [run m_rest]. by rewrite strip_prefix_app. Qed.

Lemma isspace_LF : Py.isspace LF = true.
Proof. done. Qed.

Lemma run_bol (s : string) : run Bol (start 0 s) = [start 0 s].
Proof. done. Qed.

Lemma run_star_greedy (p : ascii → bool) (st : mstate) :
  run (Star Greedy p) st = move st <$> star_greedy p (m_pos st) (m_rest st).
Proof. done. Qed.

Lemma run_group_lazy (st : mstate) :
  run (Group (Star Lazy any)) st
  = capture st <$> (move st <$> star_lazy any (m_pos st) (m_rest st)).
Proof. done. Qed.

Lemma run_lit_fail (w : string) (st : mstate) :
  strip_prefix w (m_rest st) = None → run (Lit w) st = [].
Proof. intros H. cbn [run]. by rewrite H. Qed.

(** The opening line of a written-out skill file is matched in one way
    only. *)
Lemma run_opening (header rest : string) (r : regex) :
  starts_with_text header = true →
  run (Bol · Lit "---" · Star Greedy Py.isspace · Lit nl · r)%re
      (start 0 ("---" +:+ nl +:+ header +:+ rest))
  = run r (MState 4 (header +:+ rest) []).
Proof.
  intros Hh. destruct header as [|h header]; [done|]. cbn in Hh.
  apply negb_true_iff in Hh.
  assert (LF ≠ h) as Hlf by (intros <-; by rewrite isspace_LF in Hh).
  rewrite run_seq, run_bol, bind_one, run_seq. unfold start.
  rewrite run_lit_app, bind_one, run_seq, run_star_greedy.
  cbn [m_pos m_rest Nat.add String.length].
  change (nl +:+ String h header +:+ rest)
    with (String LF (String h (header +:+ rest))).
  cbn [star_greedy]. rewrite isspace_LF, Hh. cbn [app fmap list_fmap].
  unfold move. cbn [fst snd m_groups].
  rewrite !bind_cons, bind_empty, app_nil_r, !run_seq.
  rewrite run_lit_fail.
  2:{ cbn [m_rest strip_prefix nl]. by rewrite bool_decide_eq_false_2. }
  rewrite bind_empty. cbn [app].
  change (String LF (String h (header +:+ rest)))
    with (nl +:+ String h header +:+ rest).
  by rewrite run_lit_app, bind_one.
Qed.

(** X15: a skill file written out as [---], a header block, [---] and a
    body is read back as written: the loader is given exactly the header
    block and step 6 counts the lines of the trimmed body.  This needs a
    header block that starts with a character that is not whitespace and
    holds no line beginning with three dashes. *)
Theorem frontmatter_round_trip (header body : string) :
  starts_with_text header = true →
  Py.contains (nl +:+ "---") header = false →
  ∃ m, re_match fm_re (skill_file header body) = Some m
       ∧ group1 m = header
       ∧ body_lines (skill_file header body) m = Py.splitlines (Py.strip body).
Proof.
  intros Hstart Hinside.
  set (closing := (Lit (nl +:+ "---") · Star Greedy Py.isspace · Lit nl)%re).
  set (R := nl +:+ "---" +:+ nl +:+ body).
  set (st4 := MState 4 (header +:+ R) []).
  set (x0 := capture st4 (move st4 (4 + String.length header, R))).
  assert (∃ others, run fm_re (start 0 (skill_file header body))
                    = run closing x0 ++ others) as [others Hall].
  { unfold fm_re, skill_file. fold closing. fold R.
    rewrite (run_opening header R _ Hstart), run_seq. fold st4.
    rewrite run_group_lazy. change (m_pos st4) with 4.
    change (m_rest st4) with (header +:+ R).
    rewrite star_lazy_skip.
    2:{ intros k Hk. unfold closing. rewrite run_seq, run_lit_fail; [done|].
        cbn [capture move fst snd m_rest]. unfold R.
        by apply no_delimiter_inside. }
    destruct (star_lazy_first any (4 + String.length header) R) as [tl ->].
    rewrite !fmap_cons, bind_cons. fold x0. by eexists. }
  assert (m_groups x0 = [header]) as Hg0.
  { unfold x0. cbn. by rewrite Nat.sub_0_r, take_str_app. }
  assert (m_rest x0 = R) as Hr0 by done.
  destruct (run_complete closing x0 (nl +:+ "---" +:+ nl) body) as (g & Hin).
  { rewrite Hr0. unfold R. by rewrite !string_app_assoc. }
  { unfold closing. cbn [denote]. exists (nl +:+ "---"), nl. split_and!; [done..|].
    exists "", nl. done. }
  destruct (run closing x0) as [|m ms] eqn:Hrun; [by apply elem_of_nil in Hin|].
  assert (re_match fm_re (skill_file header body) = Some m) as Hmatch.
  { unfold re_match. by rewrite Hall. }
  exists m. split; [done|].
  assert (m ∈ run closing x0) as Hm by (rewrite Hrun; by left).
  apply run_step in Hm as (w & E & _ & G & D); [|done].
  split; [unfold group1; by rewrite G, Hg0|].
  unfold body_lines. rewrite (re_match_rest _ _ _ Hmatch). f_equal.
  rewrite Hr0 in E. unfold closing in D. cbn [denote] in D.
  destruct D as (w1 & w2 & -> & -> & u & w3 & -> & Hu & ->).
  unfold R in E. rewrite !string_app_assoc in E.
  apply (inj (String.app nl)) in E. apply (inj (String.app "---")) in E.
  destruct u as [|a u].
  - change (nl +:+ body = nl +:+ m_rest m) in E.
    apply (inj (String.app nl)) in E. by rewrite E.
  - rewrite string_app_cons in E. change (nl +:+ body) with (String LF body) in E.
    injection E as <- ->. symmetry.
    rewrite <- string_app_assoc. apply strip_app_blank.
    cbn in Hu. apply andb_true_iff in Hu as [_ Hu].
    by rewrite all_chars_app, Hu.
Qed.

End RoundTrip.

(** ** The name of the directory *)

Section DirectoryName.

Lemma split_on_no_sep (sep : ascii) (s : string) :
  Forall (λ x, Py.has_char sep x = false) (Py.split_on sep s).
Proof.
  induction s as [|c s IH]; [by repeat constructor|].
  cbn [Py.split_on]. case_bool_decide as Hc; [by constructor|].
  destruct (Py.split_on sep s) as [|l ls].
  - repeat constructor. cbn. by rewrite bool_decide_eq_false_2.
  - apply Forall_cons in IH as [Hl Hls]. constructor; [|done].
    cbn. by rewrite bool_decide_eq_false_2, Hl.
Qed.

Lemma split_on_plain (sep : ascii) (x : string) :
  Py.has_char sep x = false → Py.split_on sep x = [x].
Proof.
  induction x as [|c x IH]; [done|]. cbn.
  intros [Hc Hx]%orb_false_iff. rewrite Hc, (IH Hx). done.
Qed.

Lemma split_on_app_plain (sep : ascii) (x rest : string) :
  Py.has_char sep x = false →
  Py.split_on sep (x +:+ String sep rest) = x :: Py.split_on sep rest.
Proof.
  induction x as [|c x IH].
  - intros _. rewrite string_app_nil_l. cbn [Py.split_on].
    by rewrite bool_decide_eq_true_2.
  - cbn [Py.has_char]. intros [Hc Hx]%orb_false_iff.
    rewrite string_app_cons. cbn [Py.split_on]. by rewrite Hc, (IH Hx).
Qed.

(** Joining components with slashes and splitting at the slashes gives
    the components back. *)
Lemma split_on_join (comps : list string) :
  comps ≠ [] →
  Forall (λ x, Py.has_char "/" x = false) comps →
  Py.split_on "/" (Py.join "/" comps) = comps.
Proof.
  intros Hne Hall. induction Hall as [|x l Hx Hl IH]; [done|]. clear Hne.
  unfold Py.join in *. cbn [String.concat]. destruct l as [|y l].
  - by apply split_on_plain.
  - change (String.append x (String.append "/" ?r)) with (x +:+ String "/" r).
    rewrite split_on_app_plain by done. by rewrite IH.
Qed.

Lemma split_on_slashes (n : nat) (s : string) :
  Py.split_on "/" (OsPath.slashes n +:+ s) = replicate n "" ++ Py.split_on "/" s.
Proof.
  induction n as [|n IH]; [done|]. cbn [OsPath.slashes replicate].
  rewrite string_app_cons. cbn [Py.split_on].
  by rewrite bool_decide_eq_true_2, IH.
Qed.

Lemma norm_step_comps (initial : nat) (comps : list string) (comp : string) :
  Forall (λ x, x ≠ "" ∧ Py.has_char "/" x = false) comps →
  Py.has_char "/" comp = false →
  Forall (λ x, x ≠ "" ∧ Py.has_char "/" x = false)
         (OsPath.norm_step initial comps comp).
Proof.
  intros Hall Hc. unfold OsPath.norm_step.
  case_bool_decide as H1; [done|]. destruct (bool_decide (comp = ".")); [done|].
  cbn [orb]. destruct (_ || _).
  - apply Forall_app_2; [done|]. by repeat constructor.
  - clear -Hall. induction Hall as [|x l Hx Hl IH]; [constructor|].
    destruct l; [constructor|]. cbn [removelast] in *. by constructor.
Qed.

Lemma norm_comps_plain (path : string) :
  Forall (λ x, x ≠ "" ∧ Py.has_char "/" x = false) (OsPath.norm_comps path).
Proof.
  unfold OsPath.norm_comps.
  pose proof (split_on_no_sep "/" path) as Hsplit.
  generalize (@nil string) (Forall_nil_2 (λ x : string, x ≠ "" ∧ Py.has_char "/" x = false)).
  induction Hsplit as [|c l Hc Hl IH]; intros acc Hacc; [done|].
  cbn [foldl]. apply IH. by apply norm_step_comps.
Qed.

Lemma join_cons_not_empty (x : string) (l : list string) :
  x ≠ "" → Py.join "/" (x :: l) ≠ "".
Proof.
  intros Hx. unfold Py.join. cbn [String.concat].
  destruct l; [done|]. by destruct x.
Qed.

(** X16: the directory name that step 3 compares the name with is the
    last path component that is left once empty components and [.] are
    dropped and [..] is resolved; it is [.] when nothing is left of a
    relative path and empty for the root.  It never holds a slash. *)
Theorem dir_name_is_last_component (path : string) :
  dir_name_of path = last_component path
  ∧ Py.has_char "/" (dir_name_of path) = false.
Proof.
  assert (dir_name_of path = last_component path) as Heq.
  { unfold dir_name_of, last_component, OsPath.normpath, OsPath.basename.
    pose proof (norm_comps_plain path) as Hall.
    destruct (decide (path = "")) as [->|Hne]; [done|].
    rewrite (bool_decide_eq_false_2 (path = "")) by done.
    destruct (OsPath.norm_comps path) as [|x l] eqn:Hc using rev_ind.
    - unfold Py.join. cbn [String.concat last]. rewrite string_app_nil_r.
      destruct (OsPath.initial_slashes path) as [|n] eqn:Hi; [done|].
      rewrite (bool_decide_eq_false_2 (OsPath.slashes (S n) = "")) by done.
      rewrite bool_decide_eq_false_2 by done.
      rewrite <- (string_app_nil_r (OsPath.slashes (S n))), split_on_slashes.
      cbn [Py.split_on]. rewrite last_app. done.
    - clear IHl. rewrite last_snoc.
      assert (Py.join "/" (l ++ [x]) ≠ "") as Hj.
      { apply Forall_app in Hall as [Hl Hx]. apply Forall_cons in Hx as [[Hx _] _].
        destruct l as [|y l]; [by apply join_cons_not_empty|].
        apply Forall_cons in Hl as [[Hy _] _]. by apply join_cons_not_empty. }
      rewrite bool_decide_eq_false_2.
      2:{ destruct (OsPath.slashes _); [by rewrite string_app_nil_l|done]. }
      rewrite split_on_slashes, split_on_join.
      + by rewrite app_assoc, last_snoc.
      + by destruct l.
      + eapply Forall_impl; [exact Hall|]. by intros ? [_ ?]. }
  split; [done|]. rewrite Heq. unfold last_component.
  pose proof (norm_comps_plain path) as Hall.
  destruct (last (OsPath.norm_comps path)) as [c|] eqn:Hl.
  - apply last_Some_elem_of in Hl. rewrite Forall_forall in Hall.
    by destruct (Hall c Hl).
  - by case_bool_decide.
Qed.

End DirectoryName.

(** ** The links that step 8 lists *)

Section Links.
Import Re.

Lemma interleaved_cons (xs : list string) (c : ascii) (s : string) :
  interleaved xs s → interleaved xs (String c s).
Proof.
  destruct xs as [|x xs]; [done|]. cbn [interleaved].
  intros (pre & rest & -> & H). exists (String c pre), rest. done.
Qed.

Lemma interleaved_take (n : nat) (xs : list string) (s : string) :
  interleaved xs s → interleaved (take n xs) s.
Proof.
  revert n s. induction xs as [|x xs IH]; intros [|n] s; try done.
  cbn [take interleaved]. intros (pre & rest & -> & H).
  exists pre, rest. split; [done|]. by apply IH.
Qed.

Lemma take_drop_str (n : nat) (s : string) :
  take_str n s +:+ drop_str n s = s.
Proof.
  revert n. induction s as [|c s IH]; intros [|n]; try done.
  cbn [take_str drop_str]. by rewrite string_app_cons, IH.
Qed.

Lemma findall_from_interleaved (r : regex) (pos : nat) (s : string) (skip : nat) :
  interleaved (findall_from r pos s skip) (drop_str skip s).
Proof.
  revert pos skip. induction s as [|c s IH]; intros pos skip; [by destruct skip|].
  cbn [findall_from]. destruct skip as [|k]; [|apply IH].
  cbn [drop_str].
  destruct (head (run r (start pos (String c s)))) as [m|];
    [|apply interleaved_cons, (IH (S pos) 0)].
  cbn [interleaved]. destruct (m_pos m - pos) as [|n] eqn:En.
  - exists "", (String c s). split; [done|].
    apply interleaved_cons, (IH (S pos) 0).
  - exists "", (drop_str (S n) (String c s)). split.
    + by rewrite string_app_nil_l, take_drop_str.
    + cbn [drop_str]. replace (S n - 1) with n by lia. apply IH.
Qed.

(** X17: the links that step 8 finds in a reference file are pieces of
    its text that follow each other without overlap; those listed in the
    warning are the first three of them. *)
Theorem nested_links_interleaved (fname text : string) :
  interleaved (findall nested_re text) text
  ∧ ∀ w, w ∈ nested_warning fname text →
         ∃ links, w = WNested fname links
                  ∧ links = take 3 (findall nested_re text)
                  ∧ interleaved links text.
Proof.
  assert (interleaved (findall nested_re text) text) as Hall
    by apply (findall_from_interleaved nested_re 0 text 0).
  split; [done|]. intros w. unfold nested_warning. cbv zeta.
  case_bool_decide; [|by intros ?%elem_of_nil].
  intros ->%list_elem_of_singleton. eexists. split_and!; [done..|].
  by apply interleaved_take.
Qed.

End Links.

(** ** The further properties on sample directories *)

Lemma license_warning_iff_witness :
  ∃ errors warnings,
    validate_skill sample_loader
      (dir_fs "skills/my-skill" name_only_header ["# My skill"]) "skills/my-skill"
    = Returned errors warnings
    ∧ ∃ others, warnings = WNoLicense :: others ∧ WNoLicense ∉ others.
Proof.
  apply (license_warning_iff sample_loader
           (dir_fs "skills/my-skill" name_only_header ["# My skill"])
           "skills/my-skill"
           (skill_text (dir_fs "skills/my-skill" name_only_header ["# My skill"])
                       "skills/my-skill")
           (the_match (skill_text
              (dir_fs "skills/my-skill" name_only_header ["# My skill"])
              "skills/my-skill"))
           name_only_meta);
    [sample_parses|evaluates].
Defined.

Lemma validate_footprint_witness :
  validate_skill sample_loader
    (refs_fs (ref_text_of "[see](references/b.md)" 101) "# B") "skills/my-skill"
  = validate_skill sample_loader
      (shuffled_refs_fs (ref_text_of "[see](references/b.md)" 101) "# B")
      "skills/my-skill".
Proof.
  assert (listdir (refs_fs (ref_text_of "[see](references/b.md)" 101) "# B")
            (OsPath.join "skills/my-skill" "references")
          = ["notes.txt"; "b.md"; "old.md"; "a.md"]) as Hl1 by evaluates.
  assert (listdir (shuffled_refs_fs (ref_text_of "[see](references/b.md)" 101) "# B")
            (OsPath.join "skills/my-skill" "references")
          = ["a.md"; "old.md"; "notes.txt"; "b.md"]) as Hl2 by evaluates.
  apply validate_footprint. unfold same_footprint. cbv zeta. rewrite Hl1, Hl2.
  split_and!; [evaluates..| |].
  - apply (bool_decide_unpack _). by vm_compute.
  - intros fname Hin Hmd. rewrite !elem_of_cons, elem_of_nil in Hin.
    destruct Hin as [->|[->|[->|[->|[]]]]]; try (by vm_compute in Hmd);
      split; evaluates.
Defined.

Lemma directory_name_must_pass_witness :
  ∃ errors warnings,
    validate_skill sample_loader dot_fs "." = Returned errors warnings
    ∧ (ENamePattern "my-skill" ∈ errors
       ∨ ENameMismatch "my-skill" (dir_name_of ".") ∈ errors).
Proof.
  apply (directory_name_must_pass sample_loader dot_fs "."
           (skill_text dot_fs ".") (the_match (skill_text dot_fs "."))
           good_meta "my-skill");
    [sample_parses|evaluates|done|evaluates].
Defined.

Example skill_in_the_current_directory :
  validate_skill_text sample_loader dot_fs "."
  = inr (["'name' (my-skill) does not match directory name (.)"], []).
Proof. evaluates. Qed.

Lemma short_description_never_too_long_witness :
  ∃ errors warnings,
    validate_skill sample_loader (body_fs 3) "skills/my-skill"
    = Returned errors warnings
    ∧ ∀ n, EDescTooLong n ∉ errors.
Proof.
  apply (short_description_never_too_long sample_loader (body_fs 3)
           "skills/my-skill" (skill_text (body_fs 3) "skills/my-skill")
           (the_match (skill_text (body_fs 3) "skills/my-skill"))
           good_meta (PStr "A skill"));
    [sample_parses|evaluates|evaluates|vm_compute; lia].
Defined.

Lemma falsy_description_is_missing_witness :
  ∃ errors warnings,
    validate_skill wider_loader zero_desc_fs "skills/my-skill"
    = Returned errors warnings
    ∧ filter (λ e, is_description_error e = true) errors = [EDescMissing].
Proof.
  apply (falsy_description_is_missing wider_loader zero_desc_fs
           "skills/my-skill" (skill_text zero_desc_fs "skills/my-skill")
           (the_match (skill_text zero_desc_fs "skills/my-skill"))
           zero_desc_meta (PInt 0));
    [sample_parses|evaluates|evaluates|evaluates].
Defined.

(** Five errors at once: the bound is reached. *)
Lemma at_most_five_errors_witness :
  length [ENameTooLong 66; ENamePattern bad_name; ENameHyphens bad_name;
          ENameMismatch bad_name "foo"; EDescMissing] ≤ 5
  ∧ length (filter (λ e, is_name_error e = true)
              [ENameTooLong 66; ENamePattern bad_name; ENameHyphens bad_name;
               ENameMismatch bad_name "foo"; EDescMissing]) ≤ 4
  ∧ length (filter (λ e, is_description_error e = true)
              [ENameTooLong 66; ENamePattern bad_name; ENameHyphens bad_name;
               ENameMismatch bad_name "foo"; EDescMissing]) ≤ 1.
Proof.
  apply (at_most_five_errors wider_loader (header_fs bad_name_header) "skills/foo"
           _ [WNoLicense]).
  evaluates.
Defined.

Lemma frontmatter_partition_witness :
  ∃ ws1 ws2,
    skill_md good_header ["# My skill"]
    = "---" +:+ ws1 +:+ nl
      +:+ group1 (the_match (skill_md good_header ["# My skill"])) +:+ nl
      +:+ "---" +:+ ws2 +:+ nl
      +:+ drop_str (m_end (the_match (skill_md good_header ["# My skill"])))
            (skill_md good_header ["# My skill"])
    ∧ all_chars Py.isspace ws1 = true
    ∧ all_chars Py.isspace ws2 = true.
Proof. apply frontmatter_partition. evaluates. Defined.

Lemma toc_marker_within_30_lines_witness :
  has_toc (Py.readlines (ref_text_of "# A" 30 +:+ "## Contents"))
  = has_toc (Py.readlines (ref_text_of "# A" 30)).
Proof. apply toc_marker_within_30_lines; [evaluates|vm_compute; lia]. Defined.

(** A marker on line 31 comes too late. *)
Example contents_on_line_31 :
  validate_skill sample_loader
    (refs_fs (ref_text_of "# A" 30 +:+ ref_text_of "## Contents" 71) "")
    "skills/my-skill"
  = Returned [] [WNoToc "a.md" 101].
Proof. evaluates. Qed.

Lemma validate_trailing_slash_witness :
  dir_name_of ("skills/my-skill" +:+ "/") = dir_name_of "skills/my-skill"
  ∧ validate_skill sample_loader long_refs_fs ("skills/my-skill" +:+ "/")
    = validate_skill sample_loader long_refs_fs "skills/my-skill".
Proof. apply validate_trailing_slash; [done|evaluates|evaluates]. Defined.

Lemma frontmatter_round_trip_witness :
  ∃ m, re_match fm_re (skill_file (header_text good_header) (unlines (lines_of 3)))
       = Some m
       ∧ group1 m = header_text good_header
       ∧ body_lines (skill_file (header_text good_header) (unlines (lines_of 3))) m
         = Py.splitlines (Py.strip (unlines (lines_of 3))).
Proof. apply frontmatter_round_trip; evaluates. Defined.

(** Blank lines between the frontmatter and the body go with the
    delimiter line. *)
Example blank_lines_before_the_body :
  m_rest <$> re_match fm_re (skill_file "name: x" (nl +:+ " " +:+ nl +:+ "body"))
  = Some "body".
Proof. evaluates. Qed.

(** *** The command line *)

Example run_without_argument :
  main sample_loader (body_fs 3) ["validate-skill.py"] = (usage, Exit 1).
Proof. evaluates. Qed.

Example run_on_a_good_skill :
  (let '(printed, status) :=
     main sample_loader (fs_of [("skills/my-skill/SKILL.md", skill_md good_header ["# My skill"])]
                               [("skills/my-skill", ["SKILL.md"])])
          ["validate-skill.py"; "skills/my-skill"] in
   (stdout_text printed, status))
  = (unlines ["Validating skill: skills/my-skill"; chars 60 "=";
              nl +:+ " All checks passed!"; ""],
     Exit 0).
Proof. evaluates. Qed.

Example run_with_warnings_only :
  (main sample_loader
     (fs_of [("skills/my-skill/SKILL.md", skill_md name_only_header ["# My skill"])]
            [("skills/my-skill", ["SKILL.md"])])
     ["validate-skill.py"; "skills/my-skill"])
  = (["Validating skill: skills/my-skill"; chars 60 "=";
      nl +:+ " ERRORS (1):";
      "  - Missing or empty 'description' field in frontmatter";
      nl +:+ " WARNINGS (1):";
      "  - No 'license' field in frontmatter (recommended)";
      ""],
     Exit 1).
Proof. evaluates. Qed.

Example run_that_raises :
  (main sample_loader
     (fs_of [("skills/foo/SKILL.md", skill_md [""] ["# Foo"])] [("skills/foo", ["SKILL.md"])])
     ["validate-skill.py"; "skills/foo"])
  = (["Validating skill: skills/foo"; chars 60 "="], Uncaught AttributeError).
Proof. evaluates. Qed.

(** *** Calls that fail *)

Lemma faults_only_raise_witness :
  validate_skill sample_loader long_refs_fs "skills/my-skill"
  = Returned []
      [WNoToc "a.md" 101; WNoToc "b.md" 101;
       WNested "a.md" ["[see](references/b.md)"];
       WNested "b.md" ["[a](./a.md)"; "[c](./c.md)"]].
Proof.
  apply (faults_only_raise cpython sample_loader long_refs_fs "skills/my-skill").
  evaluates.
Defined.


(** A reference file that is not UTF-8 ends the call in step 7; the
    same directory in a world where it can be read draws nothing. *)
Example reference_that_cannot_be_decoded :
  validate_skill_under undecodable_a sample_loader (refs_fs "# A" "# B")
    "skills/my-skill"
  = Raised UnicodeDecodeError
  ∧ validate_skill_under no_faults sample_loader (refs_fs "# A" "# B")
      "skills/my-skill"
    = Returned [] [].
Proof. split; evaluates. Qed.

(** A description of 4817 digits cannot be printed. *)
Example description_past_the_digit_limit :
  (10 ^ 4816 ≤ huge_desc < 10 ^ 4817)%Z
  ∧ validate_skill_under cpython raising_loader
      (dir_fs "skills/my-skill" huge_desc_header ["# My skill"]) "skills/my-skill"
    = Raised ValueError.
Proof.
  split; [|evaluates].
  split; [apply Z.leb_le|apply Z.ltb_lt]; evaluates.
Qed.

(** The loader raises on a date with a month 13, and so does the call. *)
Example date_with_a_month_13 :
  validate_skill_under cpython raising_loader
    (dir_fs "skills/my-skill" dated_header ["# My skill"]) "skills/my-skill"
  = Raised ValueError.
Proof. evaluates. Qed.
